(** * TranslationPatcher: folder taxonomy, patch synchronisation, distribution

    A shallow embedding of [TranslationPatcher.py] and the properties of
    its folder-name grammar, its parameter check, its patch creation and
    application loops and its distribution resolver.

    Conventions of the embedding.
    - A Python [str] is a Rocq [string]; a character is a code point below
      256, the range in which the regular-expression class [\d] is exactly
      the ten ASCII digits.
    - [None] is [None] of an [option]; Python truthiness is written out
      ([truthy_str], [truthy_json]).
    - A [dict] is a [gmap]; a dict only ever iterated is a list of items in
      iteration order.
    - A file path is the list of its segments, which is how the program
      compares "simple names" ([extpath] returns a list).
    - The file system is a finite map from paths to file contents, threaded
      through the loops explicitly. *)

From Stdlib Require Import ZArith NArith QArith Ascii String List Lia.
From stdpp Require Import base option list strings gmap fin_maps sorting.

Local Open Scope string_scope.

(** ** Python string helpers *)

Module Py.

(** Truthiness of a [str]: only the empty string is falsy. *)
Definition truthy_str (s : string) : bool :=
  match s with EmptyString => false | String _ _ => true end.

(** Truthiness of a value that is [None] or a [str]. *)
Definition truthy (o : option string) : bool :=
  match o with None => false | Some s => truthy_str s end.

(** [s.split(sep)] for a one-character separator: every occurrence
    splits, and the result always has at least one element. *)
Fixpoint split (sep : ascii) (s : string) : list string :=
  match s with
  | EmptyString => [ "" ]
  | String c r =>
      if Ascii.eqb c sep then "" :: split sep r
      else match split sep r with
           | h :: t => String c h :: t
           | [] => [ String c "" ]
           end
  end.

(** [sep in s] *)
Fixpoint contains (sep : ascii) (s : string) : bool :=
  match s with
  | EmptyString => false
  | String c r => Ascii.eqb c sep || contains sep r
  end.

(** [s[-1]], when [s] is not empty *)
Fixpoint last_char (s : string) : option ascii :=
  match s with
  | EmptyString => None
  | String c EmptyString => Some c
  | String _ r => last_char r
  end.

(** [a in b] for two strings: [a] occurs in [b]. *)
Fixpoint is_substring (a b : string) : bool :=
  String.prefix a b
  || match b with
     | EmptyString => false
     | String _ r => is_substring a r
     end.

(** [s.endswith(c)] together with the string before that last
    character. *)
Fixpoint strip_last (c : ascii) (s : string) : option string :=
  match s with
  | EmptyString => None
  | String a EmptyString => if Ascii.eqb a c then Some "" else None
  | String a r => String a <$> strip_last c r
  end.

End Py.

(** ** Regular expressions, as far as [re.match] is used *)

Module Re.

Inductive regex : Type :=
| Void : regex
| Eps : regex
| Chr : ascii -> regex
| Digit : regex                      (* [\d] *)
| Cat : regex -> regex -> regex
| Alt : regex -> regex -> regex
| Star : regex -> regex.

Definition Plus (r : regex) : regex := Cat r (Star r).

Definition is_digit (c : ascii) : bool :=
  let n := nat_of_ascii c in (48 <=? n)%nat && (n <=? 57)%nat.

Fixpoint nullable (r : regex) : bool :=
  match r with
  | Void | Chr _ | Digit => false
  | Eps | Star _ => true
  | Cat a b => nullable a && nullable b
  | Alt a b => nullable a || nullable b
  end.

Fixpoint deriv (c : ascii) (r : regex) : regex :=
  match r with
  | Void | Eps => Void
  | Chr d => if Ascii.eqb c d then Eps else Void
  | Digit => if is_digit c then Eps else Void
  | Cat a b =>
      if nullable a then Alt (Cat (deriv c a) b) (deriv c b)
      else Cat (deriv c a) b
  | Alt a b => Alt (deriv c a) (deriv c b)
  | Star a => Cat (deriv c a) (Star a)
  end.

(** The whole of [s] is a word of [r]. *)
Fixpoint fullmatch (r : regex) (s : string) : bool :=
  match s with
  | EmptyString => nullable r
  | String c t => fullmatch (deriv c r) t
  end.

(** [re.match('^' + r + '$', s)] without flags: [$] holds at the end of
    the string and also just before a newline that ends the string. *)
Definition match_anchored (r : regex) (s : string) : bool :=
  fullmatch r s
  || match Py.strip_last "010"%char s with
     | Some w => fullmatch r w
     | None => false
     end.

End Re.

(** ** Folder taxonomy: [splitFolder] and [joinFolder] *)

(** [v\d(\.\d+)*] *)
Definition version_pattern : Re.regex :=
  Re.Cat (Re.Chr "v")
    (Re.Cat Re.Digit
       (Re.Star (Re.Cat (Re.Chr ".") (Re.Plus Re.Digit)))).

(** The test of [splitFolder]: [re.match('^v\d(\.\d+)*$', s)]. *)
Definition is_version (s : string) : bool :=
  Re.match_anchored version_pattern s.

(** The words of the grammar [v\d(\.\d+)*] themselves. *)
Definition version_grammar (s : string) : bool :=
  Re.fullmatch version_pattern s.

Definition splitFolder (folder : string) : gmap string string :=
  let a := Py.split "_" folder in
  let parts : gmap string string := {[ "folder" := List.hd "" a ]} in
  let parts :=
    match a with
    | _ :: a1 :: _ =>
        if is_version a1 then <[ "version" := a1 ]> parts
        else <[ "lang" := a1 ]> parts
    | _ => parts
    end in
  match a with
  | _ :: _ :: a2 :: _ => <[ "lang" := a2 ]> parts
  | _ => parts
  end.

Definition joinFolder (folder : string) (language : option string)
    (version : option string) : string :=
  let name := folder in
  let name :=
    match version with
    | Some v => if Py.truthy_str v then name ++ "_" ++ v else name
    | None => name
    end in
  match language with
  | Some l => if Py.truthy_str l then name ++ "_" ++ l else name
  | None => name
  end.

(** The dictionary the round trip is expected to give back. *)
Definition descriptor_lookup (b : string) (l v : option string)
    (k : string) : option string :=
  if String.eqb k "folder" then Some b
  else if String.eqb k "version" then v
  else if String.eqb k "lang" then l
  else None.


(** ** Exceptions *)

Inductive exn : Type :=
| UnsupportedParamException (arg : string)
| ValueError          (* a yielded pair unpacked into three names *)
| KeyError (key : string)
| OSError (file : list string).

(** The outcome of a computation on a state of type [S]: it returns, or an
    exception leaves it, in both cases with the state reached. *)
Inductive outcome (S : Type) : Type :=
| Done (s : S)
| Raised (e : exn) (s : S).
Arguments Done {S} s.
Arguments Raised {S} e s.

Definition bind {S : Type} (m : outcome S) (k : S -> outcome S) : outcome S :=
  match m with
  | Done s => k s
  | Raised e s => Raised e s
  end.

Definition state_of {S : Type} (m : outcome S) : S :=
  match m with Done s | Raised _ s => s end.

Definition raised {S : Type} (m : outcome S) : option exn :=
  match m with Done _ => None | Raised e _ => Some e end.

(** A [for] loop whose body may raise. *)
Fixpoint for_each {A S : Type} (body : A -> S -> outcome S) (l : list A)
    (s : S) : outcome S :=
  match l with
  | [] => Done s
  | x :: r => bind (body x s) (for_each body r)
  end.

(** ** Params *)

#[local] Set Warnings "-register-all".

(** What [json.load] returns. A float is given by the rational it stands
    for. *)
Inductive json : Type :=
| JNull : json
| JBool : bool -> json
| JInt : Z -> json
| JFloat : Q -> json
| JStr : string -> json
| JList : list json -> json
| JDict : list (string * json) -> json.

(** Truthiness of a loaded value. *)
Definition truthy_json (j : json) : bool :=
  match j with
  | JNull => false
  | JBool b => b
  | JInt z => negb (Z.eqb z 0)
  | JFloat q => negb (Qeq_bool q 0)
  | JStr s => Py.truthy_str s
  | JList l => match l with [] => false | _ => true end
  | JDict d => match d with [] => false | _ => true end
  end.

(** The parameter dictionary [Params.prms]. A key is [None] when the
    dictionary does not have it. [XDELTA] maps a folder to its list of file
    extensions, [PARENT] maps a folder to its destination directory; both
    are kept as item lists, in iteration order. *)
Record params : Type := {
  XDELTA : option (list (string * list string));
  PAT : option json;
  PARENT : option (list (string * string));
  UPDATE_ACTIONS : option json;
}.

Module Params.

Definition loadDefaults : params :=
  {| XDELTA := Some []; PAT := Some (JDict []); PARENT := Some [];
     UPDATE_ACTIONS := None |}.

(** [parseDir]: the segments of [d] between slashes, joined again; the
    join drops the empty ones. *)
Definition parseDir (d : string) : list string :=
  List.filter Py.truthy_str (Py.split "/" d).

(** [Params.prms] after [parseParams]: the values of [PARENT] are
    paths. *)
Record parsed : Type := {
  raw : params;
  parent : option (list (string * list string));
}.

Definition parseParams (p : params) : parsed :=
  {| raw := p;
     parent := (fun items => List.map (fun fd => (fst fd, parseDir (snd fd))) items)
                 <$> PARENT p |}.

Definition verifyParams (p : parsed) : option exn :=
  match PAT (raw p) with
  | Some v => if truthy_json v then Some (UnsupportedParamException "PAT") else None
  | None => None
  end.

(** [loadParams(force_reload)]. [settings] is what reading and parsing
    the parameter file gives, [None] when that raises; [prms] is the
    class attribute, [None] until it is first assigned. The result is
    the value of the attribute afterwards and the exception raised, if
    any. *)
Definition loadParams (force_reload : bool) (settings : option params)
    (prms : option parsed) : parsed * option exn :=
  match (if force_reload then None else prms) with
  | Some p => (p, None)
  | None =>
      let p := match settings with Some p => p | None => loadDefaults end in
      let p := parseParams p in
      (p, verifyParams p)
  end.

(** [_get(key, default)] for the two keys the engine reads. *)
Definition xdeltaFolders (p : parsed) : list (string * list string) :=
  default [] (XDELTA (raw p)).

Definition parentFolders (p : parsed) : list (string * list string) :=
  default [] (parent p).

End Params.

(** ** Version tiers of [distribute] *)

Definition distribute_versions (version : option string) (version_only : bool)
    : list (option string) :=
  match version with
  | None => [ None ]
  | Some v =>
      if String.eqb v "v1.0" then [ None ]
      else if negb version_only then [ None; Some v ]
      else [ Some v ]
  end.

(** ** MD5, the digest behind [hash] *)

Module MD5.

Local Open Scope N_scope.

Definition mask32 : N := 0xffffffff.
Definition add32 (a b : N) : N := N.land (a + b) mask32.
Definition not32 (a : N) : N := N.lxor a mask32.
Definition rotl32 (x s : N) : N :=
  N.lor (N.land (N.shiftl x s) mask32) (N.shiftr x (32 - s)).

Definition K : list N :=
  [ 0xd76aa478; 0xe8c7b756; 0x242070db; 0xc1bdceee;
    0xf57c0faf; 0x4787c62a; 0xa8304613; 0xfd469501;
    0x698098d8; 0x8b44f7af; 0xffff5bb1; 0x895cd7be;
    0x6b901122; 0xfd987193; 0xa679438e; 0x49b40821;
    0xf61e2562; 0xc040b340; 0x265e5a51; 0xe9b6c7aa;
    0xd62f105d; 0x02441453; 0xd8a1e681; 0xe7d3fbc8;
    0x21e1cde6; 0xc33707d6; 0xf4d50d87; 0x455a14ed;
    0xa9e3e905; 0xfcefa3f8; 0x676f02d9; 0x8d2a4c8a;
    0xfffa3942; 0x8771f681; 0x6d9d6122; 0xfde5380c;
    0xa4beea44; 0x4bdecfa9; 0xf6bb4b60; 0xbebfbc70;
    0x289b7ec6; 0xeaa127fa; 0xd4ef3085; 0x04881d05;
    0xd9d4d039; 0xe6db99e5; 0x1fa27cf8; 0xc4ac5665;
    0xf4292244; 0x432aff97; 0xab9423a7; 0xfc93a039;
    0x655b59c3; 0x8f0ccc92; 0xffeff47d; 0x85845dd1;
    0x6fa87e4f; 0xfe2ce6e0; 0xa3014314; 0x4e0811a1;
    0xf7537e82; 0xbd3af235; 0x2ad7d2bb; 0xeb86d391 ].

Definition S : list N :=
  [ 7; 12; 17; 22; 7; 12; 17; 22; 7; 12; 17; 22; 7; 12; 17; 22;
    5; 9; 14; 20; 5; 9; 14; 20; 5; 9; 14; 20; 5; 9; 14; 20;
    4; 11; 16; 23; 4; 11; 16; 23; 4; 11; 16; 23; 4; 11; 16; 23;
    6; 10; 15; 21; 6; 10; 15; 21; 6; 10; 15; 21; 6; 10; 15; 21 ].

Definition bytes_of (s : string) : list N :=
  List.map N_of_ascii (list_ascii_of_string s).

(** The [n] low bytes of [x], least significant first. *)
Fixpoint le_bytes (n : nat) (x : N) : list N :=
  match n with
  | O => []
  | Datatypes.S n => N.land x 0xff :: le_bytes n (N.shiftr x 8)
  end.

Fixpoint le_word (bs : list N) : N :=
  match bs with
  | [] => 0
  | b :: r => b + 256 * le_word r
  end.

Definition pad (msg : list N) : list N :=
  let len := List.length msg in
  let zeros := ((119 - len mod 64) mod 64)%nat in
  (msg ++ 0x80 :: List.repeat 0 zeros ++ le_bytes 8 (8 * N.of_nat len))%list.

(** Cut into chunks of [n] elements; [fuel] bounds the number of
    chunks. *)
Fixpoint chunks {A : Type} (fuel n : nat) (l : list A) : list (list A) :=
  match fuel, l with
  | O, _ | _, [] => []
  | Datatypes.S fuel, _ => firstn n l :: chunks fuel n (skipn n l)
  end.

Definition words_of_block (block : list N) : list N :=
  List.map le_word (chunks 16 4 block).

Definition round (M : list N) (st : N * N * N * N) (i : nat) : N * N * N * N :=
  let '(A, B, C, D) := st in
  let '(F, g) :=
    if (i <? 16)%nat then
      (N.lor (N.land B C) (N.land (not32 B) D), i)
    else if (i <? 32)%nat then
      (N.lor (N.land D B) (N.land (not32 D) C), ((5 * i + 1) mod 16)%nat)
    else if (i <? 48)%nat then
      (N.lxor B (N.lxor C D), ((3 * i + 5) mod 16)%nat)
    else
      (N.lxor C (N.lor B (not32 D)), ((7 * i) mod 16)%nat) in
  let F := add32 (add32 (add32 F A) (List.nth i K 0)) (List.nth g M 0) in
  (D, add32 B (rotl32 F (List.nth i S 0)), B, C).

Definition process (st : N * N * N * N) (block : list N) : N * N * N * N :=
  let M := words_of_block block in
  let '(a0, b0, c0, d0) := st in
  let '(A, B, C, D) := List.fold_left (round M) (List.seq 0 64) st in
  (add32 a0 A, add32 b0 B, add32 c0 C, add32 d0 D).

(** [md5(msg).digest()], as its sixteen bytes. *)
Definition digest (msg : string) : list N :=
  let bs := pad (bytes_of msg) in
  let blocks := chunks (List.length bs) 64 bs in
  let '(a, b, c, d) :=
    List.fold_left process blocks
      (0x67452301, 0xefcdab89, 0x98badcfe, 0x10325476) in
  (le_bytes 4 a ++ le_bytes 4 b ++ le_bytes 4 c ++ le_bytes 4 d)%list.

End MD5.

(** ** Paths and the file system *)

(** A path is the list of its segments; the file system maps the paths of
    its regular files to their contents. Directories are the proper
    prefixes of those paths. *)
Abbreviation path := (list string).
Abbreviation FS := (gmap (list string) string).

Module Path.

(** [extpath]: the segments after the first. *)
Definition extpath (p : path) : path := List.tl p.

(** [p + suffix], a suffix appended to the text of a path: it lands on
    the last segment. *)
Fixpoint add_suffix (p : path) (suffix : string) : path :=
  match p with
  | [] => [ suffix ]
  | [ n ] => [ n ++ suffix ]
  | d :: r => d :: add_suffix r suffix
  end.

(** [p[-1] = f(p[-1])] *)
Fixpoint map_last (f : string -> string) (p : path) : path :=
  match p with
  | [] => []
  | [ n ] => [ f n ]
  | d :: r => d :: map_last f r
  end.

Fixpoint all_dots (s : string) : bool :=
  match s with
  | EmptyString => true
  | String c r => Ascii.eqb c "." && all_dots r
  end.

(** [s] cut at its last dot: the text before it, and the text from it
    on. *)
Fixpoint rsplit_dot (s : string) : option (string * string) :=
  match s with
  | EmptyString => None
  | String c r =>
      match rsplit_dot r with
      | Some (a, b) => Some (String c a, b)
      | None => if Ascii.eqb c "." then Some ("", s) else None
      end
  end.

(** [splitext(n)[1]] for a file name [n]: the text from the last dot
    on, unless only dots come before it. *)
Definition ext (n : string) : string :=
  match rsplit_dot n with
  | Some (a, b) => if all_dots a then "" else b
  | None => ""
  end.

(** The text of a path and back: segments joined by the separator;
    resolving a text ignores empty segments. *)
Definition to_string (p : path) : string := String.concat "/" p.
Definition of_string (s : string) : path :=
  List.filter Py.truthy_str (Py.split "/" s).

(** [s[:-n]] *)
Definition drop_last (n : nat) (s : string) : string :=
  String.substring 0 (String.length s - n) s.

Fixpoint is_prefix (p q : path) : bool :=
  match p, q with
  | [], _ => true
  | a :: p, b :: q => String.eqb a b && is_prefix p q
  | _ :: _, [] => false
  end.

End Path.

Module Fs.

Definition is_file (fs : FS) (p : path) : bool :=
  if fs !! p is Some _ then true else false.

(** A directory: a non-empty proper prefix of the path of a file. *)
Definition is_dir (fs : FS) (p : path) : bool :=
  match p with
  | [] => false
  | _ => List.existsb
           (fun q => Path.is_prefix p q && negb (Nat.eqb (length p) (length q)))
           (List.map fst (map_to_list fs))
  end.

(** [exists(p)] *)
Definition exists_ (fs : FS) (p : path) : bool := is_file fs p || is_dir fs p.

(** [exists(join(a, *p))] for the segments [a :: p]: [join] passes over
    an empty segment, except that an empty last segment leaves a
    trailing separator, and a path with a trailing separator exists
    only as a directory. *)
Definition exists_join (fs : FS) (segments : list string) : bool :=
  let p := List.filter Py.truthy_str segments in
  if Py.truthy_str (List.last segments "") then exists_ fs p else is_dir fs p.

(** [makedirs(dirname(p), exist_ok=True)]: the directories of the model
    are the prefixes of its files, so there is nothing to create, but
    the call fails when a prefix of [dirname(p)] is a regular file, at
    the first directory it cannot make, and it fails on the empty
    path. The result is the path of the error, if any. *)
Fixpoint mkdir_error (fs : FS) (made rest : path) : option path :=
  match rest with
  | [] => None
  | x :: r =>
      let q := (made ++ [ x ])%list in
      if is_file fs q then
        Some (match r with [] => q | y :: _ => (q ++ [ y ])%list end)
      else mkdir_error fs q r
  end.

Definition makedirs_error (fs : FS) (dir : path) : option path :=
  match dir with
  | [] => Some []
  | _ => mkdir_error fs [] dir
  end.

(** [hash(p)]: the digest of the contents; reading fails on anything but
    a regular file. *)
Definition hash (fs : FS) (p : path) : option (list N) :=
  MD5.digest <$> fs !! p.

(** [remove(p)] *)
Definition remove (fs : FS) (p : path) : option FS :=
  match fs !! p with
  | Some _ => Some (delete p fs)
  | None => None
  end.

(** [rename(src, dst)] *)
Definition rename (fs : FS) (src dst : path) : option FS :=
  match fs !! src with
  | Some c => Some (<[ dst := c ]> (delete src fs))
  | None => None
  end.

(** [copyfile(src, dst)] *)
Definition copyfile (fs : FS) (src dst : path) : option FS :=
  match fs !! src with
  | Some c => Some (<[ dst := c ]> fs)
  | None => None
  end.

(** A walk of the tree below [top], in the order of the paths in the
    map. *)
Definition walk (top : string) (fs : FS) : list path :=
  List.filter
    (fun p => match p with
              | d :: _ :: _ => Py.truthy_str top && String.eqb d top
              | _ => false
              end)
    (List.map fst (map_to_list fs)).

End Fs.

(** What the engine relies on from [os.walk]: it yields exactly the
    regular files below a non-empty [top]; the order is left open. *)
Definition walk_spec (walk : string -> FS -> list path) : Prop :=
  forall (top : string) (f : FS) (p : path),
    p ∈ walk top f <->
    Py.truthy_str top = true /\ (exists n rest, p = top :: n :: rest) /\
    is_Some (f !! p).

(** ** Program state *)

(** The console output, one entry per [print]. *)
Inductive line : Type :=
| Progress (folder : string)
| Count (n : nat)
| Warning (simplename : list string)
| Action (name : list string) (what : string)
| Tier (name : string) (n : nat)
| Blank
| Summary (what : string) (n : nat).

Definition VERBOSE : nat := 2.

(** The state threaded through the loops: the file system, the counter
    dictionary [ctr], the console output, the number of times the external
    tool has been run so far, and the class attribute [Params.prms]. *)
Record state : Type := {
  fs : gmap (list string) string;
  ctr : gmap string nat;
  out : list line;
  runs : nat;
  prms : option Params.parsed;
}.

Definition set_fs (f : FS) (s : state) : state :=
  {| fs := f; ctr := ctr s; out := out s; runs := runs s; prms := prms s |}.

Definition set_ctr (c : gmap string nat) (s : state) : state :=
  {| fs := fs s; ctr := c; out := out s; runs := runs s; prms := prms s |}.

Definition set_prms (p : option Params.parsed) (s : state) : state :=
  {| fs := fs s; ctr := ctr s; out := out s; runs := runs s; prms := p |}.

(** [if verbose >= level: print(l)] *)
Definition print (verbose level : nat) (l : line) (s : state) : state :=
  if (level <=? verbose)%nat
  then {| fs := fs s; ctr := ctr s; out := out s ++ [ l ]; runs := runs s;
          prms := prms s |}
  else s.

(** [ctr[k] = ctr.get(k, 0) + 1] *)
Definition count (k : string) (s : state) : state :=
  set_ctr (<[ k := S (default 0 (ctr s !! k)) ]> (ctr s)) s.

(** The sum of the five counters of [createXDeltaPatches]. *)
Definition total (c : gmap string nat) : nat :=
  default 0 (c !! "create") + default 0 (c !! "update")
  + default 0 (c !! "delete") + default 0 (c !! "keep")
  + default 0 (c !! "skip").

(** The sum of the three counters of [distributeOtherFiles]. *)
Definition total_distributed (c : gmap string nat) : nat :=
  default 0 (c !! "add") + default 0 (c !! "update") + default 0 (c !! "keep").

(** What the console output tells about a pass of [loopFiles]: the number
    of files it enumerated, the sum of the bracketed counts it printed,
    and the number of warnings about a missing original. *)
Fixpoint enumerated (o : list line) : nat :=
  match o with
  | [] => 0
  | Count n :: r => n + enumerated r
  | _ :: r => enumerated r
  end.

Fixpoint warned (o : list line) : nat :=
  match o with
  | [] => 0
  | Warning _ :: r => S (warned r)
  | _ :: r => warned r
  end.

(** The counters of [s'] account for what was enumerated since [s]: each
    enumerated file is one more in a counter or one more warning. *)
Definition five : list string := [ "create"; "update"; "delete"; "keep"; "skip" ].

Definition accounted (s s' : state) : Prop :=
  exists o, out s' = (out s ++ o)%list /\
    total (ctr s') + warned o = total (ctr s) + enumerated o.

(** A file operation that raises [OSError] when it fails. *)
Definition file_op (op : FS -> option FS) (p : path) (s : state) : outcome state :=
  match op (fs s) with
  | Some f => Done (set_fs f s)
  | None => Raised (OSError p) s
  end.

(** ** The engine *)

Section Engine.

(** [os.walk(top)], flattened to the paths [join(dp, f)] of the files
    below [top], in the order the walk yields them. *)
Variable walk : string -> FS -> list path.

(** The external tool, by its contract: the contents of the file it
    writes in diff mode and in apply mode, from the contents of its two
    input files. The first argument is the number of runs before this
    one, so that two runs on equal inputs may differ. *)
Variable xdelta_encode : nat -> string -> string -> string.
Variable xdelta_decode : nat -> string -> string -> string.

(** [run([xdelta, '-f', ..., '-s', source, input, output])]: the result
    of the process is not looked at; without its two input files the
    tool writes nothing. *)
Definition run_xdelta (tool : nat -> string -> string -> string)
    (source input output : path) (s : state) : state :=
  let f :=
    match fs s !! source, fs s !! input with
    | Some a, Some b => <[ output := tool (runs s) a b ]> (fs s)
    | _, _ => fs s
    end in
  {| fs := f; ctr := ctr s; out := out s; runs := S (runs s); prms := prms s |}.

(** [hash(a) == hash(b)], raising when a file cannot be read. *)
Definition same_hash (a b : path) (s : state)
    (k : bool -> outcome state) : outcome state :=
  match Fs.hash (fs s) a with
  | None => Raised (OSError a) s
  | Some ha =>
      match Fs.hash (fs s) b with
      | None => Raised (OSError b) s
      | Some hb => k (bool_decide (ha = hb))
      end
  end.

(** *** [loopFiles] *)

(** One edit folder of [loopFiles]: its files with an accepted
    extension, listed when the generator reaches the folder, each handed
    to the body of the consuming loop. *)
Definition loop_folder (accept : string -> bool)
    (body : path -> state -> outcome state)
    (edit_folder : string) (s : state) : outcome state :=
  let s := print VERBOSE 1 (Progress edit_folder) s in
  let files :=
    List.filter (fun p => accept (Path.ext (List.last p ""))) (walk edit_folder (fs s)) in
  let s := print VERBOSE 1 (Count (length files)) s in
  for_each body files s.

(** The versions for which the folder exists in the original language. *)
Definition versions_of (directories : list (gmap string string))
    (folder original_language : string) : list (option string) :=
  List.map (fun d => d !! "version")
    (List.filter
       (fun d => bool_decide (d !! "folder" = Some folder)
                 && bool_decide (d !! "lang" = Some original_language))
       directories).

(** The (version, language) pairs of the other folders of those
    versions. *)
Definition edits_of (directories : list (gmap string string))
    (folder original_language : string) : list (option string * option string) :=
  let versions := versions_of directories folder original_language in
  List.map (fun d => (d !! "version", d !! "lang"))
    (List.filter
       (fun d => bool_decide (d !! "folder" = Some folder)
                 && bool_decide (d !! "version" ∈ versions)
                 && negb (bool_decide (d !! "lang" = Some original_language)))
       directories).

(** [loopFiles(folders, original_language)] driving the loop body
    [body folder edit_file orig_folder]. [dirs] is
    [[dir for dir in listdir('.') if isdir(dir)]]. A consumer that
    unpacks three names cannot take the pairs yielded without an
    original language. *)
Definition loopFiles {T : Type} (accept : T -> string -> bool)
    (folders : list (string * T)) (original_language : string)
    (dirs : list string)
    (body : string -> path -> string -> state -> outcome state)
    (s : state) : outcome state :=
  if Py.truthy_str original_language then
    let directories := List.map splitFolder dirs in
    for_each
      (fun '(folder, types) s =>
         match versions_of directories folder original_language with
         | [] => Done s
         | _ =>
             for_each
               (fun '(version, language) s =>
                  let edit_folder := joinFolder folder language version in
                  let orig_folder :=
                    joinFolder folder (Some original_language) version in
                  loop_folder (accept types)
                    (fun edit_file => body folder edit_file orig_folder)
                    edit_folder s)
               (edits_of directories folder original_language) s
         end)
      folders s
  else
    for_each
      (fun '(folder, types) s =>
         for_each
           (loop_folder (accept types) (fun _ s => Raised ValueError s))
           (List.filter
              (fun dir => bool_decide (splitFolder dir !! "folder" = Some folder))
              dirs) s)
      folders s.


(** [Params._get]: the parameters are loaded on first use; an exception
    of [loadParams] leaves the caller before its loop starts. *)
Variable settings : option params.

Definition with_params (k : Params.parsed -> state -> outcome state)
    (s : state) : outcome state :=
  let '(p, e) := Params.loadParams false settings (prms s) in
  let s := set_prms (Some p) s in
  match e with
  | Some e => Raised e s
  | None => k p s
  end.

(** *** [createXDeltaPatches] *)

(** The body of the loop of [createXDeltaPatches] for one edit file. *)
Definition create_body (force_override : bool) (edit_file : path)
    (orig_folder : string) (s : state) : outcome state :=
  let simplename := Path.extpath edit_file in
  let name := Path.add_suffix simplename ".xdelta" in
  (* find corresponding original file *)
  let orig_file := orig_folder :: simplename in
  if negb (Fs.exists_ (fs s) orig_file) then
    Done (print VERBOSE 2 (Warning simplename) s)
  else
    (* define patch file *)
    let patch_file := Path.add_suffix edit_file ".xdelta" in
    let update s :=
      let temp_patch_file := Path.add_suffix patch_file ".temp" in
      let s := count "update" (print VERBOSE 2 (Action name "update") s) in
      bind (file_op (fun f => Fs.remove f patch_file) patch_file s)
        (file_op (fun f => Fs.rename f temp_patch_file patch_file) temp_patch_file) in
    (* compare files *)
    same_hash orig_file edit_file s (fun equal =>
      if equal then
        (* check if patch exists *)
        if Fs.exists_ (fs s) patch_file then
          let s := count "delete" (print VERBOSE 2 (Action name "delete patch") s) in
          file_op (fun f => Fs.remove f patch_file) patch_file s
        else
          Done (count "skip" (print VERBOSE 3 (Action name "skip") s))
      else if Fs.exists_ (fs s) patch_file then
        (* create temporary patch, compare patches *)
        let temp_patch_file := Path.add_suffix patch_file ".temp" in
        let s := run_xdelta xdelta_encode orig_file edit_file temp_patch_file s in
        if force_override then update s
        else
          same_hash patch_file temp_patch_file s (fun equal =>
            if equal then
              let s := count "keep" (print VERBOSE 3 (Action name "keep") s) in
              file_op (fun f => Fs.remove f temp_patch_file) temp_patch_file s
            else update s)
      else
        (* create new patch *)
        let s := count "create" (print VERBOSE 2 (Action name "create") s) in
        Done (run_xdelta xdelta_encode orig_file edit_file patch_file s)).

(** [createXDeltaPatches(xdelta, original_language, force_override)];
    the returned dictionary is [ctr] of the final state. *)
Definition createXDeltaPatches (dirs : list string)
    (original_language : string) (force_override : bool) (s : state)
    : outcome state :=
  let s := set_ctr ∅ s in
  with_params
    (fun p =>
       loopFiles (fun (types : list string) e => bool_decide (e ∈ types))
         (Params.xdeltaFolders p) original_language dirs
         (fun _ => create_body force_override))
    s.

(** *** [applyXDeltaPatches] *)

(** The body of the loop of [applyXDeltaPatches] for one patch file. *)
Definition apply_body (force_override : bool) (patch_file : path)
    (orig_folder : string) (s : state) : outcome state :=
  let simplename :=
    Path.map_last (Path.drop_last (String.length ".xdelta"))
      (Path.extpath patch_file) in
  (* find corresponding original file *)
  let orig_file := List.filter Py.truthy_str (orig_folder :: simplename) in
  if negb (Fs.exists_join (fs s) (orig_folder :: simplename)) then
    Done (print VERBOSE 0 (Warning simplename) s)
  else
    (* define output file *)
    let output_text :=
      Path.drop_last (String.length ".xdelta") (Path.to_string patch_file) in
    let output_file := Path.of_string output_text in
    (* check if output file already exists *)
    if Fs.exists_ (fs s) output_file then
      let temp_output_file := Path.of_string (output_text ++ ".temp") in
      let s := run_xdelta xdelta_decode orig_file patch_file temp_output_file s in
      let update s :=
        let s := count "update" (print VERBOSE 2 (Action simplename "update") s) in
        bind (file_op (fun f => Fs.remove f output_file) output_file s)
          (file_op (fun f => Fs.rename f temp_output_file output_file)
             temp_output_file) in
      if force_override then update s
      else
        same_hash output_file temp_output_file s (fun equal =>
          if equal then
            let s := count "keep" (print VERBOSE 3 (Action simplename "keep") s) in
            file_op (fun f => Fs.remove f temp_output_file) temp_output_file s
          else update s)
    else
      (* create new output file *)
      let s := count "create" (print VERBOSE 2 (Action simplename "create") s) in
      Done (run_xdelta xdelta_decode orig_file patch_file output_file s).

(** [applyXDeltaPatches(xdelta, original_language, force_override)]:
    every folder of [XDELTA] is paired with the string ['.xdelta'], so
    the extension test of [loopFiles] is a substring test. *)
Definition applyXDeltaPatches (dirs : list string)
    (original_language : string) (force_override : bool) (s : state)
    : outcome state :=
  let s := set_ctr ∅ s in
  with_params
    (fun p =>
       let folders :=
         List.map (fun ft => (fst ft, ".xdelta")) (Params.xdeltaFolders p) in
       loopFiles (fun (types : string) e => Py.is_substring e types)
         folders original_language dirs
         (fun _ => apply_body force_override))
    s.

(** *** [distributeOtherFiles] *)

(** The files of [top] with an extension of [types], as
    [(file, simplename)]. *)
Definition walk_types (types : list string) (top : string) (f : FS)
    : list (path * path) :=
  List.map (fun p => (p, Path.extpath p))
    (List.filter (fun p => bool_decide (Path.ext (List.last p "") ∈ types))
       (walk top f)).

(** [if any(s == simplename for _, s in files): continue] followed by
    [files.append((file, simplename))] *)
Definition add_candidate (files : list (path * path)) (x : path * path)
    : list (path * path) :=
  if List.existsb (fun y => bool_decide (snd y = snd x)) files
  then files else (files ++ [ x ])%list.

(** The first loop of [collectFiles]: the files of every language in
    turn, then of the folder without language. *)
Definition collect_candidates (f : FS) (languages : list string)
    (folder : string) (types : list string) (ver : option string)
    : list (path * path) :=
  List.fold_left
    (fun files lang =>
       List.fold_left add_candidate
         (walk_types types (joinFolder folder lang ver) f) files)
    (List.map Some languages ++ [ None ])%list [].

(** The list comprehension that ends [collectFiles]: files that are the
    same as the original files are removed. *)
Fixpoint drop_originals (f : FS) (orig_folder : string)
    (files : list (path * path)) : exn + list (path * path) :=
  match files with
  | [] => inr []
  | (file, s) :: r =>
      let orig_file := orig_folder :: s in
      let rest (keep : bool) : exn + list (path * path) :=
        match drop_originals f orig_folder r with
        | inr r => inr (if keep then (file, s) :: r else r)
        | inl e => inl e
        end in
      if negb (Fs.exists_ f orig_file) then rest true
      else
        match Fs.hash f orig_file with
        | None => inl (OSError orig_file)
        | Some ho =>
            match Fs.hash f file with
            | None => inl (OSError file)
            | Some hf => rest (negb (bool_decide (ho = hf)))
            end
        end
  end.

Definition collectFiles (f : FS) (languages : list string)
    (original_language : string) (folder : string) (types : list string)
    (ver : option string) : exn + list (path * path) :=
  drop_originals f (joinFolder folder (Some original_language) None)
    (collect_candidates f languages folder types ver).

(** The second step of a tier: with more than one tier, the base tier
    loses the files that are in the original update. *)
Definition drop_updated (f : FS) (versions : list (option string))
    (original_language : string) (folder : string) (types : list string)
    (ver : option string) (files : list (path * path)) : list (path * path) :=
  if (1 <? length versions)%nat && (if ver is None then true else false) then
    let update_files :=
      List.map snd
        (walk_types types
           (joinFolder folder (Some original_language)
              (List.nth 1 versions None)) f) in
    List.filter (fun fs_ => negb (bool_decide (snd fs_ ∈ update_files))) files
  else files.

(** The body of the copy loop for one collected file. The destination
    is kept as the segments the code joins: they name the file written
    as long as none of them is ['.'] or ['..']. *)
Definition copy_body (force_override : bool) (verbose : nat)
    (dest_folder : path) (source_file simplename : path) (s : state)
    : outcome state :=
  let dest_file := (dest_folder ++ simplename)%list in
  (* check if file already exists *)
  if Fs.exists_ (fs s) dest_file then
    let update s :=
      let s := count "update" (print verbose 2 (Action source_file "update") s) in
      bind (file_op (fun f => Fs.remove f dest_file) dest_file s)
        (file_op (fun f => Fs.copyfile f source_file dest_file) source_file) in
    if force_override then update s
    else
      same_hash dest_file source_file s (fun equal =>
        if equal then
          Done (count "keep" (print verbose 3 (Action source_file "keep") s))
        else update s)
  else
    (* add new file *)
    let s := count "add" (print verbose 2 (Action source_file "add") s) in
    match Fs.makedirs_error (fs s) (removelast dest_file) with
    | Some p => Raised (OSError p) s
    | None => file_op (fun f => Fs.copyfile f source_file dest_file) source_file s
    end.

(** One tier of one folder: collect, drop, copy. *)
Definition distribute_tier (languages : list string)
    (versions : list (option string)) (original_language : string)
    (destination_dir : path) (force_override : bool) (verbose : nat)
    (p : Params.parsed) (folder : string) (types : list string)
    (ver : option string) (s : state) : outcome state :=
  match collectFiles (fs s) languages original_language folder types ver with
  | inl e => Raised e s
  | inr files =>
      let files :=
        drop_updated (fs s) versions original_language folder types ver files in
      let s :=
        if (3 <=? verbose)%nat
           || (1 <=? verbose)%nat && (0 <? length files)%nat
        then print verbose 0 (Tier (joinFolder folder ver None) (length files)) s
        else s in
      match List.find (fun kv => String.eqb (fst kv) folder) (Params.parentFolders p) with
      | None => Raised (KeyError folder) s
      | Some (_, parent) =>
          let dest_folder := (destination_dir ++ parent)%list in
          for_each
            (fun '(source_file, simplename) =>
               copy_body force_override verbose dest_folder source_file simplename)
            files s
      end
  end.

(** [distributeOtherFiles(languages, versions, original_language,
    destination_dir, force_override, VERBOSE)] *)
Definition distributeOtherFiles (languages : list string)
    (versions : list (option string)) (original_language : string)
    (destination_dir : path) (force_override : bool) (verbose : nat)
    (s : state) : outcome state :=
  let s := set_ctr ∅ s in
  with_params
    (fun p =>
       for_each
         (fun '(folder, types) =>
            for_each
              (distribute_tier languages versions original_language
                 destination_dir force_override verbose p folder types)
              versions)
         (Params.xdeltaFolders p))
    s.

(** *** The three commands *)

(** [if VERBOSE >= 1 and n > 0 or VERBOSE >= 3: print(what % n)] *)
Definition print_nonzero (what : string) (n : nat) (s : state) : state :=
  if (1 <=? VERBOSE)%nat && (0 <? n)%nat || (3 <=? VERBOSE)%nat
  then print VERBOSE 0 (Summary what n) s else s.

Definition get (key : string) (s : state) : nat := default 0 (ctr s !! key).

Definition applyPatches (dirs : list string) (original_language : string)
    (force_override : bool) (s : state) : outcome state :=
  bind (applyXDeltaPatches dirs original_language force_override s)
    (fun s =>
       let s := print VERBOSE 0 Blank s in
       let s := print_nonzero "Created %d files." (get "create" s) s in
       let s := print VERBOSE 1 (Summary "Updated %d files." (get "update" s)) s in
       Done (print VERBOSE 3 (Summary "Kept %d files." (get "keep" s)) s)).

Definition createPatches (dirs : list string) (original_language : string)
    (force_override : bool) (s : state) : outcome state :=
  bind (createXDeltaPatches dirs original_language force_override s)
    (fun s =>
       let s := print VERBOSE 0 Blank s in
       let s := print_nonzero "Created %d patches." (get "create" s) s in
       let s := print VERBOSE 1 (Summary "Updated %d patches." (get "update" s)) s in
       let s := print_nonzero "Deleted %d patches." (get "delete" s) s in
       let s := print VERBOSE 3 (Summary "Kept %d patches." (get "keep" s)) s in
       Done (print VERBOSE 3 (Summary "Skipped %d files." (get "skip" s)) s)).

(** [distribute]: [languages] is the tuple of languages; [verbose] is
    [None] for the module's [VERBOSE]. *)
Definition distribute (languages : list string) (version : option string)
    (version_only : bool) (original_language : string)
    (destination_dir : path) (force_override : bool) (verbose : option nat)
    (s : state) : outcome state :=
  let verbose := default VERBOSE verbose in
  let versions := distribute_versions version version_only in
  bind (distributeOtherFiles languages versions original_language
          destination_dir force_override verbose s)
    (fun s =>
       let s := print VERBOSE 0 Blank s in
       let s := print_nonzero "Added %d files." (get "add" s) s in
       let s := print VERBOSE 1 (Summary "Updated %d files." (get "update" s)) s in
       Done (print VERBOSE 3 (Summary "Kept %d files." (get "keep" s)) s)).

End Engine.

(** ** What one pass over an edit file does, as a relation *)

Definition orig_of (e : path) (o : string) : path := o :: Path.extpath e.
Definition patch_of (e : path) : path := Path.add_suffix e ".xdelta".
Definition temp_of (e : path) : path := Path.add_suffix (patch_of e) ".temp".

(** [create_effect enc force e o f f' k]: on the file system [f], the body
    of [createXDeltaPatches] for the edit file [e] with original folder
    [o], run with a tool that computes [enc], leaves the file system [f']
    and adds one to the counter [k] (to none for [None]). One constructor
    per way through the body that returns. *)
Inductive create_effect (enc : string -> string -> string) (force : bool)
    (e : path) (o : string) (f : FS) : FS -> option string -> Prop :=
| Eff_warn :
    Fs.exists_ f (orig_of e o) = false ->
    create_effect enc force e o f f None
| Eff_skip co ce :
    f !! orig_of e o = Some co -> f !! e = Some ce ->
    MD5.digest co = MD5.digest ce ->
    f !! patch_of e = None ->
    create_effect enc force e o f f (Some "skip")
| Eff_delete co ce cp :
    f !! orig_of e o = Some co -> f !! e = Some ce ->
    MD5.digest co = MD5.digest ce ->
    f !! patch_of e = Some cp ->
    create_effect enc force e o f (delete (patch_of e) f) (Some "delete")
| Eff_create co ce :
    f !! orig_of e o = Some co -> f !! e = Some ce ->
    MD5.digest co <> MD5.digest ce ->
    f !! patch_of e = None ->
    create_effect enc force e o f (<[ patch_of e := enc co ce ]> f) (Some "create")
| Eff_keep co ce cp :
    f !! orig_of e o = Some co -> f !! e = Some ce ->
    MD5.digest co <> MD5.digest ce ->
    force = false ->
    <[ temp_of e := enc co ce ]> f !! patch_of e = Some cp ->
    MD5.digest cp = MD5.digest (enc co ce) ->
    create_effect enc force e o f
      (delete (temp_of e) (<[ temp_of e := enc co ce ]> f)) (Some "keep")
| Eff_update co ce cp c :
    f !! orig_of e o = Some co -> f !! e = Some ce ->
    MD5.digest co <> MD5.digest ce ->
    <[ temp_of e := enc co ce ]> f !! patch_of e = Some cp ->
    force = true \/ MD5.digest cp <> MD5.digest (enc co ce) ->
    delete (patch_of e) (<[ temp_of e := enc co ce ]> f) !! temp_of e = Some c ->
    create_effect enc force e o f
      (<[ patch_of e := c ]>
         (delete (temp_of e)
            (delete (patch_of e) (<[ temp_of e := enc co ce ]> f))))
      (Some "update").

(** The edit file [e] with original folder [o] is reconciled on [f]: when
    both files are there, the patch is absent if they have the same
    digest, and has the digest of the tool's output if they differ. *)
Definition reconciled (enc : string -> string -> string) (f : FS)
    (e : path) (o : string) : Prop :=
  forall co ce,
    f !! orig_of e o = Some co -> f !! e = Some ce ->
    if bool_decide (MD5.digest co = MD5.digest ce)
    then f !! patch_of e = None
    else exists cp, f !! patch_of e = Some cp /\
                    MD5.digest cp = MD5.digest (enc co ce).

(** The counters [create], [update] and [delete] are where they were. *)
Definition quiet (c c' : gmap string nat) : Prop :=
  c' !! "create" = c !! "create" /\ c' !! "update" = c !! "update" /\
  c' !! "delete" = c !! "delete".


(** ** The edit files of a project *)

(** [e] may be enumerated for the folder [folder] with the extensions
    [types], in the edit folder of [(ver, lang)], with original folder
    [o]. *)
Definition item_at (original_language folder : string) (types : list string)
    (ver lang : option string) (e : path) (o : string) : Prop :=
  Py.truthy_str (joinFolder folder lang ver) = true /\
  (exists n r, e = joinFolder folder lang ver :: n :: r) /\
  Path.ext (List.last e "") ∈ types /\
  o = joinFolder folder (Some original_language) ver.

Definition is_item (dirs : list string) (folders : list (string * list string))
    (original_language : string) (e : path) (o : string) : Prop :=
  exists folder types ver lang,
    (folder, types) ∈ folders /\
    (ver, lang) ∈ edits_of (List.map splitFolder dirs) folder original_language /\
    item_at original_language folder types ver lang e o.

(** A directory name that [joinFolder] gives back from its parts. *)
Definition canonical (d : string) : Prop :=
  joinFolder (default "" (splitFolder d !! "folder")) (splitFolder d !! "lang")
    (splitFolder d !! "version") = d.

(** No extension list takes a patch for an edit file: the name of a
    patch has the extension ['.xdelta'], or none when only dots come
    before it. *)
Definition clean_types (types : list string) : Prop :=
  (".xdelta" ∉ types) /\ ("" ∉ types).

(** A directory of a configured folder: the base name [splitFolder]
    reads off it is a key of [XDELTA]. *)
Definition configured (folders : list (string * list string)) (d : string)
    : Prop :=
  exists folder types,
    splitFolder d !! "folder" = Some folder /\ (folder, types) ∈ folders.

(** A loop body that, when it returns, adds one to a counter or prints
    one warning, and prints no count. *)
Definition one_each (body : path -> state -> outcome state) : Prop :=
  forall x s s', body x s = Done s' ->
    exists o, out s' = (out s ++ o)%list /\ enumerated o = 0 /\
      total (ctr s') + warned o = S (total (ctr s)).

(** Every edit file of the project is reconciled on [f]. *)
Definition all_reconciled (enc : string -> string -> string)
    (dirs : list string) (folders : list (string * list string))
    (original_language : string) (f : FS) : Prop :=
  forall e o, is_item dirs folders original_language e o -> reconciled enc f e o.

(** From [s] to [s'] no reconciled edit file is unsettled, and no edit
    file appears. *)
Definition settles (enc : string -> string -> string)
    (dirs : list string) (folders : list (string * list string))
    (original_language : string) (s s' : state) : Prop :=
  (forall e o, is_item dirs folders original_language e o ->
     reconciled enc (fs s) e o -> reconciled enc (fs s') e o) /\
  (forall e o, is_item dirs folders original_language e o ->
     fs s !! e = None -> fs s' !! e = None).

(** From [s] to [s'], if every edit file was reconciled then every edit
    file still is, and [create], [update] and [delete] have not moved. *)
Definition stays_quiet (enc : string -> string -> string)
    (dirs : list string) (folders : list (string * list string))
    (original_language : string) (s s' : state) : Prop :=
  all_reconciled enc dirs folders original_language (fs s) ->
  all_reconciled enc dirs folders original_language (fs s') /\
  quiet (ctr s) (ctr s').

(** ** A small project, for examples *)

Module Demo.

(** A tool whose output is a function of the contents of its inputs. *)
Definition encode (_ : nat) (orig edit : string) : string :=
  orig ++ ">" ++ edit.
Definition decode (_ : nat) (orig patch : string) : string :=
  orig ++ "<" ++ patch.

Definition settings : params :=
  {| XDELTA := Some [ ("Script", [ ".dat" ]) ];
     PAT := None;
     PARENT := Some [ ("Script", "romfs/script") ];
     UPDATE_ACTIONS := None |}.

Definition dirs : list string := [ "Script_JA"; "Script_EN" ].

Definition start (f : FS) : state :=
  {| fs := f; ctr := ∅; out := []; runs := 0; prms := None |}.

(** One original and one edit that differs from it. *)
Definition files : FS :=
  <[ [ "Script_JA"; "a.dat" ] := "original" ]>
    (<[ [ "Script_EN"; "a.dat" ] := "edited" ]> ∅).

(** The edit is back to the original; its patch is still there. *)
Definition reverted : FS :=
  <[ [ "Script_JA"; "a.dat" ] := "original" ]>
    (<[ [ "Script_EN"; "a.dat" ] := "original" ]>
       (<[ [ "Script_EN"; "a.dat.xdelta" ] := "original>edited" ]> ∅)).

(** An edit and a patch without their original. *)
Definition orphans : FS :=
  <[ [ "Script_EN"; "b.dat" ] := "edited" ]>
    (<[ [ "Script_EN"; "b.dat.xdelta" ] := "patch" ]> ∅).

(** Two languages with the same file, and an update of the original. *)
Definition translated : FS :=
  <[ [ "Script_JA"; "a.dat" ] := "original" ]>
    (<[ [ "Script_EN"; "a.dat" ] := "english" ]>
       (<[ [ "Script_DE"; "a.dat" ] := "deutsch" ]>
          (<[ [ "Script_EN"; "b.dat" ] := "english b" ]>
             (<[ [ "Script_v1.1_JA"; "a.dat" ] := "original 1.1" ]> ∅)))).

Abbreviation create force_override s :=
  (createXDeltaPatches Fs.walk encode (Some settings) dirs "JA"
     force_override s).

(** The original folder happens to hold a file named like a patch, and
    patches are among the accepted extensions. *)
Definition patch_settings : params :=
  {| XDELTA := Some [ ("Script", [ ".dat"; ".xdelta" ]) ];
     PAT := None; PARENT := None; UPDATE_ACTIONS := None |}.

Definition patch_files : FS :=
  <[ [ "Script_JA"; "a.dat.xdelta" ] := "something" ]> files.

(** A directory whose name is not the one [joinFolder] builds from its
    parts: [Script_x_v1.1] is read as the language [v1.1] of no version,
    and stands for the folder [Script_v1.1]. *)
Definition odd_dirs : list string :=
  [ "Script_JA"; "Script_v1.1_JA"; "Script_v1.1"; "Script_x_v1.1" ].

Definition odd_files : FS :=
  <[ [ "Script_JA"; "a.dat" ] := "original" ]>
    (<[ [ "Script_v1.1_JA"; "a.dat" ] := "original 1.1" ]>
       (<[ [ "Script_v1.1"; "a.dat" ] := "edited" ]> ∅)).

End Demo.

(** ** Further measures and predicates *)

(** The sum of the bracketed counts printed per tier by
    [distributeOtherFiles]. *)
Fixpoint tiered (o : list line) : nat :=
  match o with
  | [] => 0
  | Tier _ n :: r => n + tiered r
  | _ :: r => tiered r
  end.

(** The sum of the three counters of [applyXDeltaPatches]. *)
Definition total_applied (c : gmap string nat) : nat :=
  default 0 (c !! "create") + default 0 (c !! "update") + default 0 (c !! "keep").

(** A path whose segments are real names: none is empty, none has a
    separator. *)
Definition plain (p : path) : Prop :=
  forall x, x ∈ p -> Py.truthy_str x = true /\ Py.contains "/" x = false.

(** ** [hashZip] *)

Module Zip.

(** An archive, as [infolist()] gives it: the entries in the order of
    the central directory, each a file name with its data. *)
Abbreviation archive := (list (string * string)).

(** [zip.read(name)]: the name is looked up in a dictionary filled in
    the order of the entries, so the last entry of that name is read. *)
Fixpoint read (z : archive) (name : string) : option string :=
  match z with
  | [] => None
  | (n, data) :: r =>
      match read r name with
      | Some d => Some d
      | None => if String.eqb n name then Some data else None
      end
  end.

(** [name.encode()]: UTF-8, one byte below 128 and two bytes from there
    to 255. *)
Fixpoint encode (s : string) : string :=
  match s with
  | EmptyString => EmptyString
  | String c r =>
      let n := nat_of_ascii c in
      if (n <? 128)%nat then String c (encode r)
      else String (ascii_of_nat (192 + n / 64))
             (String (ascii_of_nat (128 + n mod 64)) (encode r))
  end.

(** The order of [sorted] on strings: by code points, a prefix first. *)
Definition le (a b : string) : Prop := String.leb a b = true.

#[global] Instance le_dec : RelDecision le :=
  fun a b => decide (String.leb a b = true).

Definition sorted (l : list string) : list string := merge_sort le l.

(** [hashZip(zipfile)]: the digest of the names, sorted, each followed
    by the data read under it. *)
Definition hashZip (z : archive) : list N :=
  MD5.digest
    (List.fold_left
       (fun acc name => acc ++ encode name ++ default "" (read z name))
       (sorted (List.map fst z)) "").

End Zip.

(** The segment lists of the directory names that [joinFolder] can
    build: a base alone, a base with one non-empty token, or a base with
    a version and a non-empty language. *)
Definition canonical_shape (a : list string) : bool :=
  match a with
  | [ _ ] => true
  | [ _; x ] => Py.truthy_str x
  | [ _; v; l ] => is_version v && Py.truthy_str l
  | _ => false
  end.

(** ** More sample data *)

Module Sample.

(** A tool whose patch is the whole edited file. *)
Definition encode (_ : nat) (orig edit : string) : string := edit.
Definition decode (_ : nat) (orig patch : string) : string := patch.

(** A patch next to its original, and one whose original is missing. *)
Definition patched : FS :=
  <[ [ "Script_JA"; "a.dat" ] := "original" ]>
    (<[ [ "Script_EN"; "a.dat.xdelta" ] := "edited" ]>
       (<[ [ "Script_EN"; "b.dat.xdelta" ] := "orphan" ]> ∅)).

(** Settings that still ask for the patch format that is not supported. *)
Definition pat_settings : params :=
  {| XDELTA := Some [ ("Script", [ ".dat" ]) ];
     PAT := Some (JList [ JStr "Message" ]);
     PARENT := None; UPDATE_ACTIONS := None |}.

(** A folder name with an underscore of its own. *)
Definition underscore_folders : list (string * list string) :=
  [ ("Event_Script", [ ".dat" ]) ].

(** Files without extension are edit files, and one of them has a name
    made of dots; the original folder happens to hold a file named
    like its patch. *)
Definition bare_settings : params :=
  {| XDELTA := Some [ ("Script", [ "" ]) ];
     PAT := None; PARENT := None; UPDATE_ACTIONS := None |}.

Definition dots_files : FS :=
  <[ [ "Script_JA"; "..." ] := "original" ]>
    (<[ [ "Script_EN"; "..." ] := "edited" ]>
       (<[ [ "Script_JA"; "....xdelta" ] := "something" ]> ∅)).

(** A file without extension and with a short name below a directory,
    where the original folder has a regular file named like that
    directory. *)
Definition short_name : FS :=
  <[ [ "Script_JA"; "a" ] := "original" ]>
    (<[ [ "Script_EN"; "a"; "README" ] := "text" ]> ∅).


(** A folder without language next to the folder of a language. *)
Definition with_fallback : FS :=
  <[ [ "Script"; "a.dat" ] := "generic a" ]>
    (<[ [ "Script"; "b.dat" ] := "generic b" ]>
       (<[ [ "Script_DE"; "a.dat" ] := "deutsch" ]> ∅)).

(** A destination inside the folder of the language: the copy of
    [y.dat] lands on the collected file [x/y.dat]. *)
Definition inward_settings : params :=
  {| XDELTA := Some [ ("Script", [ ".dat" ]) ];
     PAT := None;
     PARENT := Some [ ("Script", "x") ];
     UPDATE_ACTIONS := None |}.

Definition inward_files : FS :=
  <[ [ "Script_EN"; "y.dat" ] := "outer" ]>
    (<[ [ "Script_EN"; "x"; "y.dat" ] := "inner" ]> ∅).

(** A walk in the other order than that of the map; on [inward_files]
    it lists [y.dat] before [x/y.dat]. *)
Definition walk_top_down (top : string) (f : FS) : list path :=
  List.rev (Fs.walk top f).

End Sample.

(** ** The three commands and their workers *)

(** What a command adds to its worker: nothing but lines of the summary,
    and none when the worker raised. *)
Definition reports (r w : outcome state) : Prop :=
  raised r = raised w /\
  fs (state_of r) = fs (state_of w) /\
  ctr (state_of r) = ctr (state_of w) /\
  runs (state_of r) = runs (state_of w) /\
  prms (state_of r) = prms (state_of w) /\
  exists o,
    out (state_of r) = (out (state_of w) ++ o)%list /\
    (raised w <> None -> o = []) /\
    (raised w = None ->
     exists tl, o = Blank :: tl /\
       Forall (fun l => exists what key,
                 l = Summary what (default 0 (ctr (state_of w) !! key)))
         tl).


(** * Properties *)

Example splitFolder_ex1 :
  splitFolder "Script_v1.1_EN" =
  <[ "lang" := "EN" ]> (<[ "version" := "v1.1" ]> {[ "folder" := "Script" ]}).
Proof. vm_compute. reflexivity. Qed.

Example split_examples :
  Py.split "_" "" = [ "" ] /\ Py.split "_" "a_" = [ "a"; "" ] /\
  Py.split "_" "Script_v1.1_EN" = [ "Script"; "v1.1"; "EN" ].
Proof. repeat apply conj; reflexivity. Qed.

Example is_version_examples :
  is_version "v1.0" = true /\ is_version "v1.10.2" = true /\
  is_version "v1" = true /\ is_version "v10" = false /\
  is_version "v1." = false /\ is_version "1.0" = false /\
  is_version "EN" = false /\ is_version "" = false.
Proof. repeat apply conj; reflexivity. Qed.

Example ext_examples :
  Path.ext "a.dat" = ".dat" /\ Path.ext "a.dat.xdelta" = ".xdelta" /\
  Path.ext "README" = "" /\ Path.ext ".hidden" = "" /\
  Path.ext "..a" = "" /\ Path.ext "a..b" = ".b".
Proof. repeat apply conj; reflexivity. Qed.

(** ** Facts about [split] and the version test *)

Lemma string_app_cons (c : ascii) (a b : string) :
  String c a ++ b = String c (a ++ b).
Proof. reflexivity. Qed.

Lemma string_app_nil (b : string) : "" ++ b = b.
Proof. reflexivity. Qed.

Section SplitFacts.

Variable sep : ascii.

Lemma split_nonempty (s : string) : Py.split sep s <> [].
Proof.
  destruct s as [|c r]; simpl; [discriminate|].
  destruct (Ascii.eqb c sep); [discriminate|].
  destruct (Py.split sep r); discriminate.
Qed.

Lemma split_no_sep (s : string) :
  Py.contains sep s = false -> Py.split sep s = [ s ].
Proof.
  induction s as [|c r IH]; simpl; [reflexivity|].
  intros H. apply orb_false_iff in H as [Hc Hr].
  rewrite Hc, (IH Hr). reflexivity.
Qed.

Lemma split_app_sep (a r : string) :
  Py.contains sep a = false ->
  Py.split sep (a ++ String sep r) = a :: Py.split sep r.
Proof.
  induction a as [|c a IH].
  - intros _. rewrite string_app_nil. simpl.
    rewrite Ascii.eqb_refl. reflexivity.
  - intros H. simpl in H. apply orb_false_iff in H as [Hc Ha].
    rewrite string_app_cons. simpl. rewrite Hc, (IH Ha). reflexivity.
Qed.

End SplitFacts.

Lemma string_app_assoc (a b c : string) : (a ++ b) ++ c = a ++ (b ++ c).
Proof.
  induction a as [|x a IH]; [reflexivity|].
  rewrite !string_app_cons, IH. reflexivity.
Qed.

Lemma version_grammar_is_version (s : string) :
  version_grammar s = true -> is_version s = true.
Proof.
  unfold is_version, version_grammar, Re.match_anchored.
  intros ->. reflexivity.
Qed.

Lemma is_version_cases (s : string) :
  is_version s = true <->
  version_grammar s = true \/
  exists w, Py.strip_last "010"%char s = Some w /\ version_grammar w = true.
Proof.
  unfold is_version, version_grammar, Re.match_anchored.
  rewrite orb_true_iff. split; (intros [H|H]; [left; exact H|right]).
  - destruct (Py.strip_last _ s) as [w|]; [|discriminate]. eauto.
  - destruct H as (w & -> & H). exact H.
Qed.

Lemma truthy_str_true (s : string) : s <> "" -> Py.truthy_str s = true.
Proof. destruct s; [congruence|reflexivity]. Qed.

Lemma version_grammar_truthy (s : string) :
  version_grammar s = true -> Py.truthy_str s = true.
Proof. destruct s; [discriminate|reflexivity]. Qed.

Ltac split_keys k :=
  unfold descriptor_lookup;
  destruct (String.eqb_spec k "folder") as [->|?];
  [|destruct (String.eqb_spec k "version") as [->|?];
    [|destruct (String.eqb_spec k "lang") as [->|?]]];
  simplify_map_eq; try reflexivity.

(** C1 (as amended): for tokens [b], [l], [v] without underscore, [v]
    unset or a word of the version grammar, [l] unset or a non-empty
    string that the version test of [splitFolder] rejects,
    [splitFolder (joinFolder b l v)] is exactly the dictionary with
    [folder = b], [version = v] and [lang = l], a key being present iff
    its field was given. *)
Theorem splitFolder_joinFolder (b : string) (l v : option string) :
  Py.contains "_" b = false ->
  (forall s, v = Some s ->
     Py.contains "_" s = false /\ version_grammar s = true) ->
  (forall s, l = Some s ->
     Py.contains "_" s = false /\ s <> "" /\ is_version s = false) ->
  forall k, splitFolder (joinFolder b l v) !! k = descriptor_lookup b l v k.
Proof.
  intros Hb Hv Hl k. unfold joinFolder.
  destruct v as [v|], l as [l|].
  - destruct (Hv v eq_refl) as [Hv1 Hv2], (Hl l eq_refl) as (Hl1 & Hl2 & Hl3).
    rewrite (version_grammar_truthy v Hv2), (truthy_str_true l Hl2).
    unfold splitFolder.
    replace ((b ++ "_" ++ v) ++ "_" ++ l) with (b ++ String "_" (v ++ String "_" l))
      by (rewrite string_app_assoc; reflexivity).
    rewrite (split_app_sep _ b _ Hb), (split_app_sep _ v _ Hv1),
      (split_no_sep _ l Hl1).
    simpl. rewrite (version_grammar_is_version v Hv2). split_keys k.
  - destruct (Hv v eq_refl) as [Hv1 Hv2].
    rewrite (version_grammar_truthy v Hv2). unfold splitFolder.
    change (b ++ "_" ++ v) with (b ++ String "_" v).
    rewrite (split_app_sep _ b _ Hb), (split_no_sep _ v Hv1).
    simpl. rewrite (version_grammar_is_version v Hv2). split_keys k.
  - destruct (Hl l eq_refl) as (Hl1 & Hl2 & Hl3).
    rewrite (truthy_str_true l Hl2). unfold splitFolder.
    change (b ++ "_" ++ l) with (b ++ String "_" l).
    rewrite (split_app_sep _ b _ Hb), (split_no_sep _ l Hl1).
    simpl. rewrite Hl3. split_keys k.
  - unfold splitFolder. rewrite (split_no_sep _ b Hb). simpl. split_keys k.
Qed.

Lemma splitFolder_joinFolder_witness :
  splitFolder (joinFolder "Script" (Some "EN") (Some "v1.1")) !! "lang"
  = Some "EN".
Proof.
  apply (splitFolder_joinFolder "Script" (Some "EN") (Some "v1.1")).
  - reflexivity.
  - intros s [= <-]. split; reflexivity.
  - intros s [= <-]. split; [reflexivity|]. split; [discriminate|reflexivity].
Defined.

(** C1, as stated, fails: a language token that is a version word followed
    by a newline is not a word of the grammar, yet [re.match] with [$]
    accepts it, so [splitFolder] files it under [version]. *)
Lemma splitFolder_joinFolder_newline :
  let l := String "v" (String "1" (String "010"%char "")) in
  Py.contains "_" l = false /\ l <> "" /\ version_grammar l = false /\
  splitFolder (joinFolder "Script" (Some l) None) !! "lang" = None /\
  splitFolder (joinFolder "Script" (Some l) None) !! "version" = Some l.
Proof.
  cbv zeta. repeat apply conj; try discriminate; vm_compute; reflexivity.
Qed.

(** C2 (as amended): in [splitFolder] the third underscore-separated
    segment is assigned as the language unconditionally; for a name
    [b_X_Y] the result has [lang = Y], and [X] survives only as [version],
    when the version test accepts it. *)
Theorem splitFolder_three_segments (b X Y : string) :
  Py.contains "_" b = false ->
  Py.contains "_" X = false ->
  Py.contains "_" Y = false ->
  let parts := splitFolder (b ++ "_" ++ X ++ "_" ++ Y) in
  parts !! "folder" = Some b /\
  parts !! "lang" = Some Y /\
  parts !! "version" = (if is_version X then Some X else None).
Proof.
  intros Hb HX HY parts. subst parts. unfold splitFolder.
  change (b ++ "_" ++ X ++ "_" ++ Y) with (b ++ String "_" (X ++ String "_" Y)).
  rewrite (split_app_sep _ b _ Hb), (split_app_sep _ X _ HX),
    (split_no_sep _ Y HY).
  simpl. destruct (is_version X); simplify_map_eq; auto.
Qed.

Lemma splitFolder_three_segments_witness :
  splitFolder "Script_EN_FR" !! "lang" = Some "FR".
Proof.
  apply (splitFolder_three_segments "Script" "EN" "FR"); reflexivity.
Defined.

(** C2, as stated, fails: with two non-version segments the language is
    the third segment, not the second. *)
Lemma splitFolder_two_languages :
  is_version "EN" = false /\ is_version "FR" = false /\
  splitFolder "Script_EN_FR" !! "lang" = Some "FR" /\
  splitFolder "Script_EN_FR" !! "lang" <> Some "EN".
Proof. repeat apply conj; vm_compute; try reflexivity. discriminate. Qed.

(** ** Version tiers *)

(** C7 (as amended): no version requested, or the version ["v1.0"]
    requested, gives the base tier alone; any other requested version
    gives [base tier, version] when [version_only] is false and
    [version] alone when it is true. *)
Theorem distribute_versions_spec (version : option string) (version_only : bool) :
  distribute_versions version version_only =
  match version with
  | None => [ None ]
  | Some v =>
      if decide (v = "v1.0") then [ None ]
      else if version_only then [ Some v ] else [ None; Some v ]
  end.
Proof.
  unfold distribute_versions. destruct version as [v|]; [|reflexivity].
  destruct (String.eqb_spec v "v1.0") as [->|Hne].
  - rewrite decide_True by reflexivity. reflexivity.
  - rewrite decide_False by exact Hne. destruct version_only; reflexivity.
Qed.

(** C7, as stated, fails at the requested version ["v1.0"]: the tiers are
    the base tier alone, with or without [version_only]. *)
Lemma distribute_versions_v1_0 :
  distribute_versions (Some "v1.0") false <> [ None; Some "v1.0" ] /\
  distribute_versions (Some "v1.0") true <> [ Some "v1.0" ] /\
  distribute_versions (Some "v1.0") false = [ None ] /\
  distribute_versions (Some "v1.0") true = [ None ].
Proof. repeat apply conj; vm_compute; try reflexivity; discriminate. Qed.

(** ** Parameter check *)

Lemma loadParams_loads (force_reload : bool) (settings : option params)
    (prms : option Params.parsed) :
  force_reload = true \/ prms = None ->
  let loaded := match settings with Some p => p | None => Params.loadDefaults end in
  Params.loadParams force_reload settings prms
  = (Params.parseParams loaded, Params.verifyParams (Params.parseParams loaded)).
Proof.
  intros Hload. unfold Params.loadParams.
  destruct Hload as [->| ->]; [|destruct force_reload]; reflexivity.
Qed.

(** ** MD5 test vectors (RFC 1321) *)

Example md5_empty :
  MD5.digest "" =
  [ 0xd4; 0x1d; 0x8c; 0xd9; 0x8f; 0x00; 0xb2; 0x04;
    0xe9; 0x80; 0x09; 0x98; 0xec; 0xf8; 0x42; 0x7e ]%N.
Proof. vm_compute. reflexivity. Qed.

Example md5_abc :
  MD5.digest "abc" =
  [ 0x90; 0x01; 0x50; 0x98; 0x3c; 0xd2; 0x4f; 0xb0;
    0xd6; 0x96; 0x3f; 0x7d; 0x28; 0xe1; 0x7f; 0x72 ]%N.
Proof. vm_compute. reflexivity. Qed.

Example md5_two_blocks :
  MD5.digest
    "12345678901234567890123456789012345678901234567890123456789012345678901234567890" =
  [ 0x57; 0xed; 0xf4; 0xa2; 0x2b; 0xe3; 0xc9; 0x55;
    0xac; 0x49; 0xda; 0x2e; 0x21; 0x07; 0xb6; 0x7a ]%N.
Proof. vm_compute. reflexivity. Qed.

(** ** State bookkeeping *)

Lemma fs_print v n l s : fs (print v n l s) = fs s.
Proof. unfold print. destruct (n <=? v)%nat; reflexivity. Qed.

Lemma ctr_print v n l s : ctr (print v n l s) = ctr s.
Proof. unfold print. destruct (n <=? v)%nat; reflexivity. Qed.

Lemma runs_print v n l s : runs (print v n l s) = runs s.
Proof. unfold print. destruct (n <=? v)%nat; reflexivity. Qed.

Lemma prms_print v n l s : prms (print v n l s) = prms s.
Proof. unfold print. destruct (n <=? v)%nat; reflexivity. Qed.

Lemma out_print v n l s :
  out (print v n l s) = (out s ++ (if (n <=? v)%nat then [ l ] else []))%list.
Proof.
  unfold print. destruct (n <=? v)%nat; simpl; [reflexivity|].
  rewrite app_nil_r. reflexivity.
Qed.

Lemma fs_count k s : fs (count k s) = fs s.
Proof. reflexivity. Qed.

Lemma ctr_count k s : ctr (count k s) = <[ k := S (default 0 (ctr s !! k)) ]> (ctr s).
Proof. reflexivity. Qed.

Lemma runs_count k s : runs (count k s) = runs s.
Proof. reflexivity. Qed.

Lemma out_count k s : out (count k s) = out s.
Proof. reflexivity. Qed.

Lemma fs_set_fs f s : fs (set_fs f s) = f.
Proof. reflexivity. Qed.

Lemma ctr_set_fs f s : ctr (set_fs f s) = ctr s.
Proof. reflexivity. Qed.

Lemma runs_set_fs f s : runs (set_fs f s) = runs s.
Proof. reflexivity. Qed.

Lemma out_set_fs f s : out (set_fs f s) = out s.
Proof. reflexivity. Qed.

Ltac st_simpl :=
  repeat first
    [ rewrite fs_set_fs | rewrite ctr_set_fs | rewrite runs_set_fs
    | rewrite out_set_fs
    | rewrite fs_count | rewrite ctr_count | rewrite runs_count
    | rewrite out_count
    | rewrite fs_print | rewrite ctr_print | rewrite runs_print ].

Lemma is_file_exists (f : FS) (p : path) :
  Fs.is_file f p = true -> Fs.exists_ f p = true.
Proof. unfold Fs.exists_. intros ->. reflexivity. Qed.

Lemma is_file_lookup (f : FS) (p : path) :
  Fs.is_file f p = true <-> is_Some (f !! p).
Proof.
  unfold Fs.is_file. destruct (f !! p); split; intros H; try reflexivity;
    try discriminate; eauto. destruct H; discriminate.
Qed.

Lemma hash_is_file (f : FS) (p : path) h :
  Fs.hash f p = Some h -> Fs.is_file f p = true.
Proof. unfold Fs.hash, Fs.is_file. destruct (f !! p); [reflexivity|discriminate]. Qed.

(** ** One edit file of [createXDeltaPatches] *)

Section CreateBody.

Variable xdelta_encode : nat -> string -> string -> string.
Variable force_override : bool.
Variable edit_file : path.
Variable orig_folder : string.

Let orig_file : path := orig_folder :: Path.extpath edit_file.
Let patch_file : path := Path.add_suffix edit_file ".xdelta".
Let body := create_body xdelta_encode force_override edit_file orig_folder.

(** C3: an edit file whose original exists and has the same digest. If
    the patch file exists it is removed and [delete] goes up by one; if
    there is no patch the file system is left as it is and [skip] goes
    up by one. In both cases the external tool is not run. *)
Theorem create_body_unchanged_edit (s : state) (h : list N) :
  Fs.exists_ (fs s) orig_file = true ->
  Fs.hash (fs s) orig_file = Some h ->
  Fs.hash (fs s) edit_file = Some h ->
  (Fs.is_file (fs s) patch_file = true ->
   exists s', body s = Done s' /\
     fs s' = delete patch_file (fs s) /\
     ctr s' = <[ "delete" := S (default 0 (ctr s !! "delete")) ]> (ctr s) /\
     runs s' = runs s) /\
  (Fs.exists_ (fs s) patch_file = false ->
   exists s', body s = Done s' /\
     fs s' = fs s /\
     ctr s' = <[ "skip" := S (default 0 (ctr s !! "skip")) ]> (ctr s) /\
     runs s' = runs s).
Proof.
  intros Hex Ho He. subst body. unfold create_body.
  fold orig_file. fold patch_file. rewrite Hex. simpl negb. cbv iota.
  unfold same_hash. rewrite Ho, He.
  rewrite bool_decide_true by reflexivity. split.
  - intros Hp. rewrite (is_file_exists _ _ Hp).
    apply is_file_lookup in Hp as [c Hc].
    unfold file_op, Fs.remove. rewrite fs_count, fs_print, Hc.
    eexists. split; [reflexivity|]. st_simpl. auto.
  - intros Hp. rewrite Hp. eexists. split; [reflexivity|]. st_simpl. auto.
Qed.

End CreateBody.

(** ** A missing original *)

(** C8: an item of [createXDeltaPatches] or of [applyXDeltaPatches] whose
    original file does not exist is passed over with a warning: the file
    system, the counters and the number of runs of the tool stay as they
    are, and the loop goes on with the remaining items. The test is the
    one each body makes: [exists] of the original folder joined with the
    simple name, which for a patch is the name without its last seven
    characters. *)
Theorem missing_original_skipped
    (xdelta_encode xdelta_decode : nat -> string -> string -> string)
    (force_override : bool) (file : path) (orig_folder : string)
    (rest : list path) (s : state) :
  let simple_c := Path.extpath file in
  let simple_a :=
    Path.map_last (Path.drop_last (String.length ".xdelta")) (Path.extpath file) in
  let create f := create_body xdelta_encode force_override f orig_folder in
  let apply f := apply_body xdelta_decode force_override f orig_folder in
  (Fs.exists_ (fs s) (orig_folder :: simple_c) = false ->
   exists s', create file s = Done s' /\
     fs s' = fs s /\ ctr s' = ctr s /\ runs s' = runs s /\
     out s' = (out s ++ [ Warning simple_c ])%list /\
     for_each create (file :: rest) s = for_each create rest s') /\
  (Fs.exists_join (fs s) (orig_folder :: simple_a) = false ->
   exists s', apply file s = Done s' /\
     fs s' = fs s /\ ctr s' = ctr s /\ runs s' = runs s /\
     out s' = (out s ++ [ Warning simple_a ])%list /\
     for_each apply (file :: rest) s = for_each apply rest s').
Proof.
  intros simple_c simple_a create apply. split; intros Hmiss.
  - exists (print VERBOSE 2 (Warning simple_c) s).
    assert (Hb : create file s = Done (print VERBOSE 2 (Warning simple_c) s)).
    { subst create. unfold create_body. fold simple_c. rewrite Hmiss. reflexivity. }
    split; [exact Hb|]. st_simpl. rewrite out_print.
    repeat (split; [reflexivity|]). simpl for_each. rewrite Hb. reflexivity.
  - exists (print VERBOSE 0 (Warning simple_a) s).
    assert (Hb : apply file s = Done (print VERBOSE 0 (Warning simple_a) s)).
    { subst apply. unfold apply_body. fold simple_a. rewrite Hmiss. reflexivity. }
    split; [exact Hb|]. st_simpl. rewrite out_print.
    repeat (split; [reflexivity|]). simpl for_each. rewrite Hb. reflexivity.
Qed.

(** ** Counting *)

Lemma enumerated_app (a b : list line) :
  enumerated (a ++ b) = enumerated a + enumerated b.
Proof.
  induction a as [|l a IH]; [reflexivity|].
  destruct l; simpl; rewrite IH; lia.
Qed.

Lemma warned_app (a b : list line) : warned (a ++ b) = warned a + warned b.
Proof.
  induction a as [|l a IH]; [reflexivity|].
  destruct l; simpl; rewrite IH; lia.
Qed.

Lemma ctr_run_xdelta tool a b c s : ctr (run_xdelta tool a b c s) = ctr s.
Proof. reflexivity. Qed.

Lemma out_run_xdelta tool a b c s : out (run_xdelta tool a b c s) = out s.
Proof. reflexivity. Qed.

Lemma runs_run_xdelta tool a b c s : runs (run_xdelta tool a b c s) = S (runs s).
Proof. reflexivity. Qed.

Lemma total_count (k : string) (c : gmap string nat) :
  k ∈ five -> total (<[ k := S (default 0 (c !! k)) ]> c) = S (total c).
Proof.
  unfold five. rewrite !elem_of_cons, elem_of_nil.
  intros [->|[->|[->|[->|[->|[]]]]]]; unfold total; simplify_map_eq; lia.
Qed.

Lemma file_op_done op p s s' :
  file_op op p s = Done s' ->
  ctr s' = ctr s /\ out s' = out s /\ runs s' = runs s /\ prms s' = prms s.
Proof.
  unfold file_op. destruct (op (fs s)); intros [= <-]. auto.
Qed.

(** What one pass of the loop body does to the counters and to the
    output, when it returns. *)
Lemma create_body_step
    (xdelta_encode : nat -> string -> string -> string)
    (force_override : bool) (edit_file : path) (orig_folder : string)
    (s s' : state) :
  create_body xdelta_encode force_override edit_file orig_folder s = Done s' ->
  exists o, out s' = (out s ++ o)%list /\ enumerated o = 0 /\
  if Fs.exists_ (fs s) (orig_folder :: Path.extpath edit_file) then
    warned o = 0 /\
    exists k, k ∈ five /\ ctr s' = <[ k := S (default 0 (ctr s !! k)) ]> (ctr s)
  else
    warned o = 1 /\ ctr s' = ctr s.
Proof.
  unfold create_body.
  destruct (Fs.exists_ (fs s) (orig_folder :: Path.extpath edit_file)); simpl negb; cbv iota.
  2:{ intros [= <-]. rewrite out_print, ctr_print.
      eexists. split; [reflexivity|]. simpl. auto. }
  unfold same_hash, bind.
  repeat case_match; try discriminate; intros Hd;
    repeat match goal with
      | H : Done _ = Done _ |- _ => injection H as <-
      | H : file_op _ _ _ = Done _ |- _ =>
          apply file_op_done in H as (? & ? & ? & ?)
      end;
    repeat match goal with
      | H : ctr ?x = _ |- context [ctr ?x] => rewrite H
      | H : out ?x = _ |- context [out ?x] => rewrite H
      end;
    st_simpl; rewrite ?ctr_run_xdelta, ?out_run_xdelta; st_simpl;
    rewrite ?out_print;
    (eexists; split; [reflexivity|]); simpl;
    (split; [reflexivity|]); (split; [reflexivity|]);
    unfold five; eexists; (split; [|reflexivity]); set_solver.
Qed.

Lemma accounted_refl (s : state) : accounted s s.
Proof. exists []. rewrite app_nil_r. simpl. split; [reflexivity|lia]. Qed.

Lemma accounted_trans (a b c : state) :
  accounted a b -> accounted b c -> accounted a c.
Proof.
  intros (o1 & H1 & E1) (o2 & H2 & E2). exists (o1 ++ o2)%list.
  rewrite H2, H1, <- app_assoc, warned_app, enumerated_app.
  split; [reflexivity|lia].
Qed.

Lemma for_each_accounted {A : Type} (body : A -> state -> outcome state)
    (l : list A) :
  (forall x s s', body x s = Done s' -> accounted s s') ->
  forall s s', for_each body l s = Done s' -> accounted s s'.
Proof.
  intros Hbody. induction l as [|x l IH]; simpl; intros s s' H.
  - injection H as <-. apply accounted_refl.
  - destruct (body x s) as [s1|e s1] eqn:Hx; simpl in H; [|discriminate].
    eapply accounted_trans; [eapply Hbody, Hx|eapply IH, H].
Qed.

Lemma for_each_one_each (body : path -> state -> outcome state) (l : list path) :
  one_each body ->
  forall s s', for_each body l s = Done s' ->
    exists o, out s' = (out s ++ o)%list /\ enumerated o = 0 /\
      total (ctr s') + warned o = length l + total (ctr s).
Proof.
  intros Hbody. induction l as [|x l IH]; simpl; intros s s' H.
  - injection H as <-. exists []. rewrite app_nil_r. auto.
  - destruct (body x s) as [s1|e s1] eqn:Hx; simpl in H; [|discriminate].
    destruct (Hbody _ _ _ Hx) as (o1 & H1 & E1 & T1).
    destruct (IH _ _ H) as (o2 & H2 & E2 & T2).
    exists (o1 ++ o2)%list. rewrite H2, H1, <- app_assoc, warned_app, enumerated_app.
    split; [reflexivity|]. split; lia.
Qed.

Lemma loop_folder_accounted (walk : string -> FS -> list path)
    (accept : string -> bool) (body : path -> state -> outcome state)
    (edit_folder : string) (s s' : state) :
  one_each body ->
  loop_folder walk accept body edit_folder s = Done s' -> accounted s s'.
Proof.
  intros Hbody. unfold loop_folder.
  set (s1 := print VERBOSE 1 (Progress edit_folder) s).
  set (files := List.filter _ (walk edit_folder (fs s1))).
  intros H. destruct (for_each_one_each _ _ Hbody _ _ H) as (o & Ho & E & T).
  rewrite out_print, ctr_print in *. subst s1. rewrite out_print, ctr_print in *.
  eexists. rewrite Ho, <- !app_assoc. split; [reflexivity|].
  rewrite !warned_app, !enumerated_app. simpl. lia.
Qed.

Lemma create_body_one_each
    (xdelta_encode : nat -> string -> string -> string)
    (force_override : bool) (orig_folder : string) :
  one_each (fun f => create_body xdelta_encode force_override f orig_folder).
Proof.
  intros f s s' H. apply create_body_step in H as (o & Ho & E & H).
  exists o. split; [exact Ho|]. split; [exact E|].
  destruct (Fs.exists_ _ _).
  - destruct H as (W & k & Hk & ->). rewrite W, (total_count k _ Hk). lia.
  - destruct H as (W & ->). lia.
Qed.

Lemma loopFiles_accounted {T : Type} (walk : string -> FS -> list path)
    (accept : T -> string -> bool) (folders : list (string * T))
    (original_language : string) (dirs : list string)
    (body : string -> path -> string -> state -> outcome state) (s s' : state) :
  (forall folder orig_folder, one_each (fun f => body folder f orig_folder)) ->
  loopFiles walk accept folders original_language dirs body s = Done s' ->
  accounted s s'.
Proof.
  intros Hbody. unfold loopFiles.
  destruct (Py.truthy_str original_language).
  - apply for_each_accounted. intros [folder types] s1 s2.
    destruct (versions_of _ _ _).
    + intros [= <-]. apply accounted_refl.
    + apply for_each_accounted. intros [version language] s3 s4.
      apply loop_folder_accounted, Hbody.
  - apply for_each_accounted. intros [folder types] s1 s2.
    apply for_each_accounted. intros dir s3 s4.
    apply loop_folder_accounted. intros x a b. discriminate.
Qed.

Lemma with_params_done (settings : option params)
    (k : Params.parsed -> state -> outcome state) (s s' : state) :
  with_params settings k s = Done s' ->
  exists p, k p (set_prms (Some p) s) = Done s'.
Proof.
  unfold with_params. destruct (Params.loadParams _ _ _) as [p [e|]];
    [discriminate|]. eauto.
Qed.

(** C10: in [createXDeltaPatches], an enumerated edit file whose original
    exists adds one to exactly one of [create], [update], [delete], [keep],
    [skip] and prints no warning; one whose original is missing prints
    one warning and leaves the counters alone. Hence, in the returned
    dictionary, the sum of the five counters is the number of enumerated
    files (the bracketed counts printed per folder) less the number of
    warnings about a missing original. *)
Theorem createXDeltaPatches_counter_sum
    (walk : string -> FS -> list path)
    (xdelta_encode : nat -> string -> string -> string)
    (settings : option params) (dirs : list string)
    (original_language : string) (force_override : bool) :
  (forall edit_file orig_folder s s',
     create_body xdelta_encode force_override edit_file orig_folder s = Done s' ->
     exists o, out s' = (out s ++ o)%list /\ enumerated o = 0 /\
       if Fs.exists_ (fs s) (orig_folder :: Path.extpath edit_file) then
         warned o = 0 /\
         exists k, k ∈ five /\
           ctr s' = <[ k := S (default 0 (ctr s !! k)) ]> (ctr s)
       else warned o = 1 /\ ctr s' = ctr s) /\
  (forall s s',
     createXDeltaPatches walk xdelta_encode settings dirs original_language
       force_override s = Done s' ->
     exists o, out s' = (out s ++ o)%list /\
       total (ctr s') + warned o = enumerated o).
Proof.
  split.
  - intros. eapply create_body_step. eassumption.
  - intros s s' H. unfold createXDeltaPatches in H.
    apply with_params_done in H as (p & H).
    apply loopFiles_accounted in H as (o & Ho & Hsum).
    + exists o. split; [exact Ho|]. exact Hsum.
    + intros. apply create_body_one_each.
Qed.

(** ** The walk of the map satisfies the contract *)

Lemma Fs_walk_spec : walk_spec Fs.walk.
Proof.
  intros top f p. unfold Fs.walk.
  rewrite list_elem_of_In, filter_In, <- list_elem_of_In, list_elem_of_fmap.
  split.
  - intros [((q & c) & -> & Hin) Hp]. simpl in *.
    apply elem_of_map_to_list in Hin.
    destruct q as [|d [|n rest]]; try discriminate.
    apply andb_true_iff in Hp as [Ht Hd].
    apply String.eqb_eq in Hd as ->. eauto 10.
  - intros (Ht & (n & rest & ->) & [c Hc]). split.
    + exists (top :: n :: rest, c). split; [reflexivity|].
      apply elem_of_map_to_list. exact Hc.
    + rewrite Ht, String.eqb_refl. reflexivity.
Qed.

(** ** [collectFiles]: first match wins *)

Section Collect.

Variable walk : string -> FS -> list path.
Hypothesis Hwalk : walk_spec walk.











Variable f : FS.
Variable folder : string.
Variable types : list string.
Variable ver : option string.









End Collect.

(** ** The copy loop of [distributeOtherFiles] *)

Lemma file_op_fs op p s s' :
  file_op op p s = Done s' -> op (fs s) = Some (fs s').
Proof.
  unfold file_op. destruct (op (fs s)); intros [= <-]. reflexivity.
Qed.

Lemma total_distributed_count (k : string) (c : gmap string nat) :
  k ∈ [ "add"; "update"; "keep" ] ->
  total_distributed (<[ k := S (default 0 (c !! k)) ]> c) = S (total_distributed c).
Proof.
  rewrite !elem_of_cons, elem_of_nil.
  intros [->|[->|[->|[]]]]; unfold total_distributed; simplify_map_eq; lia.
Qed.

Lemma remove_other (f f' : FS) (p q : path) :
  Fs.remove f p = Some f' -> q <> p -> f' !! q = f !! q.
Proof.
  unfold Fs.remove. destruct (f !! p); [|discriminate].
  intros [= <-] Hq. apply lookup_delete_ne. congruence.
Qed.

Lemma copyfile_other (f f' : FS) (src dst q : path) :
  Fs.copyfile f src dst = Some f' -> q <> dst -> f' !! q = f !! q.
Proof.
  unfold Fs.copyfile. destruct (f !! src); [|discriminate].
  intros [= <-] Hq. apply lookup_insert_ne. congruence.
Qed.

(** One collected file: one of the three counters goes up by one, and
    only the destination file is written. *)
Lemma copy_body_step (force_override : bool) (verbose : nat)
    (dest_folder source_file simplename : path) (s s' : state) :
  copy_body force_override verbose dest_folder source_file simplename s = Done s' ->
  total_distributed (ctr s') = S (total_distributed (ctr s)) /\
  forall q, q <> (dest_folder ++ simplename)%list -> fs s' !! q = fs s !! q.
Proof.
  unfold copy_body, same_hash, bind.
  repeat case_match; try discriminate; intros Hd;
    repeat match goal with
      | H : Done _ = Done _ |- _ => injection H as <-
      | H : file_op _ _ _ = Done _ |- _ =>
          let H' := fresh in
          pose proof (file_op_fs _ _ _ _ H) as H';
          apply file_op_done in H as (? & ? & ? & ?)
      end;
    (split;
     [ repeat match goal with
         | H : ctr ?x = _ |- context [ctr ?x] => rewrite H
         end;
       st_simpl; apply total_distributed_count; set_solver
     | intros q Hq; cbv beta in *;
       repeat match goal with
         | H : Fs.remove _ _ = Some _ |- _ =>
             apply remove_other with (q := q) in H; [|exact Hq]
         | H : Fs.copyfile _ _ _ = Some _ |- _ =>
             apply copyfile_other with (q := q) in H; [|exact Hq]
         end;
       repeat match goal with
         | H : fs ?x !! q = _ |- context [fs ?x !! q] => rewrite H
         end;
       st_simpl; reflexivity ]).
Qed.

Lemma copy_loop_step (force_override : bool) (verbose : nat) (dest_folder : path)
    (files : list (path * path)) (s s' : state) :
  for_each
    (fun '(source_file, simplename) =>
       copy_body force_override verbose dest_folder source_file simplename)
    files s = Done s' ->
  total_distributed (ctr s') = length files + total_distributed (ctr s) /\
  forall name, name ∉ List.map snd files ->
    fs s' !! (dest_folder ++ name)%list = fs s !! (dest_folder ++ name)%list.
Proof.
  revert s. induction files as [|[file sn] r IH]; simpl; intros s H.
  - injection H as <-. auto.
  - destruct (copy_body _ _ _ _ _ s) as [s1|e s1] eqn:Hx; simpl in H; [|discriminate].
    apply copy_body_step in Hx as [Hc Hf].
    apply IH in H as [Hc' Hf']. split; [lia|].
    intros name Hname. apply not_elem_of_cons in Hname as [Hne Hname].
    rewrite (Hf' name Hname). apply Hf.
    intros Heq. apply app_inv_head in Heq. congruence.
Qed.

(** ** Version overlay exclusion *)

(** C6: with the tiers [[None; V]], in the pass of the base tier a
    collected file whose simple name is among the files (of an accepted
    extension) of the original-language folder of [V] is dropped before
    the copy loop: no entry of the list that is copied carries that name,
    the counters go up by the length of that list only, and the
    destination file of that name is left as it is. *)
Theorem overlay_exclusion (walk : string -> FS -> list path)
    (languages : list string) (V : option string) (original_language : string)
    (destination_dir : path) (force_override : bool) (verbose : nat)
    (p : Params.parsed) (folder : string) (types : list string)
    (name : path) (s s' : state) :
  let versions := [ None; V ] in
  name ∈ List.map snd
           (walk_types walk types
              (joinFolder folder (Some original_language) V) (fs s)) ->
  distribute_tier walk languages versions original_language destination_dir
    force_override verbose p folder types None s = Done s' ->
  exists candidates parent,
    collectFiles walk (fs s) languages original_language folder types None
      = inr candidates /\
    List.find (fun kv => String.eqb (fst kv) folder) (Params.parentFolders p)
      = Some (folder, parent) /\
    let files :=
      drop_updated walk (fs s) versions original_language folder types None
        candidates in
    (forall file, (file, name) ∉ files) /\
    total_distributed (ctr s') = length files + total_distributed (ctr s) /\
    fs s' !! (destination_dir ++ parent ++ name)%list
      = fs s !! (destination_dir ++ parent ++ name)%list.
Proof.
  intros versions Hname. unfold distribute_tier.
  destruct (collectFiles _ _ _ _ _ _ _) as [e|candidates]; [discriminate|].
  set (files := drop_updated _ _ _ _ _ _ _ _).
  assert (Hdrop : forall file, (file, name) ∉ files).
  { intros file Hin. subst files. unfold drop_updated in Hin. simpl in Hin.
    apply list_elem_of_In, filter_In in Hin as [_ Hin]. simpl in Hin.
    apply negb_true_iff, bool_decide_eq_false in Hin. exact (Hin Hname). }
  match goal with
  | |- context [for_each _ _ ?st] => set (s1 := st)
  end.
  assert (Hs1 : fs s1 = fs s /\ ctr s1 = ctr s).
  { subst s1. destruct (_ || _); st_simpl; auto. }
  destruct Hs1 as [Hfs Hctr].
  destruct (find _ _) as [[k parent]|] eqn:Hfind; [|discriminate].
  intros H. apply copy_loop_step in H as [Hc Hf].
  pose proof (find_some _ _ Hfind) as [_ Hk]. simpl in Hk.
  apply String.eqb_eq in Hk as ->.
  exists candidates, parent. split; [reflexivity|]. split; [reflexivity|].
  split; [exact Hdrop|]. rewrite Hc, Hctr. split; [reflexivity|].
  rewrite app_assoc, Hf, Hfs; [reflexivity|].
  intros Hin. apply list_elem_of_fmap in Hin as ([file n] & Hn & Hin).
  simpl in Hn. subst n. exact (Hdrop file Hin).
Qed.

(** ** The parameter check comes first *)

Lemma with_params_PAT (settings : option params)
    (k : Params.parsed -> state -> outcome state) (s : state) :
  let loaded := match settings with Some p => p | None => Params.loadDefaults end in
  prms s = None ->
  (exists v, PAT loaded = Some v /\ truthy_json v = true) ->
  with_params settings k s
  = Raised (UnsupportedParamException "PAT")
      (set_prms (Some (Params.parseParams loaded)) s).
Proof.
  intros loaded Hp (v & Hv & Ht). unfold with_params.
  rewrite Hp, loadParams_loads by (right; reflexivity). fold loaded.
  unfold Params.verifyParams. simpl. rewrite Hv, Ht. reflexivity.
Qed.

(** C9 (as amended): when [loadParams] loads (the attribute is unset, or
    a reload is forced), it raises [UnsupportedParamException] if the
    loaded dictionary has the key [PAT] with a truthy value, and returns
    without raising if the key is absent or its value is falsy. The three
    pipelines load the parameters before their loops: with a truthy [PAT]
    and the attribute unset they raise with the file system as it was and
    the tool not run. *)
Theorem loadParams_PAT (force_reload : bool) (settings : option params)
    (prms0 : option Params.parsed) :
  force_reload = true \/ prms0 = None ->
  let loaded := match settings with Some p => p | None => Params.loadDefaults end in
  let r := Params.loadParams force_reload settings prms0 in
  ((exists v, PAT loaded = Some v /\ truthy_json v = true) ->
     snd r = Some (UnsupportedParamException "PAT") /\
     forall walk xdelta_encode xdelta_decode dirs original_language force_override
            languages versions destination_dir verbose (s : state),
       prms s = None ->
       let untouched (o : outcome state) :=
         raised o = Some (UnsupportedParamException "PAT") /\
         fs (state_of o) = fs s /\ runs (state_of o) = runs s /\
         out (state_of o) = out s in
       untouched (createXDeltaPatches walk xdelta_encode settings dirs
                    original_language force_override s) /\
       untouched (applyXDeltaPatches walk xdelta_decode settings dirs
                    original_language force_override s) /\
       untouched (distributeOtherFiles walk settings languages versions
                    original_language destination_dir force_override verbose s)) /\
  ((PAT loaded = None \/ exists v, PAT loaded = Some v /\ truthy_json v = false) ->
     snd r = None /\ fst r = Params.parseParams loaded).
Proof.
  intros Hload loaded r. subst r. rewrite (loadParams_loads _ _ _ Hload).
  fold loaded. unfold Params.verifyParams. simpl. split.
  - intros Hpat. split.
    + destruct Hpat as (v & -> & ->). reflexivity.
    + intros. unfold createXDeltaPatches, applyXDeltaPatches, distributeOtherFiles.
      rewrite !with_params_PAT by (try assumption; reflexivity).
      fold loaded. simpl. auto 10.
  - intros [->|(v & -> & ->)]; split; reflexivity.
Qed.

Lemma loadParams_PAT_witness :
  snd (Params.loadParams false
         (Some {| XDELTA := None; PAT := Some (JInt 1); PARENT := None;
                  UPDATE_ACTIONS := None |}) None)
  = Some (UnsupportedParamException "PAT").
Proof.
  refine (proj1 (proj1 (loadParams_PAT false (Some _) None _) _)).
  - right. reflexivity.
  - exists (JInt 1). split; reflexivity.
Defined.

(** C9 does not hold of every call: the attribute is assigned before the
    check, so after a call that raised, the next call finds it set and
    returns without checking. A second [createXDeltaPatches] then writes
    the patch, with [PAT] still in the loaded dictionary. *)
Lemma loadParams_PAT_cached :
  let run s :=
    createXDeltaPatches Fs.walk Demo.encode (Some Sample.pat_settings)
      Demo.dirs "JA" false s in
  let r1 := run (Demo.start Demo.files) in
  let r2 := run (state_of r1) in
  (exists v, PAT Sample.pat_settings = Some v /\ truthy_json v = true) /\
  raised r1 = Some (UnsupportedParamException "PAT") /\
  prms (state_of r1) = Some (Params.parseParams Sample.pat_settings) /\
  Params.loadParams false (Some Sample.pat_settings) (prms (state_of r1))
  = (Params.parseParams Sample.pat_settings, None) /\
  raised r2 = None /\
  ctr (state_of r2) !! "create" = Some 1 /\
  fs (state_of r1) !! [ "Script_EN"; "a.dat.xdelta" ] = None /\
  fs (state_of r2) !! [ "Script_EN"; "a.dat.xdelta" ] = Some "original>edited".
Proof.
  cbv zeta. split; [eexists; split; reflexivity|].
  repeat apply conj; vm_compute; reflexivity.
Qed.

(** ** Instances on a small project *)

Lemma done_state_of {S : Type} (m : outcome S) :
  raised m = None -> m = Done (state_of m).
Proof. destruct m; [reflexivity|discriminate]. Qed.

Lemma create_body_unchanged_edit_witness :
  exists s',
    create_body Demo.encode false [ "Script_EN"; "a.dat" ] "Script_JA"
      (Demo.start Demo.reverted) = Done s' /\
    fs s' = delete [ "Script_EN"; "a.dat.xdelta" ] Demo.reverted /\
    ctr s' = <[ "delete" := 1 ]> ∅ /\
    runs s' = 0.
Proof.
  refine (proj1 (create_body_unchanged_edit Demo.encode false
                   [ "Script_EN"; "a.dat" ] "Script_JA"
                   (Demo.start Demo.reverted) (MD5.digest "original") _ _ _) _);
    vm_compute; reflexivity.
Defined.

Lemma missing_original_skipped_witness :
  (exists s',
     create_body Demo.encode false [ "Script_EN"; "b.dat" ] "Script_JA"
       (Demo.start Demo.orphans) = Done s' /\
     fs s' = Demo.orphans /\ ctr s' = ∅ /\ runs s' = 0 /\
     out s' = [ Warning [ "b.dat" ] ] /\
     for_each (fun f => create_body Demo.encode false f "Script_JA")
       [ [ "Script_EN"; "b.dat" ]; [ "Script_EN"; "c.dat" ] ]
       (Demo.start Demo.orphans)
     = for_each (fun f => create_body Demo.encode false f "Script_JA")
         [ [ "Script_EN"; "c.dat" ] ] s') /\
  (exists s',
     apply_body Demo.decode false [ "Script_EN"; "b.dat.xdelta" ] "Script_JA"
       (Demo.start Demo.orphans) = Done s' /\
     fs s' = Demo.orphans /\ ctr s' = ∅ /\ runs s' = 0 /\
     out s' = [ Warning [ "b.dat" ] ] /\
     for_each (fun f => apply_body Demo.decode false f "Script_JA")
       [ [ "Script_EN"; "b.dat.xdelta" ]; [ "Script_EN"; "c.dat.xdelta" ] ]
       (Demo.start Demo.orphans)
     = for_each (fun f => apply_body Demo.decode false f "Script_JA")
         [ [ "Script_EN"; "c.dat.xdelta" ] ] s').
Proof.
  split.
  - refine (proj1 (missing_original_skipped Demo.encode Demo.decode false
                     [ "Script_EN"; "b.dat" ] "Script_JA"
                     [ [ "Script_EN"; "c.dat" ] ]
                     (Demo.start Demo.orphans)) _).
    vm_compute. reflexivity.
  - refine (proj2 (missing_original_skipped Demo.encode Demo.decode false
                     [ "Script_EN"; "b.dat.xdelta" ] "Script_JA"
                     [ [ "Script_EN"; "c.dat.xdelta" ] ]
                     (Demo.start Demo.orphans)) _).
    vm_compute. reflexivity.
Defined.

(** A name of fewer than seven characters leaves an empty last segment:
    the original is then looked for with a trailing separator, and a
    regular file is not found there. The patch loop warns and goes on. *)
Example applyXDeltaPatches_trailing_separator :
  let r :=
    applyXDeltaPatches Fs.walk Demo.decode (Some Demo.settings) Demo.dirs "JA"
      false (Demo.start Sample.short_name) in
  Fs.is_file Sample.short_name [ "Script_JA"; "a" ] = true /\
  raised r = None /\ ctr (state_of r) = ∅ /\ runs (state_of r) = 0 /\
  warned (out (state_of r)) = 1 /\
  fs (state_of r) !! [ "Script_EN"; "a.temp" ] = None.
Proof. cbv zeta. repeat apply conj; vm_compute; reflexivity. Qed.

Lemma createXDeltaPatches_counter_sum_witness :
  exists o,
    out (state_of (Demo.create false (Demo.start Demo.files))) = ([] ++ o)%list /\
    total (ctr (state_of (Demo.create false (Demo.start Demo.files))))
    + warned o = enumerated o.
Proof.
  refine (proj2 (createXDeltaPatches_counter_sum Fs.walk Demo.encode
                   (Some Demo.settings) Demo.dirs "JA" false)
            (Demo.start Demo.files) _ _).
  apply done_state_of. vm_compute. reflexivity.
Defined.


Lemma overlay_exclusion_witness :
  let s := Demo.start Demo.translated in
  let p := Params.parseParams Demo.settings in
  let s' :=
    state_of (distribute_tier Fs.walk [ "EN" ] [ None; Some "v1.1" ] "JA"
                [ "_dist" ] false 2 p "Script" [ ".dat" ] None s) in
  fs s' !! [ "_dist"; "romfs"; "script"; "a.dat" ]
  = fs s !! [ "_dist"; "romfs"; "script"; "a.dat" ].
Proof.
  intros s p s'.
  destruct (overlay_exclusion Fs.walk [ "EN" ] (Some "v1.1") "JA" [ "_dist" ]
              false 2 p "Script" [ ".dat" ] [ "a.dat" ] s s')
    as (candidates & parent & Hc & Hp & Hdrop & Hn & Hfs).
  - vm_compute. repeat constructor.
  - vm_compute. reflexivity.
  - vm_compute in Hp. injection Hp as <-. exact Hfs.
Defined.

(** C4, as stated, fails: with [force_override] the second pass replaces
    the patch it wrote in the first, and counts it under [update]. *)
Lemma createXDeltaPatches_twice_forced :
  let r1 := Demo.create true (Demo.start Demo.files) in
  let r2 := Demo.create true (state_of r1) in
  raised r1 = None /\ raised r2 = None /\
  ctr (state_of r1) !! "create" = Some 1 /\
  ctr (state_of r2) !! "update" = Some 1 /\
  fs (state_of r2) !! [ "Script_EN"; "a.dat.xdelta" ]
  = fs (state_of r1) !! [ "Script_EN"; "a.dat.xdelta" ].
Proof. cbv zeta. repeat apply conj; vm_compute; reflexivity. Qed.

(** ** The loop body and its relation *)

Lemma not_exists_lookup (f : FS) (p : path) :
  Fs.exists_ f p = false -> f !! p = None.
Proof.
  unfold Fs.exists_, Fs.is_file. destruct (f !! p); [discriminate|reflexivity].
Qed.

Lemma hash_lookup (f : FS) (p : path) (h : list N) :
  Fs.hash f p = Some h -> exists c, f !! p = Some c /\ h = MD5.digest c.
Proof.
  unfold Fs.hash. destruct (f !! p) as [c|]; [|discriminate].
  intros [= <-]. eauto.
Qed.

Lemma fs_run_xdelta tool a b c s ca cb :
  fs s !! a = Some ca -> fs s !! b = Some cb ->
  fs (run_xdelta tool a b c s) = <[ c := tool (runs s) ca cb ]> (fs s).
Proof. unfold run_xdelta. intros -> ->. reflexivity. Qed.

Lemma remove_lookup (f f' : FS) (p : path) :
  Fs.remove f p = Some f' -> is_Some (f !! p) /\ f' = delete p f.
Proof.
  unfold Fs.remove. destruct (f !! p); [|discriminate].
  intros [= <-]. eauto.
Qed.

Lemma rename_lookup (f f' : FS) (p q : path) :
  Fs.rename f p q = Some f' ->
  exists c, f !! p = Some c /\ f' = <[ q := c ]> (delete p f).
Proof.
  unfold Fs.rename. destruct (f !! p) as [c|]; [|discriminate].
  intros [= <-]. eauto.
Qed.

Lemma update_steps (p t : path) (s2 s' : state) :
  bind (file_op (fun f => Fs.remove f p) p s2)
    (file_op (fun f => Fs.rename f t p) t) = Done s' ->
  exists cp c, fs s2 !! p = Some cp /\ delete p (fs s2) !! t = Some c /\
    fs s' = <[ p := c ]> (delete t (delete p (fs s2))) /\ ctr s' = ctr s2.
Proof.
  destruct (file_op _ p s2) as [s3|x s3] eqn:H3; simpl; [|discriminate].
  intros H4.
  pose proof (file_op_fs _ _ _ _ H3) as R3. pose proof (file_op_fs _ _ _ _ H4) as R4.
  apply file_op_done in H3 as (C3 & _), H4 as (C4 & _). cbv beta in *.
  apply remove_lookup in R3 as [[cp Hcp] E3].
  apply rename_lookup in R4 as (c & Hc & E4).
  exists cp, c. rewrite E3 in Hc, E4. rewrite C4, C3. auto.
Qed.

(** Every way through the loop body that returns is one of the
    constructors of [create_effect]. *)
Lemma create_body_effect (tool : nat -> string -> string -> string)
    (enc : string -> string -> string) (force : bool) (e : path) (o : string)
    (s s' : state) :
  (forall n a b, tool n a b = enc a b) ->
  create_body tool force e o s = Done s' ->
  exists k, create_effect enc force e o (fs s) (fs s') k /\
    ctr s' = match k with
             | Some k => <[ k := S (default 0 (ctr s !! k)) ]> (ctr s)
             | None => ctr s
             end.
Proof.
  intros Hdet. unfold create_body.
  change (o :: Path.extpath e) with (orig_of e o).
  change (Path.add_suffix (Path.add_suffix e ".xdelta") ".temp") with (temp_of e).
  change (Path.add_suffix e ".xdelta") with (patch_of e).
  destruct (Fs.exists_ (fs s) (orig_of e o)) eqn:Hex; simpl negb; cbv iota.
  2:{ intros [= <-]. exists None. st_simpl.
      split; [apply Eff_warn, Hex|reflexivity]. }
  unfold same_hash at 1.
  destruct (Fs.hash (fs s) (orig_of e o)) as [ho|] eqn:Ho; [|discriminate].
  destruct (Fs.hash (fs s) e) as [he|] eqn:He; [|discriminate].
  apply hash_lookup in Ho as (co & Hco & ->), He as (ce & Hce & ->).
  destruct (bool_decide_reflect (MD5.digest co = MD5.digest ce)) as [Heq|Hne].
  - destruct (Fs.exists_ (fs s) (patch_of e)) eqn:Hp.
    + intros H. pose proof (file_op_fs _ _ _ _ H) as R.
      apply file_op_done in H as (C & _). cbv beta in R.
      revert R. st_simpl. intros R. apply remove_lookup in R as [[cp Hcp] ->].
      exists (Some "delete"). rewrite C. st_simpl.
      split; [eapply Eff_delete; eassumption|reflexivity].
    + intros [= <-]. exists (Some "skip"). st_simpl.
      split; [|reflexivity].
      eapply Eff_skip; try eassumption. apply not_exists_lookup, Hp.
  - destruct (Fs.exists_ (fs s) (patch_of e)) eqn:Hp.
    + set (s1 := run_xdelta tool (orig_of e o) e (temp_of e) s).
      assert (Hf1 : fs s1 = <[ temp_of e := enc co ce ]> (fs s)).
      { subst s1. rewrite (fs_run_xdelta _ _ _ _ _ co ce Hco Hce), Hdet.
        reflexivity. }
      assert (Hc1 : ctr s1 = ctr s) by reflexivity.
      assert (Hupd : forall s',
        bind (file_op (fun f => Fs.remove f (patch_of e)) (patch_of e)
                (count "update" (print VERBOSE 2
                   (Action (Path.add_suffix (Path.extpath e) ".xdelta") "update") s1)))
          (file_op (fun f => Fs.rename f (temp_of e) (patch_of e)) (temp_of e))
        = Done s' ->
        forall cp', (force = true \/
          (fs s1 !! patch_of e = Some cp' /\
           MD5.digest cp' <> MD5.digest (enc co ce))) ->
        exists k, create_effect enc force e o (fs s) (fs s') k /\
          ctr s' = match k with
                   | Some k => <[ k := S (default 0 (ctr s !! k)) ]> (ctr s)
                   | None => ctr s
                   end).
      { intros s2 H cp' Hwhy.
        apply update_steps in H as (cp & c & Hcp & Hc & -> & ->).
        revert Hcp Hc. st_simpl. rewrite Hf1. intros Hcp Hc.
        exists (Some "update"). rewrite Hc1. split; [|reflexivity].
        eapply Eff_update; try eassumption.
        destruct Hwhy as [->|[Hcp' Hd]]; [left; reflexivity|right].
        rewrite Hf1, Hcp in Hcp'. congruence. }
      destruct force.
      * intros H. eapply (Hupd _ H ""). left. reflexivity.
      * unfold same_hash.
        destruct (Fs.hash (fs s1) (patch_of e)) as [hp|] eqn:Hhp; [|discriminate].
        destruct (Fs.hash (fs s1) (temp_of e)) as [ht|] eqn:Hht; [|discriminate].
        apply hash_lookup in Hhp as (cp & Hcp & ->), Hht as (ct & Hct & ->).
        assert (ct = enc co ce) as ->.
        { rewrite Hf1, lookup_insert_eq in Hct. congruence. }
        destruct (bool_decide_reflect (MD5.digest cp = MD5.digest (enc co ce)))
          as [Hk|Hk].
        -- intros H. pose proof (file_op_fs _ _ _ _ H) as R.
           apply file_op_done in H as (C & _). cbv beta in R.
           revert R. st_simpl. intros R. apply remove_lookup in R as [_ ->].
           exists (Some "keep"). rewrite C. st_simpl. rewrite Hc1, Hf1.
           split; [|reflexivity].
           eapply Eff_keep; try eassumption; [reflexivity|].
           rewrite <- Hf1. exact Hcp.
        -- intros H. eapply (Hupd _ H cp). right. auto.
    + intros [= <-]. exists (Some "create").
      rewrite (fs_run_xdelta _ _ _ _ _ co ce), Hdet by (st_simpl; assumption).
      st_simpl. split; [|reflexivity].
      eapply Eff_create; try eassumption. apply not_exists_lookup, Hp.
Qed.

(** ** Paths of patches and temporary files *)

Lemma string_length_app (a b : string) :
  String.length (a ++ b) = String.length a + String.length b.
Proof.
  induction a as [|c a IH]; [reflexivity|].
  rewrite string_app_cons. simpl. rewrite IH. reflexivity.
Qed.

Lemma string_app_inv_tail (a b suf : string) : a ++ suf = b ++ suf -> a = b.
Proof.
  revert b. induction a as [|c a IH]; intros [|d b] H.
  - reflexivity.
  - apply (f_equal String.length) in H.
    rewrite string_app_nil, string_app_cons in H. simpl in H.
    rewrite string_length_app in H. lia.
  - apply (f_equal String.length) in H.
    rewrite string_app_nil, string_app_cons in H. simpl in H.
    rewrite string_length_app in H. lia.
  - rewrite !string_app_cons in H. injection H as -> H.
    f_equal. apply IH, H.
Qed.

Lemma last_char_app (a suf : string) :
  suf <> "" -> Py.last_char (a ++ suf) = Py.last_char suf.
Proof.
  intros Hsuf. induction a as [|c a IH]; [reflexivity|].
  rewrite string_app_cons. simpl. rewrite IH.
  destruct (a ++ suf) eqn:E; [|reflexivity].
  apply (f_equal String.length) in E. rewrite string_length_app in E.
  destruct suf; [congruence|]. simpl in E. lia.
Qed.

Lemma last_add_suffix (p : path) (suf : string) :
  List.last (Path.add_suffix p suf) "" = List.last p "" ++ suf.
Proof.
  induction p as [|d [|n r] IH]; [reflexivity|reflexivity|].
  change (Path.add_suffix (d :: n :: r) suf)
    with (d :: Path.add_suffix (n :: r) suf).
  change (List.last (d :: n :: r) "") with (List.last (n :: r) "").
  rewrite <- IH. simpl. destruct r; reflexivity.
Qed.

Lemma add_suffix_nonempty (p : path) (suf : string) : Path.add_suffix p suf <> [].
Proof. destruct p as [|d [|n r]]; discriminate. Qed.

Lemma add_suffix_inj (p q : path) (suf : string) :
  p <> [] -> q <> [] ->
  Path.add_suffix p suf = Path.add_suffix q suf -> p = q.
Proof.
  revert q. induction p as [|d [|n r] IH]; intros q Hp Hq H; [congruence| |].
  - destruct q as [|d' [|n' r']]; [congruence| |].
    + change (Path.add_suffix [d] suf) with [d ++ suf] in H.
      change (Path.add_suffix [d'] suf) with [d' ++ suf] in H.
      injection H as H. apply string_app_inv_tail in H. congruence.
    + change (Path.add_suffix (d' :: n' :: r') suf)
        with (d' :: Path.add_suffix (n' :: r') suf) in H.
      change (Path.add_suffix [d] suf) with [d ++ suf] in H.
      injection H as _ H. symmetry in H.
      destruct (add_suffix_nonempty (n' :: r') suf H).
  - change (Path.add_suffix (d :: n :: r) suf)
      with (d :: Path.add_suffix (n :: r) suf) in H.
    destruct q as [|d' [|n' r']]; [congruence| |].
    + change (Path.add_suffix [d'] suf) with [d' ++ suf] in H.
      injection H as _ H. destruct (add_suffix_nonempty (n :: r) suf H).
    + change (Path.add_suffix (d' :: n' :: r') suf)
        with (d' :: Path.add_suffix (n' :: r') suf) in H.
      injection H as -> H. f_equal. apply IH; [discriminate|discriminate|exact H].
Qed.

Lemma add_suffix_neq (p : path) (suf : string) :
  suf <> "" -> Path.add_suffix p suf <> p.
Proof.
  intros Hsuf H. apply (f_equal (fun p => String.length (List.last p ""))) in H.
  rewrite last_add_suffix, string_length_app in H.
  destruct suf; [congruence|]. simpl in H. lia.
Qed.

Lemma patch_of_neq (e : path) : patch_of e <> e.
Proof. apply add_suffix_neq. discriminate. Qed.

Lemma temp_of_neq_patch (e e' : path) : temp_of e <> patch_of e'.
Proof.
  intros H. apply (f_equal (fun p => Py.last_char (List.last p ""))) in H.
  unfold temp_of, patch_of in H.
  rewrite !last_add_suffix, !last_char_app in H by discriminate.
  discriminate.
Qed.

Lemma temp_of_neq (e : path) : temp_of e <> e.
Proof.
  intros H. apply (f_equal (fun p => String.length (List.last p ""))) in H.
  unfold temp_of, patch_of in H.
  rewrite !last_add_suffix, !string_length_app in H. simpl in H. lia.
Qed.

Lemma head_add_suffix (d n : string) (r : path) (suf : string) :
  hd_error (Path.add_suffix (d :: n :: r) suf) = Some d.
Proof. reflexivity. Qed.

(** ** Reconciled edit files *)

Ltac map_lookups :=
  repeat first
    [ rewrite lookup_insert_eq
    | rewrite lookup_delete_eq
    | rewrite lookup_insert_ne by congruence
    | rewrite lookup_delete_ne by congruence ].

Ltac map_lookups_in H :=
  repeat first
    [ rewrite lookup_insert_eq in H
    | rewrite lookup_delete_eq in H
    | rewrite lookup_insert_ne in H by congruence
    | rewrite lookup_delete_ne in H by congruence ].

Lemma create_effect_frame (enc : string -> string -> string) (force : bool)
    (e : path) (o : string) (f f' : FS) (k : option string) (q : path) :
  create_effect enc force e o f f' k ->
  q <> patch_of e -> q <> temp_of e -> f' !! q = f !! q.
Proof.
  intros H Hp Ht. destruct H; map_lookups; reflexivity.
Qed.

(** Apart from the patch, the only path a pass over [e] can change is
    the temporary file, which is gone when the pass returns. *)
Lemma create_effect_lookup (enc : string -> string -> string) (force : bool)
    (e : path) (o : string) (f f' : FS) (k : option string) (q : path) :
  create_effect enc force e o f f' k ->
  q <> patch_of e -> f' !! q = f !! q \/ f' !! q = None.
Proof.
  intros H Hp. destruct (decide (q = temp_of e)) as [->|Ht].
  - pose proof (temp_of_neq_patch e e) as Htp.
    destruct H; map_lookups; auto.
  - left. eapply create_effect_frame; eassumption.
Qed.

Section Reconcile.

Variable enc : string -> string -> string.

(** The edit files a pass may enumerate, each with its original
    folder. *)
Variable Items : path -> string -> Prop.

Hypothesis I_shape : forall e o, Items e o -> exists d n r, e = d :: n :: r.
Hypothesis I_fun : forall e o o', Items e o -> Items e o' -> o = o'.
Hypothesis I_head :
  forall e o e' o', Items e o -> Items e' o' -> hd_error e <> Some o'.
Hypothesis I_art :
  forall e o e' o', Items e o -> Items e' o' -> patch_of e <> e'.

Lemma orig_not_artifact (e : path) (o : string) (e' : path) (o' : string) :
  Items e o -> Items e' o' ->
  orig_of e' o' <> patch_of e /\ orig_of e' o' <> temp_of e.
Proof.
  intros He He'. pose proof (I_head _ _ _ _ He He') as Hh.
  destruct (I_shape _ _ He) as (d & n & r & ->). simpl in Hh.
  unfold orig_of, temp_of, patch_of. split; intros H.
  - apply (f_equal hd_error) in H. rewrite head_add_suffix in H.
    simpl in H. congruence.
  - apply (f_equal hd_error) in H.
    change (Path.add_suffix (d :: n :: r) ".xdelta")
      with (d :: Path.add_suffix (n :: r) ".xdelta") in H.
    destruct (Path.add_suffix (n :: r) ".xdelta") as [|n' r'] eqn:E;
      [destruct (add_suffix_nonempty _ _ E)|].
    rewrite head_add_suffix in H. simpl in H. congruence.
Qed.

Lemma create_effect_establish (force : bool) (e : path) (o : string)
    (f f' : FS) (k : option string) :
  Items e o -> create_effect enc force e o f f' k -> reconciled enc f' e o.
Proof.
  intros He H.
  destruct (orig_not_artifact e o e o He He) as [Hop Hot].
  pose proof (patch_of_neq e) as Hep. pose proof (temp_of_neq e) as Het.
  pose proof (temp_of_neq_patch e e) as Htp.
  intros co' ce' Ho' He'.
  destruct H as [Hmiss|co ce Hco Hce Hd Hp|co ce cp Hco Hce Hd Hp
                |co ce Hco Hce Hd Hp|co ce cp Hco Hce Hd Hf Hp Hk
                |co ce cp c Hco Hce Hd Hp Hwhy Hc].
  - apply not_exists_lookup in Hmiss. congruence.
  - assert (co' = co) by congruence. assert (ce' = ce) by congruence.
    subst. rewrite bool_decide_true by assumption. exact Hp.
  - map_lookups_in Ho'. map_lookups_in He'.
    assert (co' = co) by congruence. assert (ce' = ce) by congruence.
    subst. rewrite bool_decide_true by assumption. map_lookups. reflexivity.
  - map_lookups_in Ho'. map_lookups_in He'.
    assert (co' = co) by congruence. assert (ce' = ce) by congruence.
    subst. rewrite bool_decide_false by assumption. map_lookups. eauto.
  - map_lookups_in Ho'. map_lookups_in He'.
    assert (co' = co) by congruence. assert (ce' = ce) by congruence.
    subst. rewrite bool_decide_false by assumption.
    exists cp. map_lookups. map_lookups_in Hp. auto.
  - map_lookups_in Ho'. map_lookups_in He'.
    assert (co' = co) by congruence. assert (ce' = ce) by congruence.
    subst. rewrite bool_decide_false by assumption.
    map_lookups_in Hc. injection Hc as <-.
    exists (enc co ce). map_lookups. auto.
Qed.

Lemma create_effect_preserve (force : bool) (e : path) (o : string)
    (e' : path) (o' : string) (f f' : FS) (k : option string) :
  Items e o -> Items e' o' ->
  create_effect enc force e o f f' k ->
  reconciled enc f e' o' -> reconciled enc f' e' o'.
Proof.
  intros He He' H Hrec.
  destruct (decide (e' = e)) as [->|Hne].
  - rewrite (I_fun _ _ _ He' He). eapply create_effect_establish; eassumption.
  - destruct (orig_not_artifact e o e' o' He He') as [Hop Hot].
    pose proof (I_art _ _ _ _ He He') as Hep.
    assert (Hpp : patch_of e' <> patch_of e).
    { intros Heq. apply add_suffix_inj in Heq; [congruence| |].
      - destruct (I_shape _ _ He') as (d & n & r & ->). discriminate.
      - destruct (I_shape _ _ He) as (d & n & r & ->). discriminate. }
    pose proof (temp_of_neq_patch e e') as Htp.
    intros co ce. unfold reconciled in Hrec.
    rewrite (create_effect_frame _ _ _ _ _ _ _ (orig_of e' o') H) by congruence.
    rewrite (create_effect_frame _ _ _ _ _ _ _ (patch_of e') H) by congruence.
    destruct (create_effect_lookup _ _ _ _ _ _ _ e' H) as [-> | ->];
      [congruence|apply Hrec|discriminate].
Qed.

Lemma create_effect_quiet (e : path) (o : string) (f f' : FS)
    (k : option string) :
  Items e o -> reconciled enc f e o ->
  create_effect enc false e o f f' k ->
  k = None \/ k = Some "skip" \/ k = Some "keep".
Proof.
  intros He Hrec H. pose proof (temp_of_neq_patch e e) as Htp.
  destruct H as [Hmiss|co ce Hco Hce Hd Hp|co ce cp Hco Hce Hd Hp
                |co ce Hco Hce Hd Hp|co ce cp Hco Hce Hd Hf Hp Hk
                |co ce cp c Hco Hce Hd Hp Hwhy Hc]; auto;
    specialize (Hrec co ce Hco Hce); exfalso.
  - rewrite bool_decide_true in Hrec by assumption. congruence.
  - rewrite bool_decide_false in Hrec by assumption.
    destruct Hrec as (cp & Hcp & _). congruence.
  - rewrite bool_decide_false in Hrec by assumption.
    destruct Hrec as (cp' & Hcp & Hd'). map_lookups_in Hp.
    destruct Hwhy as [?|Hwhy]; [discriminate|]. apply Hwhy. congruence.
Qed.

End Reconcile.

(** ** The items of a project *)

Lemma rsplit_dot_app (n suf : string) :
  Path.rsplit_dot suf = Some ("", suf) ->
  Path.rsplit_dot (n ++ suf) = Some (n, suf).
Proof.
  intros Hsuf. induction n as [|c n IH]; [exact Hsuf|].
  rewrite string_app_cons. simpl. rewrite IH. reflexivity.
Qed.

Lemma ext_app (n suf : string) :
  Path.rsplit_dot suf = Some ("", suf) ->
  Path.ext (n ++ suf) = suf \/ Path.ext (n ++ suf) = "".
Proof.
  intros Hsuf. unfold Path.ext. rewrite (rsplit_dot_app _ _ Hsuf).
  destruct (Path.all_dots n); auto.
Qed.

Lemma all_dots_app_xdelta (n : string) : Path.all_dots (n ++ ".xdelta") = false.
Proof.
  induction n as [|c n IH]; [reflexivity|].
  rewrite string_app_cons. simpl. rewrite IH. apply andb_false_r.
Qed.

Lemma ext_patch_clean (types : list string) (e : path) :
  clean_types types -> Path.ext (List.last (patch_of e) "") ∉ types.
Proof.
  intros (Hx & He). unfold patch_of. rewrite last_add_suffix.
  destruct (ext_app (List.last e "") ".xdelta" eq_refl) as [-> | ->]; assumption.
Qed.

Lemma elem_of_versions_of directories folder original_language ver :
  ver ∈ versions_of directories folder original_language ->
  exists d : gmap string string, d ∈ directories /\
    d !! "folder" = Some folder /\ d !! "lang" = Some original_language /\
    d !! "version" = ver.
Proof.
  unfold versions_of. rewrite list_elem_of_fmap. intros (d & -> & Hd).
  apply list_elem_of_In, filter_In in Hd as [Hd Hc].
  apply andb_true_iff in Hc as [H1 H2].
  apply bool_decide_eq_true in H1, H2. apply list_elem_of_In in Hd. eauto 10.
Qed.

Lemma elem_of_edits_of directories folder original_language ver lang :
  (ver, lang) ∈ edits_of directories folder original_language ->
  ver ∈ versions_of directories folder original_language /\
  lang <> Some original_language /\
  exists d : gmap string string, d ∈ directories /\
    d !! "folder" = Some folder /\ d !! "lang" = lang /\ d !! "version" = ver.
Proof.
  unfold edits_of. rewrite list_elem_of_fmap. intros (d & [= -> ->] & Hd).
  apply list_elem_of_In, filter_In in Hd as [Hd Hc].
  apply andb_true_iff in Hc as [Hc H3]. apply andb_true_iff in Hc as [H1 H2].
  apply bool_decide_eq_true in H1, H2.
  apply negb_true_iff, bool_decide_eq_false in H3.
  apply list_elem_of_In in Hd. eauto 10.
Qed.

Lemma versions_of_nil directories folder original_language :
  versions_of directories folder original_language = [] ->
  edits_of directories folder original_language = [].
Proof.
  intros Hv. destruct (edits_of _ _ _) as [|[ver lang] l] eqn:E; [reflexivity|].
  assert (H : (ver, lang) ∈ edits_of directories folder original_language)
    by (rewrite E; left).
  apply elem_of_edits_of in H as [H _]. rewrite Hv in H. inversion H.
Qed.

Section Project.

Variable dirs : list string.
Variable folders : list (string * list string).
Variable original_language : string.

Hypothesis Hcanon : forall d, d ∈ dirs -> configured folders d -> canonical d.
Hypothesis Hclean : forall folder types, (folder, types) ∈ folders -> clean_types types.

Let Items := is_item dirs folders original_language.

(** An item lies in a directory of [dirs] that is not in the original
    language; its original folder is a directory of [dirs] that is. *)
Lemma item_folders (e : path) (o : string) :
  Items e o ->
  exists dn n r folder types,
    e = dn :: n :: r /\ dn ∈ dirs /\ o ∈ dirs /\
    (folder, types) ∈ folders /\ Path.ext (List.last e "") ∈ types /\
    splitFolder dn !! "folder" = Some folder /\
    splitFolder dn !! "lang" <> Some original_language /\
    splitFolder o !! "lang" = Some original_language /\
    o = joinFolder folder (Some original_language) (splitFolder dn !! "version").
Proof.
  intros (folder & types & ver & lang & Hf & Hp & _ & (n & r & ->) & Hext & ->).
  apply elem_of_edits_of in Hp as (Hv & Hl & d & Hd & Hdf & Hdl & Hdv).
  apply elem_of_versions_of in Hv as (d1 & Hd1 & Hd1f & Hd1l & Hd1v).
  apply list_elem_of_fmap in Hd as (dn & -> & Hdn).
  apply list_elem_of_fmap in Hd1 as (dn1 & -> & Hdn1).
  assert (Hc : canonical dn) by (apply Hcanon; [exact Hdn|exists folder, types; auto]).
  assert (Hc1 : canonical dn1)
    by (apply Hcanon; [exact Hdn1|exists folder, types; auto]).
  unfold canonical in Hc, Hc1.
  rewrite Hdf, Hdl, Hdv in Hc. rewrite Hd1f, Hd1l, Hd1v in Hc1.
  change (joinFolder folder lang ver = dn) in Hc.
  change (joinFolder folder (Some original_language) ver = dn1) in Hc1.
  exists dn, n, r, folder, types. rewrite Hc, Hc1.
  repeat split; try assumption; congruence.
Qed.

Lemma is_item_shape e o : Items e o -> exists d n r, e = d :: n :: r.
Proof.
  intros H. apply item_folders in H as (dn & n & r & ? & ? & -> & _). eauto.
Qed.

Lemma is_item_fun e o o' : Items e o -> Items e o' -> o = o'.
Proof.
  intros H H'.
  apply item_folders in H as (dn & n & r & f & t & -> & _ & _ & _ & _ & Hf & _ & _ & ->).
  apply item_folders in H' as (dn' & n' & r' & f' & t' & [= <- <- <-] & _ & _ & _ & _ & Hf' & _ & _ & ->).
  congruence.
Qed.

Lemma is_item_head e o e' o' : Items e o -> Items e' o' -> hd_error e <> Some o'.
Proof.
  intros H H'.
  apply item_folders in H as (dn & n & r & f & t & -> & _ & _ & _ & _ & _ & Hl & _ & _).
  apply item_folders in H' as (dn' & n' & r' & f' & t' & _ & _ & _ & _ & _ & _ & _ & Hl' & _).
  simpl. intros [= ->]. congruence.
Qed.

Lemma is_item_art e o e' o' : Items e o -> Items e' o' -> patch_of e <> e'.
Proof.
  intros _ H'.
  apply item_folders in H' as (dn' & n' & r' & f' & t' & _ & _ & _ & Hf & Hext & _).
  pose proof (Hclean _ _ Hf) as Hc.
  intros <-. exact (ext_patch_clean _ _ Hc Hext).
Qed.

End Project.

(** ** Loops that keep or establish a property *)

Section Loops.

Context {A : Type}.
Variable body : A -> state -> outcome state.
Variable St : state -> state -> Prop.
Hypothesis St_refl : forall s, St s s.
Hypothesis St_trans : forall a b c, St a b -> St b c -> St a c.

Lemma for_each_preserves (l : list A) :
  (forall x s s', x ∈ l -> body x s = Done s' -> St s s') ->
  forall s s', for_each body l s = Done s' -> St s s'.
Proof.
  induction l as [|x l IH]; simpl; intros Hbody s s' H.
  - injection H as <-. apply St_refl.
  - destruct (body x s) as [s1|e s1] eqn:Hx; simpl in H; [|discriminate].
    eapply St_trans; [eapply Hbody; [left|exact Hx]|].
    eapply IH; [|exact H]. intros y a b Hy. apply Hbody. right. exact Hy.
Qed.

Variable G : A -> state -> Prop.

Lemma for_each_establishes (l : list A) :
  (forall x s s', x ∈ l -> body x s = Done s' -> St s s' /\ G x s') ->
  (forall x s s', x ∈ l -> St s s' -> G x s -> G x s') ->
  forall s s', for_each body l s = Done s' ->
    St s s' /\ forall x, x ∈ l -> G x s'.
Proof.
  induction l as [|x l IH]; simpl; intros Hbody Hstable s s' H.
  - injection H as <-. split; [apply St_refl|]. intros x Hx. inversion Hx.
  - destruct (body x s) as [s1|e s1] eqn:Hx; simpl in H; [|discriminate].
    destruct (Hbody x s s1 (list_elem_of_here _ _) Hx) as [H1 G1].
    destruct (IH (fun y a b Hy => Hbody y a b (list_elem_of_further _ _ _ Hy))
                (fun y a b Hy => Hstable y a b (list_elem_of_further _ _ _ Hy))
                s1 s' H) as [H2 G2].
    split; [eapply St_trans; eassumption|].
    intros y Hy. apply elem_of_cons in Hy as [->|Hy]; [|apply G2, Hy].
    eapply Hstable; [left|exact H2|exact G1].
Qed.

End Loops.

(** ** Passes of [createXDeltaPatches] over a project *)

Section Runs.

Variable walk : string -> FS -> list path.
Hypothesis Hwalk : walk_spec walk.

Variable tool : nat -> string -> string -> string.
Variable enc : string -> string -> string.
Hypothesis Hdet : forall n a b, tool n a b = enc a b.

Variable dirs : list string.
Variable folders : list (string * list string).
Variable original_language : string.
Hypothesis Hcanon : forall d, d ∈ dirs -> configured folders d -> canonical d.
Hypothesis Hclean : forall folder types, (folder, types) ∈ folders -> clean_types types.

Let Items := is_item dirs folders original_language.
Let I1 := is_item_shape dirs folders original_language Hcanon.
Let I2 := is_item_fun dirs folders original_language Hcanon.
Let I3 := is_item_head dirs folders original_language Hcanon.
Let I4 := is_item_art dirs folders original_language Hcanon Hclean.

Lemma settles_refl (s : state) : settles enc dirs folders original_language s s.
Proof. split; auto. Qed.

Lemma settles_trans (a b c : state) :
  settles enc dirs folders original_language a b ->
  settles enc dirs folders original_language b c ->
  settles enc dirs folders original_language a c.
Proof. intros [H1 H2] [H3 H4]. split; eauto. Qed.

Lemma stays_quiet_refl (s : state) :
  stays_quiet enc dirs folders original_language s s.
Proof. intros H. split; [exact H|]. repeat split. Qed.

Lemma stays_quiet_trans (a b c : state) :
  stays_quiet enc dirs folders original_language a b ->
  stays_quiet enc dirs folders original_language b c ->
  stays_quiet enc dirs folders original_language a c.
Proof.
  intros H1 H2 Ha. destruct (H1 Ha) as [Hb (Q1 & Q2 & Q3)].
  destruct (H2 Hb) as [Hc (Q4 & Q5 & Q6)].
  split; [exact Hc|]. repeat split; congruence.
Qed.

Lemma step_settles (force : bool) (e : path) (o : string) (s s' : state) :
  Items e o ->
  create_body tool force e o s = Done s' ->
  settles enc dirs folders original_language s s' /\ reconciled enc (fs s') e o.
Proof.
  intros He H. apply (create_body_effect tool enc) in H as (k & Heff & _);
    [|exact Hdet].
  split; [split|].
  - intros e' o' He'.
    exact (create_effect_preserve enc Items I1 I2 I3 I4 force e o e' o' _ _ k
             He He' Heff).
  - intros e' o' He' Hnone. pose proof (I4 _ _ _ _ He He') as Hp.
    destruct (create_effect_lookup _ _ _ _ _ _ _ e' Heff) as [-> | ->];
      [congruence|exact Hnone|reflexivity].
  - exact (create_effect_establish enc Items I1 I3 force e o _ _ k He Heff).
Qed.

Lemma step_quiet (e : path) (o : string) (s s' : state) :
  Items e o ->
  create_body tool false e o s = Done s' ->
  stays_quiet enc dirs folders original_language s s'.
Proof.
  intros He H Hall.
  destruct (step_settles false e o s s' He H) as [[Hkeep _] _].
  apply (create_body_effect tool enc) in H as (k & Heff & Hctr);
    [|exact Hdet].
  split.
  - intros e' o' He'. apply Hkeep; [exact He'|]. apply Hall, He'.
  - destruct (create_effect_quiet enc Items e o _ _ k He (Hall e o He) Heff)
      as [->|[->| ->]]; rewrite Hctr; unfold quiet; simplify_map_eq; auto.
Qed.

Lemma settles_eq (s s1 s' : state) :
  fs s1 = fs s ->
  settles enc dirs folders original_language s1 s' ->
  settles enc dirs folders original_language s s'.
Proof. unfold settles. intros ->. auto. Qed.

Lemma stays_quiet_eq (s s1 s' : state) :
  fs s1 = fs s -> ctr s1 = ctr s ->
  stays_quiet enc dirs folders original_language s1 s' ->
  stays_quiet enc dirs folders original_language s s'.
Proof. unfold stays_quiet. intros -> ->. auto. Qed.

Let accept (types : list string) (e : string) : bool := bool_decide (e ∈ types).

Lemma enumerated_item_at (folder : string) (types : list string)
    (ver lang : option string) (f : FS) (e : path) :
  e ∈ List.filter (fun p => accept types (Path.ext (List.last p "")))
        (walk (joinFolder folder lang ver) f) ->
  item_at original_language folder types ver lang e
    (joinFolder folder (Some original_language) ver) /\ is_Some (f !! e).
Proof.
  intros He. apply list_elem_of_In, filter_In in He as [He Hext].
  apply list_elem_of_In, Hwalk in He as (Ht & Hshape & Hsome).
  apply bool_decide_eq_true in Hext. split; [|exact Hsome].
  split; [exact Ht|]. split; [exact Hshape|]. split; [exact Hext|reflexivity].
Qed.

Lemma item_at_enumerated (folder : string) (types : list string)
    (ver lang : option string) (f : FS) (e : path) (o : string) :
  item_at original_language folder types ver lang e o ->
  is_Some (f !! e) ->
  e ∈ List.filter (fun p => accept types (Path.ext (List.last p "")))
        (walk (joinFolder folder lang ver) f).
Proof.
  intros (Ht & Hshape & Hext & _) Hsome.
  apply list_elem_of_In, filter_In. split.
  - apply list_elem_of_In, Hwalk. auto.
  - apply bool_decide_eq_true. exact Hext.
Qed.

Lemma item_at_is_item (folder : string) (types : list string)
    (ver lang : option string) (e : path) (o : string) :
  (folder, types) ∈ folders ->
  (ver, lang) ∈ edits_of (List.map splitFolder dirs) folder original_language ->
  item_at original_language folder types ver lang e o -> Items e o.
Proof. intros Hf Hp He. exists folder, types, ver, lang. auto. Qed.

Lemma loop_folder_settles (force : bool) (folder : string) (types : list string)
    (ver lang : option string) (s s' : state) :
  (folder, types) ∈ folders ->
  (ver, lang) ∈ edits_of (List.map splitFolder dirs) folder original_language ->
  let o := joinFolder folder (Some original_language) ver in
  loop_folder walk (accept types) (fun e => create_body tool force e o)
    (joinFolder folder lang ver) s = Done s' ->
  settles enc dirs folders original_language s s' /\
  forall e, item_at original_language folder types ver lang e o ->
    reconciled enc (fs s') e o.
Proof.
  intros Hf Hp o. unfold loop_folder.
  set (s0 := print VERBOSE 1 (Progress (joinFolder folder lang ver)) s).
  set (files := List.filter _ (walk _ (fs s0))).
  set (s1 := print VERBOSE 1 (Count (length files)) s0).
  assert (Hfs : fs s1 = fs s) by (subst s1 s0; st_simpl; reflexivity).
  assert (Hfs0 : fs s0 = fs s) by (subst s0; st_simpl; reflexivity).
  intros H.
  apply (for_each_establishes _ (settles enc dirs folders original_language)
           settles_refl settles_trans
           (fun e s => reconciled enc (fs s) e o)) in H as [Hst Hrec].
  - split; [eapply settles_eq; eassumption|].
    intros e He. destruct (decide (e ∈ files)) as [Hin|Hout]; [auto|].
    assert (Hnone : fs s !! e = None).
    { destruct (fs s !! e) eqn:E; [|reflexivity]. destruct Hout.
      subst files. rewrite Hfs0. eapply item_at_enumerated; eauto. }
    destruct Hst as [_ Hback]. rewrite <- Hfs in Hnone.
    apply (Hback e o (item_at_is_item _ _ _ _ _ _ Hf Hp He)) in Hnone.
    intros co ce _ Hce. congruence.
  - intros e a b He Hb. apply (step_settles force); [|exact Hb].
    apply enumerated_item_at in He as [He _].
    eapply item_at_is_item; eassumption.
  - intros e a b He [Hkeep _]. apply Hkeep.
    apply enumerated_item_at in He as [He _].
    eapply item_at_is_item; eassumption.
Qed.

Lemma loop_folder_quiet (folder : string) (types : list string)
    (ver lang : option string) (s s' : state) :
  (folder, types) ∈ folders ->
  (ver, lang) ∈ edits_of (List.map splitFolder dirs) folder original_language ->
  let o := joinFolder folder (Some original_language) ver in
  loop_folder walk (accept types) (fun e => create_body tool false e o)
    (joinFolder folder lang ver) s = Done s' ->
  stays_quiet enc dirs folders original_language s s'.
Proof.
  intros Hf Hp o. unfold loop_folder.
  set (s0 := print VERBOSE 1 (Progress (joinFolder folder lang ver)) s).
  set (files := List.filter _ (walk _ (fs s0))).
  set (s1 := print VERBOSE 1 (Count (length files)) s0).
  intros H. apply (stays_quiet_eq s s1);
    [subst s1 s0; st_simpl; reflexivity|subst s1 s0; st_simpl; reflexivity|].
  revert H. apply for_each_preserves;
    [exact stays_quiet_refl|exact stays_quiet_trans|].
  intros e a b He Hb. eapply step_quiet; [|exact Hb].
  apply enumerated_item_at in He as [He _].
  eapply item_at_is_item; eassumption.
Qed.

Lemma loopFiles_settles (force : bool) (s s' : state) :
  Py.truthy_str original_language = true ->
  loopFiles walk accept folders original_language dirs
    (fun _ => create_body tool force) s = Done s' ->
  settles enc dirs folders original_language s s' /\
  all_reconciled enc dirs folders original_language (fs s').
Proof.
  intros Hol. unfold loopFiles. rewrite Hol. intros H.
  apply (for_each_establishes _ (settles enc dirs folders original_language)
           settles_refl settles_trans
           (fun ft s =>
              forall ver lang e o,
                (ver, lang) ∈ edits_of (List.map splitFolder dirs) (fst ft)
                                original_language ->
                item_at original_language (fst ft) (snd ft) ver lang e o ->
                reconciled enc (fs s) e o)) in H as [Hst Hrec].
  - split; [exact Hst|].
    intros e o (folder & types & ver & lang & Hf & Hp & He).
    exact (Hrec (folder, types) Hf ver lang e o Hp He).
  - intros [folder types] a b Hf. simpl fst. simpl snd.
    destruct (versions_of _ folder original_language) as [|v vs] eqn:Hv.
    + intros [= <-]. split; [apply settles_refl|].
      intros ver lang e o Hp. rewrite (versions_of_nil _ _ _ Hv) in Hp.
      inversion Hp.
    + intros Hb.
      apply (for_each_establishes _ (settles enc dirs folders original_language)
               settles_refl settles_trans
               (fun vl s =>
                  forall e o,
                    item_at original_language folder types (fst vl) (snd vl) e o ->
                    reconciled enc (fs s) e o)) in Hb as [Hst Hrec].
      * split; [exact Hst|]. intros ver lang e o Hp.
        exact (Hrec (ver, lang) Hp e o).
      * intros [ver lang] c d Hp Hd. simpl fst. simpl snd.
        apply loop_folder_settles in Hd as [Hst Hrec]; [|exact Hf|exact Hp].
        split; [exact Hst|]. intros e o He.
        assert (o = joinFolder folder (Some original_language) ver) as ->
          by (destruct He as (_ & _ & _ & ->); reflexivity).
        apply Hrec, He.
      * intros [ver lang] c d Hp [Hkeep _] Hc e o He. apply Hkeep; [|apply Hc, He].
        eapply item_at_is_item; eassumption.
  - intros [folder types] a b Hf [Hkeep _] Ha ver lang e o Hp He.
    apply Hkeep; [|eapply Ha; eassumption].
    eapply item_at_is_item; eassumption.
Qed.

Lemma loopFiles_quiet (s s' : state) :
  Py.truthy_str original_language = true ->
  loopFiles walk accept folders original_language dirs
    (fun _ => create_body tool false) s = Done s' ->
  stays_quiet enc dirs folders original_language s s'.
Proof.
  intros Hol. unfold loopFiles. rewrite Hol.
  apply for_each_preserves; [exact stays_quiet_refl|exact stays_quiet_trans|].
  intros [folder types] a b Hf.
  destruct (versions_of _ folder original_language) as [|v vs] eqn:Hv.
  - intros [= <-]. apply stays_quiet_refl.
  - apply for_each_preserves; [exact stays_quiet_refl|exact stays_quiet_trans|].
    intros [ver lang] c d Hp. apply loop_folder_quiet; assumption.
Qed.

End Runs.

(** ** Two passes in a row *)

Lemma create_body_prms (tool : nat -> string -> string -> string)
    (force : bool) (e : path) (o : string) (s s' : state) :
  create_body tool force e o s = Done s' -> prms s' = prms s.
Proof.
  unfold create_body, same_hash, bind.
  repeat case_match; try discriminate; intros Hd;
    repeat match goal with
      | H : Done _ = Done _ |- _ => injection H as <-
      | H : file_op _ _ _ = Done _ |- _ =>
          apply file_op_done in H as (_ & _ & _ & ?)
      end;
    repeat match goal with
      | H : prms ?x = _ |- context [prms ?x] => rewrite H
      end;
    rewrite ?prms_print; reflexivity.
Qed.

Lemma loop_folder_prms (walk : string -> FS -> list path)
    (accept : string -> bool) (body : path -> state -> outcome state)
    (top : string) (s s' : state) :
  (forall e a b, body e a = Done b -> prms b = prms a) ->
  loop_folder walk accept body top s = Done s' -> prms s' = prms s.
Proof.
  intros Hbody. unfold loop_folder. intros H.
  apply (for_each_preserves _ (fun a b => prms b = prms a)) in H.
  - rewrite H, !prms_print. reflexivity.
  - reflexivity.
  - intros a b c -> ->. reflexivity.
  - intros e a b _. apply Hbody.
Qed.

Lemma loopFiles_prms {T : Type} (walk : string -> FS -> list path)
    (accept : T -> string -> bool) (folders : list (string * T))
    (original_language : string) (dirs : list string)
    (body : string -> path -> string -> state -> outcome state) (s s' : state) :
  (forall folder e o a b, body folder e o a = Done b -> prms b = prms a) ->
  loopFiles walk accept folders original_language dirs body s = Done s' ->
  prms s' = prms s.
Proof.
  intros Hbody. unfold loopFiles.
  assert (Ht : forall a b c : state, prms b = prms a -> prms c = prms b -> prms c = prms a)
    by (intros a b c -> ->; reflexivity).
  destruct (Py.truthy_str original_language).
  - apply (for_each_preserves _ (fun a b => prms b = prms a)); [reflexivity|exact Ht|].
    intros [folder types] a b _. destruct (versions_of _ _ _).
    + intros [= <-]. reflexivity.
    + apply (for_each_preserves _ (fun a b => prms b = prms a));
        [reflexivity|exact Ht|].
      intros [ver lang] c d _. apply loop_folder_prms. intros e x y. apply Hbody.
  - apply (for_each_preserves _ (fun a b => prms b = prms a)); [reflexivity|exact Ht|].
    intros [folder types] a b _.
    apply (for_each_preserves _ (fun a b => prms b = prms a)); [reflexivity|exact Ht|].
    intros dir c d _. apply loop_folder_prms. intros e x y. discriminate.
Qed.

Lemma loop_folder_raising (walk : string -> FS -> list path)
    (accept : string -> bool) (top : string) (s s' : state) :
  loop_folder walk accept (fun _ s => Raised ValueError s) top s = Done s' ->
  ctr s' = ctr s.
Proof.
  unfold loop_folder. destruct (List.filter _ _) as [|x l]; simpl.
  - intros [= <-]. rewrite !ctr_print. reflexivity.
  - discriminate.
Qed.

Lemma loopFiles_no_language {T : Type} (walk : string -> FS -> list path)
    (accept : T -> string -> bool) (folders : list (string * T))
    (original_language : string) (dirs : list string)
    (body : string -> path -> string -> state -> outcome state) (s s' : state) :
  Py.truthy_str original_language = false ->
  loopFiles walk accept folders original_language dirs body s = Done s' ->
  ctr s' = ctr s.
Proof.
  intros Hol. unfold loopFiles. rewrite Hol.
  assert (Ht : forall a b c : state, ctr b = ctr a -> ctr c = ctr b -> ctr c = ctr a)
    by (intros a b c -> ->; reflexivity).
  apply (for_each_preserves _ (fun a b => ctr b = ctr a)); [reflexivity|exact Ht|].
  intros [folder types] a b _.
  apply (for_each_preserves _ (fun a b => ctr b = ctr a)); [reflexivity|exact Ht|].
  intros dir c d _. apply loop_folder_raising.
Qed.

Lemma createXDeltaPatches_done (walk : string -> FS -> list path)
    (tool : nat -> string -> string -> string) (settings : option params)
    (dirs : list string) (original_language : string) (force : bool)
    (s s' : state) :
  createXDeltaPatches walk tool settings dirs original_language force s = Done s' ->
  let p := fst (Params.loadParams false settings (prms s)) in
  loopFiles walk (fun (types : list string) e => bool_decide (e ∈ types))
    (Params.xdeltaFolders p) original_language dirs
    (fun _ => create_body tool force) (set_prms (Some p) (set_ctr ∅ s)) = Done s' /\
  prms s' = Some p.
Proof.
  unfold createXDeltaPatches, with_params. change (prms (set_ctr ∅ s)) with (prms s).
  destruct (Params.loadParams false settings (prms s)) as [p [e|]];
    [discriminate|].
  intros H. split; [exact H|].
  apply loopFiles_prms in H; [exact H|]. intros folder e o a b.
  apply create_body_prms.
Qed.

(** C4 (as amended): let [createXDeltaPatches] run to completion and then
    run again, on the state the first pass left and without
    [force_override]. If the tool is deterministic, every directory of a
    configured folder has the name [joinFolder] builds from its parts,
    and no extension list has ['.xdelta'] or the empty extension, then
    the second pass leaves [create], [update] and [delete] at zero, and
    every file it enumerates is counted under [keep] or [skip] or warned
    about for its missing original. *)
Theorem createXDeltaPatches_twice (walk : string -> FS -> list path)
    (tool : nat -> string -> string -> string) (settings : option params)
    (dirs : list string) (original_language : string) (force_override : bool)
    (s0 s1 s2 : state) :
  walk_spec walk ->
  (forall n a b, tool n a b = tool 0 a b) ->
  (forall d, d ∈ dirs ->
     configured
       (Params.xdeltaFolders (fst (Params.loadParams false settings (prms s0)))) d ->
     canonical d) ->
  (forall folder types,
     (folder, types)
       ∈ Params.xdeltaFolders (fst (Params.loadParams false settings (prms s0))) ->
     clean_types types) ->
  createXDeltaPatches walk tool settings dirs original_language force_override s0
    = Done s1 ->
  createXDeltaPatches walk tool settings dirs original_language false s1
    = Done s2 ->
  ctr s2 !! "create" = None /\ ctr s2 !! "update" = None /\
  ctr s2 !! "delete" = None /\
  exists o, out s2 = (out s1 ++ o)%list /\
    default 0 (ctr s2 !! "keep") + default 0 (ctr s2 !! "skip") + warned o
    = enumerated o.
Proof.
  intros Hwalk Hdet Hcanon Hclean H1 H2.
  apply createXDeltaPatches_done in H1 as [L1 P1], H2 as [L2 _].
  rewrite P1 in L2. simpl in L2.
  set (p := fst (Params.loadParams false settings (prms s0))) in *.
  assert (Hq : quiet ∅ (ctr s2)).
  { destruct (Py.truthy_str original_language) eqn:Hol.
    - apply (loopFiles_settles walk Hwalk tool (tool 0) Hdet dirs _ _ Hcanon Hclean)
        in L1 as [_ Hall]; [|exact Hol].
      apply (loopFiles_quiet walk Hwalk tool (tool 0) Hdet dirs _ _ Hcanon Hclean)
        in L2; [|exact Hol].
      destruct (L2 Hall) as [_ Hq]. exact Hq.
    - apply loopFiles_no_language in L2; [|exact Hol]. rewrite L2.
      repeat split. }
  destruct Hq as (Qc & Qu & Qd). rewrite lookup_empty in Qc, Qu, Qd.
  repeat (split; [assumption|]).
  apply loopFiles_accounted in L2 as (o & Ho & Hsum).
  - exists o. split; [exact Ho|]. unfold total in Hsum.
    change (ctr (set_prms (Some p) (set_ctr ∅ s1))) with (∅ : gmap string nat) in Hsum.
    rewrite !lookup_empty, Qc, Qu, Qd in Hsum. simpl in Hsum. lia.
  - intros. apply create_body_one_each.
Qed.

Lemma canonical_demo_dirs (d : string) :
  d ∈ ("__pycache__" :: Demo.dirs) ->
  configured (Params.xdeltaFolders (Params.parseParams Demo.settings)) d ->
  canonical d.
Proof.
  unfold Demo.dirs. rewrite !elem_of_cons, elem_of_nil.
  intros [->|[->|[->|[]]]] (folder & types & Hf & Hin);
    try (vm_compute; reflexivity).
  exfalso. vm_compute in Hf. injection Hf as <-.
  unfold Params.xdeltaFolders in Hin. simpl in Hin.
  apply list_elem_of_singleton in Hin. discriminate.
Qed.

Lemma clean_demo_types (folder : string) (types : list string) :
  (folder, types) ∈ Params.xdeltaFolders (Params.parseParams Demo.settings) ->
  clean_types types.
Proof.
  unfold Params.xdeltaFolders. simpl. rewrite elem_of_cons, elem_of_nil.
  intros [[= -> ->]|[]].
  split; rewrite elem_of_cons, elem_of_nil; intros [?|[]]; discriminate.
Qed.

Lemma createXDeltaPatches_twice_witness :
  let run force s :=
    createXDeltaPatches Fs.walk Demo.encode (Some Demo.settings)
      ("__pycache__" :: Demo.dirs) "JA" force s in
  let s1 := state_of (run true (Demo.start Demo.files)) in
  let s2 := state_of (run false s1) in
  ctr s2 !! "create" = None /\ ctr s2 !! "update" = None /\
  ctr s2 !! "delete" = None /\
  exists o, out s2 = (out s1 ++ o)%list /\
    default 0 (ctr s2 !! "keep") + default 0 (ctr s2 !! "skip") + warned o
    = enumerated o.
Proof.
  cbv zeta.
  apply (createXDeltaPatches_twice Fs.walk Demo.encode (Some Demo.settings)
           ("__pycache__" :: Demo.dirs) "JA" true (Demo.start Demo.files)
           (state_of
              (createXDeltaPatches Fs.walk Demo.encode (Some Demo.settings)
                 ("__pycache__" :: Demo.dirs) "JA" true (Demo.start Demo.files)))
           (state_of
              (createXDeltaPatches Fs.walk Demo.encode (Some Demo.settings)
                 ("__pycache__" :: Demo.dirs) "JA" false
                 (state_of
                    (createXDeltaPatches Fs.walk Demo.encode (Some Demo.settings)
                       ("__pycache__" :: Demo.dirs) "JA" true
                       (Demo.start Demo.files)))))).
  - exact Fs_walk_spec.
  - reflexivity.
  - exact canonical_demo_dirs.
  - exact clean_demo_types.
  - apply done_state_of. vm_compute. reflexivity.
  - apply done_state_of. vm_compute. reflexivity.
Defined.

(** The conditions of the amended C4 are needed. With ['.xdelta'] among
    the extensions, the patch written by the first pass is an edit file
    of the second, which writes a patch of the patch. *)
Example createXDeltaPatches_twice_patch_extension :
  let run s :=
    createXDeltaPatches Fs.walk Demo.encode (Some Demo.patch_settings)
      Demo.dirs "JA" false s in
  let r1 := run (Demo.start Demo.patch_files) in
  let r2 := run (state_of r1) in
  raised r1 = None /\ raised r2 = None /\
  ctr (state_of r2) !! "create" = Some 1 /\
  fs (state_of r2) !! [ "Script_EN"; "a.dat.xdelta.xdelta" ]
  = Some "something>original>edited".
Proof. cbv zeta. repeat apply conj; vm_compute; reflexivity. Qed.

(** The same with the empty extension, which is the extension of the
    patch of a file whose name is made of dots. *)
Example createXDeltaPatches_twice_empty_extension :
  let run s :=
    createXDeltaPatches Fs.walk Demo.encode (Some Sample.bare_settings)
      Demo.dirs "JA" false s in
  let r1 := run (Demo.start Sample.dots_files) in
  let r2 := run (state_of r1) in
  Path.ext "..." = "" /\ Path.ext "....xdelta" = "" /\
  raised r1 = None /\ raised r2 = None /\
  ctr (state_of r1) !! "create" = Some 1 /\
  ctr (state_of r2) !! "create" = Some 1 /\
  fs (state_of r2) !! [ "Script_EN"; "....xdelta.xdelta" ]
  = Some "something>original>edited".
Proof. cbv zeta. repeat apply conj; vm_compute; reflexivity. Qed.

(** With a directory of a configured folder whose name is not canonical,
    one edit file is paired with two originals, and each pass replaces
    the patch twice. *)
Example createXDeltaPatches_twice_odd_directory :
  let run s :=
    createXDeltaPatches Fs.walk Demo.encode (Some Demo.settings)
      Demo.odd_dirs "JA" false s in
  let r1 := run (Demo.start Demo.odd_files) in
  let r2 := run (state_of r1) in
  ~ canonical "Script_x_v1.1" /\
  configured (Params.xdeltaFolders (Params.parseParams Demo.settings))
    "Script_x_v1.1" /\
  raised r1 = None /\ raised r2 = None /\
  ctr (state_of r2) !! "update" = Some 2.
Proof.
  cbv zeta. split; [vm_compute; discriminate|]. split.
  - exists "Script", [ ".dat" ]. split; [vm_compute; reflexivity|].
    apply list_elem_of_singleton. reflexivity.
  - repeat apply conj; vm_compute; reflexivity.
Qed.

(** * Further properties of the engine *)

(** ** Baseline exclusion in [collectFiles] *)

Lemma drop_originals_spec (f : FS) (orig_folder : string)
    (files files' : list (path * path)) (x : path * path) :
  drop_originals f orig_folder files = inr files' ->
  x ∈ files' <->
  x ∈ files /\
  (Fs.exists_ f (orig_folder :: snd x) = false \/
   Fs.hash f (orig_folder :: snd x) <> Fs.hash f (fst x)).
Proof.
  revert files'. induction files as [|[file s] r IH]; simpl; intros files' H.
  - injection H as <-. split; [intros Hx; inversion Hx|intros [Hx _]; inversion Hx].
  - destruct (drop_originals f orig_folder r) as [e|r'] eqn:Hr.
    { repeat case_match; discriminate. }
    specialize (IH r' eq_refl).
    destruct (Fs.exists_ f (orig_folder :: s)) eqn:Hex; simpl in H.
    + destruct (Fs.hash f (orig_folder :: s)) as [ho|] eqn:Ho; [|discriminate].
      destruct (Fs.hash f file) as [hf|] eqn:Hf; [|discriminate].
      destruct (bool_decide_reflect (ho = hf)) as [Heq|Hne]; simpl in H;
        injection H as <-.
      * rewrite IH, elem_of_cons. split.
        -- intros [Hx Hc]. auto.
        -- intros [[->|Hx] Hc]; [|auto]. simpl in Hc. rewrite Hex, Ho, Hf in Hc.
           destruct Hc as [?|Hc]; [discriminate|]. destruct Hc. congruence.
      * rewrite !elem_of_cons, IH. split.
        -- intros [->|[Hx Hc]]; [|auto]. split; [auto|]. right. simpl.
           rewrite Ho, Hf. congruence.
        -- intros [[->|Hx] Hc]; auto.
    + injection H as <-. rewrite !elem_of_cons, IH. split.
      * intros [->|[Hx Hc]]; [|auto]. split; [auto|]. left. exact Hex.
      * intros [[->|Hx] Hc]; auto.
Qed.

(** X1: what [collectFiles] returns is exactly the collected candidates
    whose original (same simple name in the original-language folder
    without version) is missing or has another digest: a file equal to
    its original is never distributed, and no other candidate is lost. *)
Theorem collectFiles_baseline_exclusion (walk : string -> FS -> list path)
    (f : FS) (languages : list string) (original_language folder : string)
    (types : list string) (ver : option string) (files : list (path * path))
    (file s : path) :
  collectFiles walk f languages original_language folder types ver = inr files ->
  let orig_file := joinFolder folder (Some original_language) None :: s in
  (file, s) ∈ files <->
  (file, s) ∈ collect_candidates walk f languages folder types ver /\
  (Fs.exists_ f orig_file = false \/ Fs.hash f orig_file <> Fs.hash f file).
Proof.
  intros H. unfold collectFiles in H. cbv zeta.
  exact (drop_originals_spec _ _ _ _ (file, s) H).
Qed.

(** ** Properties that hold wherever a loop stops *)

Section Always.

Variable St : state -> state -> Prop.
Hypothesis St_refl : forall s, St s s.
Hypothesis St_trans : forall a b c, St a b -> St b c -> St a c.
Hypothesis St_print : forall s v n l, St s (print v n l s).

Lemma for_each_always {A : Type} (body : A -> state -> outcome state)
    (l : list A) :
  (forall x s, x ∈ l -> St s (state_of (body x s))) ->
  forall s, St s (state_of (for_each body l s)).
Proof.
  induction l as [|x l IH]; simpl; intros Hbody s; [apply St_refl|].
  pose proof (Hbody x s (list_elem_of_here _ _)) as Hx.
  destruct (body x s) as [s1|e s1]; simpl in *; [|exact Hx].
  eapply St_trans; [exact Hx|]. apply IH.
  intros y a Hy. apply Hbody. right. exact Hy.
Qed.

Lemma loop_folder_always (walk : string -> FS -> list path)
    (accept : string -> bool) (body : path -> state -> outcome state)
    (top : string) (s : state) :
  (forall e a, St a (state_of (body e a))) ->
  St s (state_of (loop_folder walk accept body top s)).
Proof.
  intros Hbody. unfold loop_folder.
  eapply St_trans; [apply St_print|]. eapply St_trans; [apply St_print|].
  apply for_each_always. intros e a _. apply Hbody.
Qed.

Lemma loopFiles_always {T : Type} (walk : string -> FS -> list path)
    (accept : T -> string -> bool) (folders : list (string * T))
    (original_language : string) (dirs : list string)
    (body : string -> path -> string -> state -> outcome state) (s : state) :
  (forall folder e o a, St a (state_of (body folder e o a))) ->
  St s (state_of (loopFiles walk accept folders original_language dirs body s)).
Proof.
  intros Hbody. unfold loopFiles. destruct (Py.truthy_str original_language).
  - apply for_each_always. intros [folder types] a _.
    destruct (versions_of _ _ _); [apply St_refl|].
    apply for_each_always. intros [ver lang] b _.
    apply loop_folder_always. intros e c. apply Hbody.
  - apply for_each_always. intros [folder types] a _.
    apply for_each_always. intros dir b _.
    apply loop_folder_always. intros e c. apply St_refl.
Qed.

End Always.

(** ** What [createXDeltaPatches] leaves alone *)

Lemma create_body_frame (tool : nat -> string -> string -> string)
    (force : bool) (e : path) (o : string) (s : state) (q : path) :
  q <> patch_of e -> q <> temp_of e ->
  fs (state_of (create_body tool force e o s)) !! q = fs s !! q.
Proof.
  intros Hp Ht. unfold create_body.
  change (Path.add_suffix (Path.add_suffix e ".xdelta") ".temp") with (temp_of e).
  change (Path.add_suffix e ".xdelta") with (patch_of e).
  unfold same_hash, bind, file_op, Fs.remove, Fs.rename, run_xdelta.
  repeat case_match; simpl; st_simpl; simplify_eq; simpl;
    map_lookups; try reflexivity.
Qed.

Lemma with_params_always (St : state -> state -> Prop) (settings : option params)
    (k : Params.parsed -> state -> outcome state) (s : state) :
  (forall p, St s (set_prms p s)) ->
  (forall a b c, St a b -> St b c -> St a c) ->
  (forall p a, St a (state_of (k p a))) ->
  St s (state_of (with_params settings k s)).
Proof.
  intros Hset Htrans Hk. unfold with_params.
  destruct (Params.loadParams false settings (prms s)) as [p [e|]]; simpl.
  - apply Hset.
  - eapply Htrans; [apply Hset|apply Hk].
Qed.

(** X2: whether [createXDeltaPatches] returns or is left by an exception,
    a file whose name ends neither in [.xdelta] nor in [.temp] is as it
    was before: originals and edit files are never written, removed or
    renamed. *)
Theorem createXDeltaPatches_frame (walk : string -> FS -> list path)
    (tool : nat -> string -> string -> string) (settings : option params)
    (dirs : list string) (original_language : string) (force_override : bool)
    (s : state) (q : path) :
  (forall a, List.last q "" <> a ++ ".xdelta") ->
  (forall a, List.last q "" <> a ++ ".temp") ->
  fs (state_of (createXDeltaPatches walk tool settings dirs original_language
                  force_override s)) !! q
  = fs s !! q.
Proof.
  intros Hx Ht. unfold createXDeltaPatches.
  change (fs s !! q) with (fs (set_ctr ∅ s) !! q).
  apply (with_params_always (fun a b => fs b !! q = fs a !! q)).
  - reflexivity.
  - intros a b c H1 H2. congruence.
  - intros p a.
    apply (loopFiles_always (fun a b => fs b !! q = fs a !! q)).
    + reflexivity.
    + intros x y z H1 H2. congruence.
    + intros x v n l. rewrite fs_print. reflexivity.
    + intros folder e o b. apply create_body_frame.
      * intros ->. unfold patch_of in Hx. rewrite last_add_suffix in Hx.
        exact (Hx _ eq_refl).
      * intros ->. unfold temp_of in Ht. rewrite last_add_suffix in Ht.
        exact (Ht _ eq_refl).
Qed.

(** ** What [distributeOtherFiles] leaves alone *)



(** ** Counting in [applyXDeltaPatches] *)

Lemma apply_body_step (tool : nat -> string -> string -> string)
    (force : bool) (patch_file : path) (orig_folder : string) (s s' : state) :
  apply_body tool force patch_file orig_folder s = Done s' ->
  exists o, out s' = (out s ++ o)%list /\ enumerated o = 0 /\
    ((warned o = 1 /\ ctr s' = ctr s) \/
     (warned o = 0 /\
      exists k, k ∈ [ "create"; "update"; "keep" ] /\
        ctr s' = <[ k := S (default 0 (ctr s !! k)) ]> (ctr s))).
Proof.
  unfold apply_body.
  destruct (Fs.exists_join (fs s) _); simpl negb; cbv iota.
  2:{ intros [= <-]. rewrite out_print, ctr_print.
      eexists. split; [reflexivity|]. simpl. auto. }
  unfold same_hash, bind.
  repeat case_match; try discriminate; intros Hd;
    repeat match goal with
      | H : Done _ = Done _ |- _ => injection H as <-
      | H : file_op _ _ _ = Done _ |- _ =>
          apply file_op_done in H as (? & ? & ? & ?)
      end;
    repeat match goal with
      | H : ctr ?x = _ |- context [ctr ?x] => rewrite H
      | H : out ?x = _ |- context [out ?x] => rewrite H
      end;
    st_simpl; rewrite ?ctr_run_xdelta, ?out_run_xdelta; st_simpl;
    rewrite ?out_print;
    (eexists; split; [reflexivity|]); simpl;
    (split; [reflexivity|]); right; (split; [reflexivity|]);
    eexists; (split; [|reflexivity]); set_solver.
Qed.

Lemma apply_body_one_each (tool : nat -> string -> string -> string)
    (force : bool) (orig_folder : string) :
  one_each (fun f => apply_body tool force f orig_folder).
Proof.
  intros f s s' H. apply apply_body_step in H as (o & Ho & E & H).
  exists o. split; [exact Ho|]. split; [exact E|].
  destruct H as [[W ->]|(W & k & Hk & ->)]; [lia|].
  rewrite W, total_count; [lia|].
  revert Hk. unfold five. rewrite !elem_of_cons, !elem_of_nil. tauto.
Qed.

Lemma apply_body_other_counters (tool : nat -> string -> string -> string)
    (force : bool) (patch_file : path) (orig_folder : string) (s : state) :
  let s' := state_of (apply_body tool force patch_file orig_folder s) in
  ctr s' !! "delete" = ctr s !! "delete" /\ ctr s' !! "skip" = ctr s !! "skip".
Proof.
  unfold apply_body, same_hash, bind, file_op.
  repeat case_match; simpl; st_simpl; rewrite ?ctr_run_xdelta; st_simpl;
    simplify_map_eq; auto.
Qed.

(** X4: when [applyXDeltaPatches] returns, the sum of its counters
    [create], [update] and [keep] is the number of patch files it
    enumerated (the bracketed counts printed per folder) less the number
    of warnings about a missing original; no other counter is set. *)
Theorem applyXDeltaPatches_counter_sum (walk : string -> FS -> list path)
    (tool : nat -> string -> string -> string) (settings : option params)
    (dirs : list string) (original_language : string) (force_override : bool)
    (s s' : state) :
  applyXDeltaPatches walk tool settings dirs original_language force_override s
    = Done s' ->
  ctr s' !! "delete" = None /\ ctr s' !! "skip" = None /\
  exists o, out s' = (out s ++ o)%list /\
    total_applied (ctr s') + warned o = enumerated o.
Proof.
  intros H.
  assert (Hother : ctr s' !! "delete" = None /\ ctr s' !! "skip" = None).
  { change s' with (state_of (Done s')). rewrite <- H. unfold applyXDeltaPatches.
    change (@None nat) with ((∅ : gmap string nat) !! "delete") at 1.
    change (@None nat) with ((∅ : gmap string nat) !! "skip").
    change (∅ : gmap string nat) with (ctr (set_ctr ∅ s)) at 1 2.
    set (St := fun a b : state =>
      ctr b !! "delete" = ctr a !! "delete" /\ ctr b !! "skip" = ctr a !! "skip").
    assert (Htrans : forall a b c, St a b -> St b c -> St a c).
    { intros a b c [A1 A2] [B1 B2]. split; congruence. }
    apply (with_params_always St); [split; reflexivity|exact Htrans|].
    intros p a. apply (loopFiles_always St); [split; reflexivity|exact Htrans| |].
    - intros x v n l. split; rewrite ctr_print; reflexivity.
    - intros folder e o b. apply apply_body_other_counters. }
  destruct Hother as [Hd Hs]. repeat (split; [assumption|]).
  unfold applyXDeltaPatches in H. apply with_params_done in H as (p & H).
  apply loopFiles_accounted in H as (o & Ho & Hsum).
  - exists o. split; [exact Ho|]. unfold total in Hsum. unfold total_applied.
    change (ctr (set_prms (Some p) (set_ctr ∅ s))) with (∅ : gmap string nat) in Hsum.
    rewrite !lookup_empty, Hd, Hs in Hsum. simpl in Hsum. lia.
  - intros. apply apply_body_one_each.
Qed.

(** ** Counting in [distributeOtherFiles] *)

Lemma tiered_app (a b : list line) : tiered (a ++ b) = tiered a + tiered b.
Proof.
  induction a as [|l a IH]; [reflexivity|].
  destruct l; simpl; rewrite IH; lia.
Qed.

Lemma copy_body_out (force : bool) (verbose : nat)
    (dest_folder source_file simplename : path) (s s' : state) :
  copy_body force verbose dest_folder source_file simplename s = Done s' ->
  exists o, out s' = (out s ++ o)%list /\ tiered o = 0.
Proof.
  unfold copy_body, same_hash, bind.
  repeat case_match; try discriminate; intros Hd;
    repeat match goal with
      | H : Done _ = Done _ |- _ => injection H as <-
      | H : file_op _ _ _ = Done _ |- _ =>
          apply file_op_done in H as (? & ? & ? & ?)
      end;
    repeat match goal with
      | H : out ?x = _ |- context [out ?x] => rewrite H
      end;
    st_simpl; rewrite ?out_print;
    (eexists; split; [reflexivity|]); destruct (_ <=? _)%nat; reflexivity.
Qed.

(** The counters of [s'] are the tier counts printed since [s]. *)
Lemma copy_loop_out (force : bool) (verbose : nat) (dest_folder : path)
    (files : list (path * path)) (s s' : state) :
  for_each
    (fun '(source_file, simplename) =>
       copy_body force verbose dest_folder source_file simplename)
    files s = Done s' ->
  exists o, out s' = (out s ++ o)%list /\ tiered o = 0.
Proof.
  revert s. induction files as [|[file sn] r IH]; simpl; intros s H.
  - injection H as <-. exists []. rewrite app_nil_r. auto.
  - destruct (copy_body _ _ _ _ _ s) as [s1|e s1] eqn:Hx; simpl in H; [|discriminate].
    apply copy_body_out in Hx as (o1 & H1 & T1).
    apply IH in H as (o2 & H2 & T2).
    exists (o1 ++ o2)%list. rewrite H2, H1, <- app_assoc, tiered_app.
    split; [reflexivity|lia].
Qed.

(** X5: when [distributeOtherFiles] returns and its verbosity is at least
    1, the sum of its counters [add], [update] and [keep] is the sum of
    the file counts printed per tier: every file that survives the two
    exclusions is counted exactly once. *)
Theorem distributeOtherFiles_counter_sum (walk : string -> FS -> list path)
    (settings : option params) (languages : list string)
    (versions : list (option string)) (original_language : string)
    (destination_dir : path) (force_override : bool) (verbose : nat)
    (s s' : state) :
  1 <= verbose ->
  distributeOtherFiles walk settings languages versions original_language
    destination_dir force_override verbose s = Done s' ->
  exists o, out s' = (out s ++ o)%list /\ total_distributed (ctr s') = tiered o.
Proof.
  intros Hv H. unfold distributeOtherFiles in H.
  apply with_params_done in H as (p & H).
  set (St := fun a b : state =>
    exists o, out b = (out a ++ o)%list /\
      total_distributed (ctr b) = total_distributed (ctr a) + tiered o).
  assert (Hrefl : forall a, St a a).
  { intros a. exists []. rewrite app_nil_r. simpl. split; [reflexivity|lia]. }
  assert (Htrans : forall a b c, St a b -> St b c -> St a c).
  { intros a b c (o1 & H1 & E1) (o2 & H2 & E2). exists (o1 ++ o2)%list.
    rewrite H2, H1, <- app_assoc, tiered_app. split; [reflexivity|lia]. }
  apply (for_each_preserves _ St Hrefl Htrans) in H.
  - destruct H as (o & Ho & Hsum). exists o. split; [exact Ho|].
    rewrite Hsum. reflexivity.
  - intros [folder types] a b _. apply (for_each_preserves _ St Hrefl Htrans).
    intros ver c d _. unfold distribute_tier.
    destruct (collectFiles _ _ _ _ _ _ _) as [e|candidates]; [discriminate|].
    set (files := drop_updated _ _ _ _ _ _ _ _).
    match goal with
    | |- context [for_each _ _ ?st] => set (s1 := st)
    end.
    assert (H1 : exists o1, out s1 = (out c ++ o1)%list /\
                   tiered o1 = length files /\ ctr s1 = ctr c).
    { subst s1. destruct (3 <=? verbose)%nat eqn:H3; cbn [orb andb].
      - rewrite out_print, ctr_print. eexists. split; [reflexivity|].
        simpl. split; [lia|reflexivity].
      - destruct (1 <=? verbose)%nat eqn:H1; [|apply Nat.leb_gt in H1; lia].
        cbn [orb andb]. destruct (0 <? length files)%nat eqn:H0.
        + rewrite out_print, ctr_print. eexists. split; [reflexivity|].
          simpl. split; [lia|reflexivity].
        + apply Nat.ltb_ge in H0. exists []. rewrite app_nil_r. simpl.
          split; [reflexivity|]. split; [lia|reflexivity]. }
    destruct H1 as (o1 & Ho1 & T1 & C1).
    destruct (find _ _) as [[k parent]|]; [|discriminate].
    intros Hd. pose proof (copy_loop_out _ _ _ _ _ _ Hd) as (o2 & Ho2 & T2).
    apply copy_loop_step in Hd as [Hc _].
    exists (o1 ++ o2)%list. rewrite Ho2, Ho1, <- app_assoc, tiered_app, Hc, C1.
    split; [reflexivity|lia].
Qed.

(** ** Without a parameter file *)

(** X6: when the parameter file cannot be read and no parameters are
    loaded yet, the defaults pass the check and name no folder: the three
    pipelines return at once with empty counters, having printed nothing,
    run no tool and left every file as it was. *)
Theorem no_settings_no_work (walk : string -> FS -> list path)
    (xdelta_encode xdelta_decode : nat -> string -> string -> string)
    (dirs : list string) (original_language : string) (force_override : bool)
    (languages : list string) (versions : list (option string))
    (destination_dir : path) (verbose : nat) (s : state) :
  prms s = None ->
  let s' :=
    {| fs := fs s; ctr := ∅; out := out s; runs := runs s;
       prms := Some (Params.parseParams Params.loadDefaults) |} in
  createXDeltaPatches walk xdelta_encode None dirs original_language
    force_override s = Done s' /\
  applyXDeltaPatches walk xdelta_decode None dirs original_language
    force_override s = Done s' /\
  distributeOtherFiles walk None languages versions original_language
    destination_dir force_override verbose s = Done s'.
Proof.
  intros Hp s'.
  unfold createXDeltaPatches, applyXDeltaPatches, distributeOtherFiles,
    with_params, loopFiles.
  change (prms (set_ctr ∅ s)) with (prms s). rewrite Hp. simpl.
  destruct (Py.truthy_str original_language); auto.
Qed.

(** ** Exceptions of [createXDeltaPatches] *)

Lemma for_each_raised {A : Type} (P : exn -> Prop)
    (body : A -> state -> outcome state) (l : list A) :
  (forall x s e, raised (body x s) = Some e -> P e) ->
  forall s e, raised (for_each body l s) = Some e -> P e.
Proof.
  intros Hbody. induction l as [|x l IH]; simpl; intros s e H; [discriminate|].
  pose proof (Hbody x s) as Hx.
  destruct (body x s) as [s1|e1 s1]; simpl in *; eauto.
Qed.

Lemma loopFiles_raised {T : Type} (P : exn -> Prop)
    (walk : string -> FS -> list path)
    (accept : T -> string -> bool) (folders : list (string * T))
    (original_language : string) (dirs : list string)
    (body : string -> path -> string -> state -> outcome state) :
  (forall folder f o s e, raised (body folder f o s) = Some e -> P e) ->
  P ValueError ->
  forall s e,
    raised (loopFiles walk accept folders original_language dirs body s) = Some e ->
    P e.
Proof.
  intros Hbody Hv. unfold loopFiles. destruct (Py.truthy_str original_language).
  - apply for_each_raised. intros [folder types] a e.
    destruct (versions_of _ _ _); [discriminate|].
    apply for_each_raised. intros [ver lang] b e'. unfold loop_folder.
    apply for_each_raised. intros f c e''. apply Hbody.
  - apply for_each_raised. intros [folder types] a e.
    apply for_each_raised. intros dir b e'. unfold loop_folder.
    apply for_each_raised. intros f c e'' [= <-]. exact Hv.
Qed.

Lemma create_body_raised (tool : nat -> string -> string -> string)
    (force : bool) (e : path) (o : string) (s : state) (x : exn) :
  raised (create_body tool force e o s) = Some x -> exists p, x = OSError p.
Proof.
  unfold create_body, same_hash, bind, file_op.
  repeat case_match; simpl; intros ?; simplify_eq; eauto.
Qed.

(** X7: the parameter check is made only when the parameters are loaded.
    After a call of [createXDeltaPatches] that was rejected for a truthy
    [PAT], a second call in the same process finds the parameters set and
    is not rejected: if it raises at all, it is a file error or the
    [ValueError] of an empty original language. *)
Theorem createXDeltaPatches_rejected_once (walk : string -> FS -> list path)
    (tool : nat -> string -> string -> string) (settings : option params)
    (dirs : list string) (original_language : string)
    (force1 force2 : bool) (s : state) (v : json) :
  prms s = None ->
  PAT (match settings with Some p => p | None => Params.loadDefaults end) = Some v ->
  truthy_json v = true ->
  let r1 := createXDeltaPatches walk tool settings dirs original_language force1 s in
  let r2 :=
    createXDeltaPatches walk tool settings dirs original_language force2
      (state_of r1) in
  raised r1 = Some (UnsupportedParamException "PAT") /\
  forall e, raised r2 = Some e -> e = ValueError \/ exists p, e = OSError p.
Proof.
  intros Hp Hv Ht r1 r2.
  assert (H1 : r1 = Raised (UnsupportedParamException "PAT")
                 (set_prms (Some (Params.parseParams
                    (match settings with Some p => p | None => Params.loadDefaults end)))
                    (set_ctr ∅ s))).
  { subst r1. unfold createXDeltaPatches. apply with_params_PAT; eauto. }
  split; [rewrite H1; reflexivity|].
  subst r2. rewrite H1. simpl state_of. unfold createXDeltaPatches, with_params.
  simpl Params.loadParams. cbv iota beta.
  apply (loopFiles_raised (fun e => e = ValueError \/ exists p, e = OSError p)).
  - intros folder f o a e He. right. eapply create_body_raised, He.
  - left. reflexivity.
Qed.

(** ** An empty original language *)

(** X8: with an empty [original_language], [loopFiles] yields pairs that
    the loops of [createXDeltaPatches] and [applyXDeltaPatches] cannot
    unpack. Whatever the project, no file is touched, no counter set and
    the tool not run; the call returns or raises [ValueError], or was
    rejected when the parameters were loaded. *)
Theorem empty_original_language (walk : string -> FS -> list path)
    (xdelta_encode xdelta_decode : nat -> string -> string -> string)
    (settings : option params) (dirs : list string) (original_language : string)
    (force_override : bool) (s : state) :
  Py.truthy_str original_language = false ->
  let idle (r : outcome state) :=
    fs (state_of r) = fs s /\ ctr (state_of r) = ∅ /\
    runs (state_of r) = runs s /\
    (raised r = None \/ raised r = Some ValueError \/
     raised r = Some (UnsupportedParamException "PAT")) in
  idle (createXDeltaPatches walk xdelta_encode settings dirs original_language
          force_override s) /\
  idle (applyXDeltaPatches walk xdelta_decode settings dirs original_language
          force_override s).
Proof.
  intros Hol idle.
  assert (Hloop : forall (T : Type) (accept : T -> string -> bool)
            (folders : list (string * T))
            (body : string -> path -> string -> state -> outcome state) (a : state),
    let r := loopFiles walk accept folders original_language dirs body a in
    (fs (state_of r) = fs a /\ ctr (state_of r) = ctr a /\
     runs (state_of r) = runs a) /\
    (raised r = None \/ raised r = Some ValueError)).
  { intros T accept folders body a r. subst r. unfold loopFiles. rewrite Hol.
    set (St := fun x y : state => fs y = fs x /\ ctr y = ctr x /\ runs y = runs x).
    assert (Hrefl : forall x, St x x) by (intros x; repeat split).
    assert (Htrans : forall x y z, St x y -> St y z -> St x z).
    { intros x y z (A1 & A2 & A3) (B1 & B2 & B3). repeat split; congruence. }
    assert (Hprint : forall x v n l, St x (print v n l x)).
    { intros x v n l. repeat split; st_simpl; reflexivity. }
    split.
    - apply (for_each_always St Hrefl Htrans). intros [folder types] b _.
      apply (for_each_always St Hrefl Htrans). intros dir c _.
      apply (loop_folder_always St Hrefl Htrans Hprint). intros e d. apply Hrefl.
    - match goal with |- context [raised ?m] => destruct (raised m) as [e|] eqn:E end;
        [right|left; reflexivity].
      f_equal. revert E.
      apply (for_each_raised (fun e => e = ValueError)). intros [folder types] b e'.
      apply (for_each_raised (fun e => e = ValueError)). intros dir c e''.
      unfold loop_folder.
      apply (for_each_raised (fun e => e = ValueError)).
      intros f d x [= <-]. reflexivity. }
  assert (Hwith : forall k,
    (forall p a,
       (fs (state_of (k p a)) = fs a /\ ctr (state_of (k p a)) = ctr a /\
        runs (state_of (k p a)) = runs a) /\
       (raised (k p a) = None \/ raised (k p a) = Some ValueError)) ->
    idle (with_params settings k (set_ctr ∅ s))).
  { intros k Hk. subst idle. cbv beta. unfold with_params.
    change (prms (set_ctr ∅ s)) with (prms s).
    destruct (Params.loadParams false settings (prms s)) as [p [e|]] eqn:Hload.
    - simpl. repeat split. right. right. f_equal.
      unfold Params.loadParams in Hload.
      destruct (prms s); [congruence|].
      injection Hload as _ Hload. unfold Params.verifyParams in Hload.
      repeat case_match; congruence.
    - destruct (Hk p (set_prms (Some p) (set_ctr ∅ s))) as [(F & C & R) Hr].
      rewrite F, C, R. repeat split. tauto. }
  split.
  - unfold createXDeltaPatches. apply Hwith. intros p a. apply Hloop.
  - unfold applyXDeltaPatches. apply Hwith. intros p a. apply Hloop.
Qed.

(** ** Folder names with an underscore *)

Lemma split_parts_no_sep (sep : ascii) (s x : string) :
  x ∈ Py.split sep s -> Py.contains sep x = false.
Proof.
  revert x. induction s as [|c r IH]; simpl; intros x Hx.
  - apply list_elem_of_singleton in Hx as ->. reflexivity.
  - destruct (Ascii.eqb c sep) eqn:Hc.
    + apply elem_of_cons in Hx as [->|Hx]; [reflexivity|auto].
    + destruct (Py.split sep r) as [|h t] eqn:Hs.
      * apply list_elem_of_singleton in Hx as ->. simpl. rewrite Hc. reflexivity.
      * apply elem_of_cons in Hx as [->|Hx].
        -- simpl. rewrite Hc. apply IH. left.
        -- apply IH. right. exact Hx.
Qed.

Lemma splitFolder_folder (d : string) :
  splitFolder d !! "folder" = Some (List.hd "" (Py.split "_" d)).
Proof.
  unfold splitFolder. destruct (Py.split "_" d) as [|a0 [|a1 [|a2 r]]]; simpl;
    try destruct (is_version a1); simplify_map_eq; reflexivity.
Qed.

Lemma splitFolder_folder_no_underscore (d b : string) :
  splitFolder d !! "folder" = Some b -> Py.contains "_" b = false.
Proof.
  rewrite splitFolder_folder. intros [= <-].
  pose proof (split_nonempty "_" d) as Hne.
  destruct (Py.split "_" d) as [|a0 r] eqn:E; [congruence|].
  apply (split_parts_no_sep "_" d). rewrite E. left.
Qed.

Lemma for_each_idle {A : Type} (body : A -> state -> outcome state)
    (l : list A) (s : state) :
  (forall x, x ∈ l -> body x s = Done s) -> for_each body l s = Done s.
Proof.
  induction l as [|x l IH]; simpl; intros H; [reflexivity|].
  rewrite (H x (list_elem_of_here _ _)). simpl.
  apply IH. intros y Hy. apply H. right. exact Hy.
Qed.

(** X9: the base name [splitFolder] reads off a directory never has an
    underscore, so a folder of the configuration whose name has one
    matches no directory: [loopFiles] enumerates nothing for it and,
    when every configured folder is like that, returns with the state as
    it was, whatever directories and files there are. *)
Theorem loopFiles_underscore_folder {T : Type} (walk : string -> FS -> list path)
    (accept : T -> string -> bool) (folders : list (string * T))
    (original_language : string) (dirs : list string)
    (body : string -> path -> string -> state -> outcome state) (s : state) :
  (forall folder types, (folder, types) ∈ folders -> Py.contains "_" folder = true) ->
  loopFiles walk accept folders original_language dirs body s = Done s.
Proof.
  intros Hund. unfold loopFiles. destruct (Py.truthy_str original_language).
  - apply for_each_idle. intros [folder types] Hf.
    assert (Hv : versions_of (List.map splitFolder dirs) folder original_language = []).
    { unfold versions_of.
      destruct (List.filter _ _) as [|d l] eqn:E; [reflexivity|].
      assert (Hd : In d (d :: l)) by (left; reflexivity).
      rewrite <- E in Hd. apply filter_In in Hd as [Hd Hc].
      apply andb_true_iff in Hc as [Hc _]. apply bool_decide_eq_true in Hc.
      apply in_map_iff in Hd as (dn & <- & _).
      apply splitFolder_folder_no_underscore in Hc.
      rewrite (Hund _ _ Hf) in Hc. discriminate. }
    rewrite Hv. reflexivity.
  - apply for_each_idle. intros [folder types] Hf.
    assert (Hd : List.filter
              (fun dir => bool_decide (splitFolder dir !! "folder" = Some folder))
              dirs = []).
    { destruct (List.filter _ _) as [|d l] eqn:E; [reflexivity|].
      assert (Hd : In d (d :: l)) by (left; reflexivity).
      rewrite <- E in Hd. apply filter_In in Hd as [_ Hc].
      apply bool_decide_eq_true, splitFolder_folder_no_underscore in Hc.
      rewrite (Hund _ _ Hf) in Hc. discriminate. }
    rewrite Hd. reflexivity.
Qed.

(** ** Distributing a file twice *)

Lemma copyfile_lookup (f f' : FS) (src dst : path) :
  Fs.copyfile f src dst = Some f' ->
  exists c, f !! src = Some c /\ f' = <[ dst := c ]> f.
Proof.
  unfold Fs.copyfile. destruct (f !! src) as [c|]; [|discriminate].
  intros [= <-]. eauto.
Qed.

Lemma copy_body_result (force : bool) (verbose : nat)
    (dest_folder source_file simplename : path) (s s' : state) :
  source_file <> (dest_folder ++ simplename)%list ->
  copy_body force verbose dest_folder source_file simplename s = Done s' ->
  exists cs cd,
    fs s' !! source_file = Some cs /\
    fs s' !! (dest_folder ++ simplename)%list = Some cd /\
    MD5.digest cd = MD5.digest cs.
Proof.
  intros Hne. unfold copy_body.
  set (dest := (dest_folder ++ simplename)%list) in *.
  assert (Hupd : forall a b,
    bind (file_op (fun f => Fs.remove f dest) dest a)
      (file_op (fun f => Fs.copyfile f source_file dest) source_file) = Done b ->
    exists cs cd, fs b !! source_file = Some cs /\ fs b !! dest = Some cd /\
      MD5.digest cd = MD5.digest cs).
  { intros a b H.
    destruct (file_op _ dest a) as [a1|x a1] eqn:H1; simpl in H; [|discriminate].
    apply file_op_fs in H1, H. cbv beta in *.
    apply remove_lookup in H1 as [_ E1]. apply copyfile_lookup in H as (c & Hc & ->).
    exists c, c. map_lookups. auto. }
  destruct (Fs.exists_ (fs s) dest).
  - destruct force; [apply Hupd|]. unfold same_hash.
    destruct (Fs.hash (fs s) dest) as [hd|] eqn:Hd; [|discriminate].
    destruct (Fs.hash (fs s) source_file) as [hs|] eqn:Hs; [|discriminate].
    destruct (bool_decide_reflect (hd = hs)) as [Heq|Hneq]; [|apply Hupd].
    intros [= <-]. st_simpl.
    apply hash_lookup in Hd as (cd & Hcd & ->), Hs as (cs & Hcs & ->). eauto.
  - destruct (Fs.makedirs_error _ _); [discriminate|].
    intros H. apply file_op_fs in H. cbv beta in H. revert H. st_simpl. intros H.
    apply copyfile_lookup in H as (c & Hc & ->).
    exists c, c. map_lookups. auto.
Qed.

(** X10: a file that the copy loop has just distributed is kept by a
    second pass without [force_override]: the second pass counts it under
    [keep] and leaves the file system as the first pass left it. The
    source must not be its own destination. *)
Theorem copy_body_twice (force : bool) (verbose : nat)
    (dest_folder source_file simplename : path) (s s1 : state) :
  source_file <> (dest_folder ++ simplename)%list ->
  copy_body force verbose dest_folder source_file simplename s = Done s1 ->
  exists s2,
    copy_body false verbose dest_folder source_file simplename s1 = Done s2 /\
    fs s2 = fs s1 /\
    ctr s2 = <[ "keep" := S (default 0 (ctr s1 !! "keep")) ]> (ctr s1).
Proof.
  intros Hne H. apply copy_body_result in H as (cs & cd & Hs & Hd & Heq); [|exact Hne].
  unfold copy_body, same_hash, Fs.exists_, Fs.is_file, Fs.hash.
  rewrite Hd, Hs. simpl. rewrite bool_decide_true by exact Heq.
  eexists. split; [reflexivity|]. st_simpl. auto.
Qed.

(** ** The text of a path *)

Lemma substring_0_app (a b : string) :
  String.substring 0 (String.length a) (a ++ b) = a.
Proof.
  induction a as [|c a IH].
  - rewrite string_app_nil. destruct b; reflexivity.
  - rewrite string_app_cons. simpl. rewrite IH. reflexivity.
Qed.

Lemma drop_last_app (a suf : string) :
  Path.drop_last (String.length suf) (a ++ suf) = a.
Proof.
  unfold Path.drop_last. rewrite string_length_app.
  replace (String.length a + String.length suf - String.length suf)
    with (String.length a) by lia.
  apply substring_0_app.
Qed.

Lemma to_string_cons (x : string) (q : path) :
  q <> [] -> Path.to_string (x :: q) = x ++ String "/" (Path.to_string q).
Proof. destruct q; [congruence|reflexivity]. Qed.

Lemma to_string_add_suffix (p : path) (suf : string) :
  p <> [] -> Path.to_string (Path.add_suffix p suf) = Path.to_string p ++ suf.
Proof.
  induction p as [|x [|y r] IH]; intros Hp; [congruence|reflexivity|].
  change (Path.add_suffix (x :: y :: r) suf)
    with (x :: Path.add_suffix (y :: r) suf).
  rewrite to_string_cons by apply add_suffix_nonempty.
  rewrite IH by discriminate.
  rewrite (to_string_cons x (y :: r)) by discriminate.
  rewrite string_app_assoc, string_app_cons. reflexivity.
Qed.

Lemma split_to_string (p : path) :
  p <> [] -> (forall x, x ∈ p -> Py.contains "/" x = false) ->
  Py.split "/" (Path.to_string p) = p.
Proof.
  induction p as [|x [|y r] IH]; intros Hp Hplain; [congruence| |].
  - apply split_no_sep, Hplain. left.
  - rewrite to_string_cons by discriminate.
    rewrite split_app_sep by (apply Hplain; left).
    rewrite IH; [reflexivity|discriminate|].
    intros z Hz. apply Hplain. right. exact Hz.
Qed.

Lemma filter_truthy_plain (p : path) : plain p -> List.filter Py.truthy_str p = p.
Proof.
  induction p as [|x p IH]; intros Hp; [reflexivity|]. simpl.
  destruct (Hp x (list_elem_of_here _ _)) as [-> _]. f_equal.
  apply IH. intros y Hy. apply Hp. right. exact Hy.
Qed.

Lemma of_string_to_string (p : path) :
  p <> [] -> plain p -> Path.of_string (Path.to_string p) = p.
Proof.
  intros Hne Hp. unfold Path.of_string.
  rewrite split_to_string; [apply filter_truthy_plain, Hp|exact Hne|].
  intros x Hx. apply Hp, Hx.
Qed.

Lemma map_last_cons (f : string -> string) (x : string) (q : path) :
  q <> [] -> Path.map_last f (x :: q) = x :: Path.map_last f q.
Proof. destruct q; [congruence|reflexivity]. Qed.

Lemma map_last_add_suffix (p : path) (suf : string) :
  p <> [] ->
  Path.map_last (Path.drop_last (String.length suf)) (Path.add_suffix p suf) = p.
Proof.
  induction p as [|x [|y r] IH]; intros Hp; [congruence| |].
  - simpl. rewrite drop_last_app. reflexivity.
  - change (Path.add_suffix (x :: y :: r) suf)
      with (x :: Path.add_suffix (y :: r) suf).
    rewrite map_last_cons by apply add_suffix_nonempty.
    rewrite IH by discriminate. reflexivity.
Qed.

(** [patch_file[:-len('.xdelta')]] of the patch of [e] is [e]. *)
Lemma output_of_patch (e : path) :
  e <> [] -> plain e ->
  Path.of_string
    (Path.drop_last (String.length ".xdelta") (Path.to_string (patch_of e))) = e.
Proof.
  intros Hne Hp. unfold patch_of.
  rewrite to_string_add_suffix, drop_last_app by exact Hne.
  apply of_string_to_string; assumption.
Qed.

Lemma is_dir_spec (f : FS) (p : path) :
  Fs.is_dir f p = true ->
  exists q, is_Some (f !! q) /\ Path.is_prefix p q = true /\ length p <> length q.
Proof.
  intros H. destruct p as [|x p]; [discriminate|]. unfold Fs.is_dir in H.
  apply existsb_exists in H as (q & Hq & Hc).
  apply in_map_iff in Hq as ([q' c] & Heq & Hq). cbn [fst] in Heq. subst q.
  apply list_elem_of_In, elem_of_map_to_list in Hq.
  apply andb_true_iff in Hc as [Hp Hl].
  apply negb_true_iff, Nat.eqb_neq in Hl. exists q'. eauto.
Qed.

Lemma is_dir_intro (f : FS) (p q : path) :
  p <> [] -> is_Some (f !! q) -> Path.is_prefix p q = true ->
  length p <> length q -> Fs.is_dir f p = true.
Proof.
  intros Hp [c Hc] Hpre Hl. unfold Fs.is_dir. destruct p as [|x p]; [congruence|].
  apply existsb_exists. exists q. split.
  - apply in_map_iff. exists (q, c). split; [reflexivity|].
    apply list_elem_of_In, elem_of_map_to_list, Hc.
  - rewrite Hpre. apply Nat.eqb_neq in Hl. rewrite Hl. reflexivity.
Qed.

Lemma length_add_suffix (p : path) (suf : string) :
  p <> [] -> length (Path.add_suffix p suf) = length p.
Proof.
  induction p as [|x [|y r] IH]; intros Hp; [congruence|reflexivity|].
  change (length (Path.add_suffix (x :: y :: r) suf))
    with (S (length (Path.add_suffix (y :: r) suf))).
  rewrite IH by discriminate. reflexivity.
Qed.

(** ** A patch created, then applied *)

Lemma hash_of_lookup (f : FS) (p : path) (c : string) :
  f !! p = Some c -> Fs.hash f p = Some (MD5.digest c).
Proof. unfold Fs.hash. intros ->. reflexivity. Qed.

Lemma last_elem_of (l : list string) (d : string) : l <> [] -> List.last l d ∈ l.
Proof.
  induction l as [|x [|y r] IH]; intros H; [congruence|left|].
  right. apply IH. discriminate.
Qed.

(** X11: create and apply compose to a round trip. For an edit file that
    differs from its original and has no patch yet, [createXDeltaPatches]
    writes the patch; if the edit file is then lost, the loop body of
    [applyXDeltaPatches], run on that patch, finds the same original,
    writes the output under the name of the edit file and, with a tool
    whose apply mode inverts its diff mode, restores the file system the
    first step left. *)
Theorem create_then_apply
    (xdelta_encode xdelta_decode : nat -> string -> string -> string)
    (force1 force2 : bool) (d n : string) (r : path) (o : string)
    (co ce : string) (s : state) :
  let e := d :: n :: r in
  plain e -> Py.truthy_str o = true -> o <> d ->
  (forall i j a b, xdelta_decode j a (xdelta_encode i a b) = b) ->
  fs s !! (o :: n :: r) = Some co -> fs s !! e = Some ce ->
  MD5.digest co <> MD5.digest ce ->
  Fs.exists_ (fs s) (patch_of e) = false ->
  Fs.is_dir (fs s) e = false ->
  exists s1,
    create_body xdelta_encode force1 e o s = Done s1 /\
    fs s1 = <[ patch_of e := xdelta_encode (runs s) co ce ]> (fs s) /\
    exists s2,
      apply_body xdelta_decode force2 (patch_of e) o
        (set_fs (delete e (fs s1)) s1) = Done s2 /\
      fs s2 = fs s1.
Proof.
  intros e Hplain Ho Hod Hinv Hco Hce Hdig Hnopatch Hnodir.
  assert (Hpe : patch_of e <> e) by apply patch_of_neq.
  assert (Hop : o :: n :: r <> patch_of e).
  { intros H. apply (f_equal hd_error) in H. simpl in H. congruence. }
  assert (Hoe : o :: n :: r <> e) by (intros [= ?]; congruence).
  (* the patch is created *)
  assert (H1 : create_body xdelta_encode force1 e o s
               = Done (run_xdelta xdelta_encode (o :: n :: r) e (patch_of e)
                         (count "create"
                            (print VERBOSE 2
                               (Action (Path.add_suffix (n :: r) ".xdelta") "create")
                               s)))).
  { unfold create_body.
    change (o :: Path.extpath e) with (o :: n :: r).
    change (Path.add_suffix e ".xdelta") with (patch_of e).
    rewrite (is_file_exists (fs s) (o :: n :: r))
      by (apply is_file_lookup; eauto).
    unfold same_hash.
    rewrite (hash_of_lookup _ _ _ Hco), (hash_of_lookup _ _ _ Hce).
    simpl negb. cbv iota.
    rewrite bool_decide_false by exact Hdig. rewrite Hnopatch. reflexivity. }
  eexists. split; [exact H1|].
  assert (Hfs1 : fs (run_xdelta xdelta_encode (o :: n :: r) e (patch_of e)
                       (count "create"
                          (print VERBOSE 2
                             (Action (Path.add_suffix (n :: r) ".xdelta") "create")
                             s)))
                 = <[ patch_of e := xdelta_encode (runs s) co ce ]> (fs s)).
  { rewrite (fs_run_xdelta _ _ _ _ _ co ce) by (st_simpl; assumption).
    st_simpl. reflexivity. }
  split; [exact Hfs1|].
  match goal with |- context [set_fs _ ?st] => set (s1 := st) in * end.
  set (s1' := set_fs (delete e (fs s1)) s1).
  assert (Hf : fs s1' = delete e (<[ patch_of e := xdelta_encode (runs s) co ce ]> (fs s))).
  { subst s1'. rewrite fs_set_fs, Hfs1. reflexivity. }
  (* the names the apply loop computes *)
  assert (Hsimple :
    Path.map_last (Path.drop_last (String.length ".xdelta"))
      (Path.extpath (patch_of e)) = n :: r).
  { change (Path.extpath (patch_of e)) with (Path.add_suffix (n :: r) ".xdelta").
    apply map_last_add_suffix. discriminate. }
  assert (Horig : List.filter Py.truthy_str (o :: n :: r) = o :: n :: r).
  { assert (Hnr : List.filter Py.truthy_str (n :: r) = n :: r).
    { apply filter_truthy_plain. intros x Hx. apply Hplain. right. exact Hx. }
    change (List.filter Py.truthy_str (o :: n :: r))
      with (if Py.truthy_str o then o :: List.filter Py.truthy_str (n :: r)
            else List.filter Py.truthy_str (n :: r)).
    rewrite Ho, Hnr. reflexivity. }
  assert (Hout :
    Path.of_string
      (Path.drop_last (String.length ".xdelta") (Path.to_string (patch_of e))) = e).
  { apply output_of_patch; [discriminate|exact Hplain]. }
  assert (Horig1 : fs s1' !! (o :: n :: r) = Some co).
  { rewrite Hf. map_lookups. exact Hco. }
  assert (Hpatch1 : fs s1' !! patch_of e = Some (xdelta_encode (runs s) co ce)).
  { rewrite Hf. map_lookups. reflexivity. }
  assert (Hnoout : Fs.exists_ (fs s1') e = false).
  { unfold Fs.exists_. apply orb_false_iff. split.
    { unfold Fs.is_file. rewrite Hf. map_lookups. reflexivity. }
    destruct (Fs.is_dir (fs s1') e) eqn:Hdir; [|reflexivity].
    apply is_dir_spec in Hdir as (q & [c Hq] & Hpre & Hlen).
    rewrite Hf in Hq. apply lookup_delete_Some in Hq as [Hqe Hq].
    apply lookup_insert_Some in Hq as [[<- _]|[Hqp Hq]].
    - unfold patch_of in Hlen. rewrite length_add_suffix in Hlen by discriminate.
      congruence.
    - assert (Fs.is_dir (fs s) e = true)
        by (apply (is_dir_intro _ _ q); [discriminate|eauto|exact Hpre|exact Hlen]).
      congruence. }
  assert (Hex1 : Fs.exists_join (fs s1') (o :: n :: r) = true).
  { unfold Fs.exists_join. rewrite Horig.
    replace (Py.truthy_str (List.last (o :: n :: r) "")) with true.
    - apply is_file_exists, is_file_lookup. eauto.
    - symmetry. apply Hplain. right.
      change (List.last (o :: n :: r) "") with (List.last (n :: r) "").
      apply last_elem_of. discriminate. }
  unfold apply_body. rewrite Hsimple, Horig, Hout, Hex1.
  simpl negb. cbv iota. rewrite Hnoout.
  eexists. split; [reflexivity|].
  rewrite (fs_run_xdelta _ _ _ _ _ co (xdelta_encode (runs s) co ce))
    by (st_simpl; assumption).
  st_simpl. rewrite Hinv, Hf, insert_delete_eq. rewrite insert_id; [symmetry; exact Hfs1|].
  map_lookups. exact Hce.
Qed.

(** ** [hashZip] does not depend on the order of the entries *)

Lemma ascii_compare_trans (x y z : ascii) :
  Ascii.compare x y <> Gt -> Ascii.compare y z <> Gt ->
  Ascii.compare x z <> Gt /\
  (Ascii.compare x z = Eq -> Ascii.compare x y = Eq /\ Ascii.compare y z = Eq).
Proof.
  unfold Ascii.compare.
  destruct (N.compare_spec (N_of_ascii x) (N_of_ascii y));
    destruct (N.compare_spec (N_of_ascii y) (N_of_ascii z));
    destruct (N.compare_spec (N_of_ascii x) (N_of_ascii z));
    intros G1 G2; try (exfalso; congruence); try (exfalso; lia);
    (split; [congruence|intros E; try discriminate; auto]).
Qed.

Lemma string_compare_trans (a b c : string) :
  String.compare a b <> Gt -> String.compare b c <> Gt -> String.compare a c <> Gt.
Proof.
  revert b c. induction a as [|x a IH]; intros [|y b] [|z c]; simpl;
    try congruence.
  intros H1 H2.
  assert (Hxy : Ascii.compare x y <> Gt) by (destruct (Ascii.compare x y); congruence).
  assert (Hyz : Ascii.compare y z <> Gt) by (destruct (Ascii.compare y z); congruence).
  destruct (ascii_compare_trans x y z Hxy Hyz) as [Hxz Heq].
  destruct (Ascii.compare x z) eqn:E; try congruence.
  destruct (Heq eq_refl) as [E1 E2]. rewrite E1 in H1. rewrite E2 in H2.
  apply (IH b c); assumption.
Qed.

Lemma leb_compare (a b : string) : String.leb a b = true <-> String.compare a b <> Gt.
Proof. unfold String.leb. destruct (String.compare a b); split; congruence. Qed.

#[local] Instance zip_le_trans : Transitive Zip.le.
Proof.
  intros a b c. unfold Zip.le. rewrite !leb_compare. apply string_compare_trans.
Qed.

#[local] Instance zip_le_total : Total Zip.le.
Proof. intros a b. apply String.leb_total. Qed.

#[local] Instance zip_le_antisym : AntiSymm (=) Zip.le.
Proof. intros a b. apply String.leb_antisym. Qed.

Lemma sorted_Permutation (l l' : list string) :
  l ≡ₚ l' -> Zip.sorted l = Zip.sorted l'.
Proof.
  intros Hp. unfold Zip.sorted. apply (StronglySorted_unique Zip.le).
  - apply StronglySorted_merge_sort; apply _.
  - apply StronglySorted_merge_sort; apply _.
  - rewrite !merge_sort_Permutation. exact Hp.
Qed.

Lemma read_spec (z : Zip.archive) (name d : string) :
  NoDup (List.map fst z) -> Zip.read z name = Some d <-> (name, d) ∈ z.
Proof.
  revert d. induction z as [|[n data] r IH]; simpl; intros d Hnd.
  - split; [discriminate|intros H; inversion H].
  - apply NoDup_cons in Hnd as [Hn Hnd].
    rewrite elem_of_cons. destruct (Zip.read r name) as [d'|] eqn:Hr.
    + assert (Hin : (name, d') ∈ r) by (apply (IH d' Hnd); reflexivity).
      split.
      * intros [= <-]. right. exact Hin.
      * intros [[= -> ->]|H].
        -- destruct Hn. apply list_elem_of_fmap. exists (n, d'). auto.
        -- apply (IH d Hnd) in H. exact H.
    + destruct (String.eqb_spec n name) as [->|Hne].
      * split; [intros [= <-]; left; reflexivity|].
        intros [[= ->]|H]; [reflexivity|]. apply (IH d Hnd) in H. discriminate.
      * split; [discriminate|].
        intros [[= -> ->]|H]; [congruence|]. apply (IH d Hnd) in H. discriminate.
Qed.

Lemma read_Permutation (z z' : Zip.archive) (name : string) :
  z ≡ₚ z' -> NoDup (List.map fst z) -> Zip.read z name = Zip.read z' name.
Proof.
  intros Hp Hnd.
  assert (Hnd' : NoDup (List.map fst z')) by (rewrite <- Hp; exact Hnd).
  destruct (Zip.read z name) as [d|] eqn:H1, (Zip.read z' name) as [d'|] eqn:H2;
    try reflexivity.
  - apply read_spec in H1; [|exact Hnd]. rewrite Hp in H1.
    apply read_spec in H1; [|exact Hnd']. congruence.
  - apply read_spec in H1; [|exact Hnd]. rewrite Hp in H1.
    apply read_spec in H1; [|exact Hnd']. congruence.
  - apply read_spec in H2; [|exact Hnd']. rewrite <- Hp in H2.
    apply read_spec in H2; [|exact Hnd]. congruence.
Qed.

Lemma fold_read_ext (z z' : Zip.archive) (names : list string) (acc : string) :
  (forall n, Zip.read z n = Zip.read z' n) ->
  List.fold_left
    (fun acc name => acc ++ Zip.encode name ++ default "" (Zip.read z name))
    names acc
  = List.fold_left
      (fun acc name => acc ++ Zip.encode name ++ default "" (Zip.read z' name))
      names acc.
Proof.
  intros Hr. revert acc. induction names as [|n names IH]; intros acc; simpl.
  - reflexivity.
  - rewrite Hr. apply IH.
Qed.

(** X12: for an archive without two entries of the same name, [hashZip]
    does not depend on the order of the entries: any rearrangement of the
    archive has the same digest. *)
Theorem hashZip_order (z z' : Zip.archive) :
  z ≡ₚ z' -> NoDup (List.map fst z) -> Zip.hashZip z = Zip.hashZip z'.
Proof.
  intros Hp Hnd. unfold Zip.hashZip. f_equal.
  rewrite (sorted_Permutation (List.map fst z) (List.map fst z'))
    by (rewrite Hp; reflexivity).
  apply fold_read_ext. intros n. apply read_Permutation; assumption.
Qed.

Example hashZip_example :
  Zip.sorted [ "b"; "a"; "B"; "ab"; "a"; "" ] = [ ""; "B"; "a"; "a"; "ab"; "b" ] /\
  Zip.hashZip [ ("b.txt", "B"); ("a.txt", "A") ] =
  [ 0xa4; 0xdf; 0x02; 0x6b; 0x23; 0x6b; 0x1a; 0x73;
    0x67; 0xb9; 0xe5; 0xdd; 0xdb; 0x40; 0x49; 0x2a ]%N.
Proof. split; vm_compute; reflexivity. Qed.

(** ** The directory names [joinFolder] gives back *)

Lemma concat_cons_String (sep : string) (c : ascii) (h : string) (t : list string) :
  String.concat sep (String c h :: t) = String c (String.concat sep (h :: t)).
Proof. destruct t; reflexivity. Qed.

Lemma concat_split (sep : ascii) (s : string) :
  String.concat (String sep "") (Py.split sep s) = s.
Proof.
  induction s as [|c r IH]; [reflexivity|]. simpl.
  destruct (Ascii.eqb_spec c sep) as [->|Hne].
  - pose proof (split_nonempty sep r) as Hn.
    destruct (Py.split sep r) as [|h t] eqn:E; [congruence|].
    change (String.concat (String sep "") ("" :: h :: t))
      with (String sep (String.concat (String sep "") (h :: t))).
    rewrite IH. reflexivity.
  - pose proof (split_nonempty sep r) as Hn.
    destruct (Py.split sep r) as [|h t] eqn:E; [congruence|].
    rewrite concat_cons_String, IH. reflexivity.
Qed.

Lemma is_version_truthy (v : string) : is_version v = true -> Py.truthy_str v = true.
Proof. destruct v; [discriminate|reflexivity]. Qed.

Lemma length_neq (a b : string) : String.length a <> String.length b -> a <> b.
Proof. congruence. Qed.

(** X13: a directory name is canonical (it is the name [joinFolder]
    builds from what [splitFolder] reads off it) exactly when it has one
    segment, or two with the second non-empty, or three with a version in
    the second place and a non-empty third. Every other name stands for
    a folder of another name. *)
Theorem canonical_iff (d : string) :
  canonical d <-> canonical_shape (Py.split "_" d) = true.
Proof.
  unfold canonical, splitFolder.
  pose proof (concat_split "_" d) as Hd.
  pose proof (split_nonempty "_" d) as Hne.
  destruct (Py.split "_" d) as [|b [|x [|y [|z r]]]]; [congruence| | | |].
  - simpl in Hd. subst d. simpl. simplify_map_eq. split; reflexivity.
  - change (String.concat "_" [b; x]) with (b ++ "_" ++ x) in Hd.
    simpl canonical_shape. simpl List.hd.
    destruct (is_version x) eqn:Hv; simplify_map_eq; unfold joinFolder.
    + rewrite (is_version_truthy _ Hv). split; reflexivity.
    + destruct (Py.truthy_str x) eqn:Ht; [split; reflexivity|].
      split; [|discriminate]. intros H. exfalso. revert H. apply length_neq.
      rewrite !string_length_app. simpl. lia.
  - change (String.concat "_" [b; x; y]) with (b ++ "_" ++ x ++ "_" ++ y) in Hd.
    simpl canonical_shape. simpl List.hd.
    destruct (is_version x) eqn:Hv; simplify_map_eq; unfold joinFolder.
    + rewrite (is_version_truthy _ Hv).
      destruct (Py.truthy_str y) eqn:Ht; simpl.
      * rewrite string_app_assoc. split; reflexivity.
      * split; [|discriminate]. intros H. exfalso. revert H. apply length_neq.
        rewrite !string_length_app. simpl. lia.
    + split; [|discriminate]. intros H. exfalso. revert H. apply length_neq.
      destruct (Py.truthy_str y); rewrite !string_length_app; simpl; lia.
  - assert (Hlen : String.length b + String.length x + String.length y + 3
                   <= String.length d).
    { rewrite <- Hd.
      change (String.concat "_" (b :: x :: y :: z :: r))
        with (b ++ "_" ++ x ++ "_" ++ y ++ "_" ++ String.concat "_" (z :: r)).
      rewrite !string_length_app. simpl. lia. }
    simpl canonical_shape. simpl List.hd.
    split; [|discriminate]. intros H. exfalso. revert H. apply length_neq.
    destruct (is_version x) eqn:Hv; simplify_map_eq; unfold joinFolder;
      repeat case_match; rewrite ?string_length_app; simpl; lia.
Qed.

(** ** The summaries of the three commands *)

Lemma print_fields (v lv : nat) (l : line) (s : state) :
  fs (print v lv l s) = fs s /\ ctr (print v lv l s) = ctr s /\
  runs (print v lv l s) = runs s /\ prms (print v lv l s) = prms s.
Proof. unfold print. destruct (lv <=? v)%nat; repeat split. Qed.

Ltac reports_tac :=
  unfold reports, print_nonzero, get, print; simpl;
  repeat case_match; simpl; repeat apply conj; try reflexivity;
  rewrite <- ?app_assoc; simpl;
  eexists; (split; [reflexivity || (rewrite app_nil_r; reflexivity)|]);
  (split; [congruence|]); intros ?; try congruence;
  eexists; (split; [reflexivity|]); repeat constructor; eauto.

(** X14: each command returns what its worker returns (the same file
    system, counters, tool runs, loaded parameters and exception) and
    only adds its summary to the output: a blank line and lines that
    report counters of the worker; nothing when the worker raised.
    [distribute] runs its worker on the version list it chooses and with
    the module's verbosity when it is given none. *)
Theorem commands_report (walk : string -> FS -> list path)
    (xdelta_encode xdelta_decode : nat -> string -> string -> string)
    (settings : option params) (dirs : list string) (original_language : string)
    (force_override : bool) (languages : list string) (version : option string)
    (version_only : bool) (destination_dir : path) (verbose : option nat)
    (s : state) :
  reports
    (createPatches walk xdelta_encode settings dirs original_language
       force_override s)
    (createXDeltaPatches walk xdelta_encode settings dirs original_language
       force_override s) /\
  reports
    (applyPatches walk xdelta_decode settings dirs original_language
       force_override s)
    (applyXDeltaPatches walk xdelta_decode settings dirs original_language
       force_override s) /\
  reports
    (distribute walk settings languages version version_only original_language
       destination_dir force_override verbose s)
    (distributeOtherFiles walk settings languages
       (distribute_versions version version_only) original_language
       destination_dir force_override (default VERBOSE verbose) s).
Proof.
  unfold createPatches, applyPatches, distribute. cbv zeta.
  split; [|split].
  - destruct (createXDeltaPatches walk xdelta_encode settings dirs
                original_language force_override s) as [w|e w]; reports_tac.
  - destruct (applyXDeltaPatches walk xdelta_decode settings dirs
                original_language force_override s) as [w|e w]; reports_tac.
  - destruct (distributeOtherFiles walk settings languages
                (distribute_versions version version_only) original_language
                destination_dir force_override (default VERBOSE verbose) s)
      as [w|e w]; reports_tac.
Qed.

(** ** The properties on sample data *)

Lemma collectFiles_baseline_exclusion_witness :
  exists files,
    collectFiles Fs.walk Demo.translated [ "EN"; "DE" ] "JA" "Script" [ ".dat" ]
      None = inr files /\
    (([ "Script_EN"; "a.dat" ], [ "a.dat" ]) ∈ files <->
     ([ "Script_EN"; "a.dat" ], [ "a.dat" ])
       ∈ collect_candidates Fs.walk Demo.translated [ "EN"; "DE" ] "Script"
           [ ".dat" ] None /\
     (Fs.exists_ Demo.translated [ "Script_JA"; "a.dat" ] = false \/
      Fs.hash Demo.translated [ "Script_JA"; "a.dat" ]
      <> Fs.hash Demo.translated [ "Script_EN"; "a.dat" ])).
Proof.
  eexists. split.
  - vm_compute. reflexivity.
  - apply (collectFiles_baseline_exclusion Fs.walk Demo.translated [ "EN"; "DE" ]
             "JA" "Script" [ ".dat" ] None _ [ "Script_EN"; "a.dat" ] [ "a.dat" ]).
    vm_compute. reflexivity.
Defined.

Lemma createXDeltaPatches_frame_witness :
  fs (state_of (Demo.create false (Demo.start Demo.files)))
    !! [ "Script_EN"; "a.dat" ]
  = fs (Demo.start Demo.files) !! [ "Script_EN"; "a.dat" ].
Proof.
  apply (createXDeltaPatches_frame Fs.walk Demo.encode (Some Demo.settings)
           Demo.dirs "JA" false (Demo.start Demo.files) [ "Script_EN"; "a.dat" ]).
  - intros a H. apply (f_equal Py.last_char) in H.
    rewrite last_char_app in H by discriminate. discriminate.
  - intros a H. apply (f_equal Py.last_char) in H.
    rewrite last_char_app in H by discriminate. discriminate.
Defined.


Lemma applyXDeltaPatches_counter_sum_witness :
  exists o,
    out (state_of (applyXDeltaPatches Fs.walk Sample.decode (Some Demo.settings)
                     Demo.dirs "JA" false (Demo.start Sample.patched)))
    = ([] ++ o)%list /\
    total_applied
      (ctr (state_of (applyXDeltaPatches Fs.walk Sample.decode
                        (Some Demo.settings) Demo.dirs "JA" false
                        (Demo.start Sample.patched))))
    + warned o = enumerated o.
Proof.
  refine (proj2 (proj2 (applyXDeltaPatches_counter_sum Fs.walk Sample.decode
                          (Some Demo.settings) Demo.dirs "JA" false
                          (Demo.start Sample.patched) _ _))).
  apply done_state_of. vm_compute. reflexivity.
Defined.

Lemma distributeOtherFiles_counter_sum_witness :
  exists o,
    out (state_of (distributeOtherFiles Fs.walk (Some Demo.settings) [ "EN" ]
                     [ None ] "JA" [ "_dist" ] false 2
                     (Demo.start Demo.translated)))
    = ([] ++ o)%list /\
    total_distributed
      (ctr (state_of (distributeOtherFiles Fs.walk (Some Demo.settings) [ "EN" ]
                        [ None ] "JA" [ "_dist" ] false 2
                        (Demo.start Demo.translated))))
    = tiered o.
Proof.
  refine (distributeOtherFiles_counter_sum Fs.walk (Some Demo.settings) [ "EN" ]
            [ None ] "JA" [ "_dist" ] false 2 (Demo.start Demo.translated) _ _ _).
  - lia.
  - apply done_state_of. vm_compute. reflexivity.
Defined.

Lemma no_settings_no_work_witness :
  applyXDeltaPatches Fs.walk Sample.decode None Demo.dirs "JA" false
    (Demo.start Sample.patched)
  = Done {| fs := Sample.patched; ctr := ∅; out := []; runs := 0;
            prms := Some (Params.parseParams Params.loadDefaults) |}.
Proof.
  refine (proj1 (proj2 (no_settings_no_work Fs.walk Sample.encode Sample.decode
                          Demo.dirs "JA" false [ "EN" ] [ None ] [ "_dist" ] 2
                          (Demo.start Sample.patched) _))).
  reflexivity.
Defined.

Lemma createXDeltaPatches_rejected_once_witness :
  raised (createXDeltaPatches Fs.walk Demo.encode (Some Sample.pat_settings)
            Demo.dirs "JA" false (Demo.start Demo.files))
  = Some (UnsupportedParamException "PAT").
Proof.
  refine (proj1 (createXDeltaPatches_rejected_once Fs.walk Demo.encode
                   (Some Sample.pat_settings) Demo.dirs "JA" false false
                   (Demo.start Demo.files) (JList [ JStr "Message" ]) _ _ _)).
  - reflexivity.
  - reflexivity.
  - reflexivity.
Defined.

Lemma empty_original_language_witness :
  fs (state_of (createXDeltaPatches Fs.walk Demo.encode (Some Demo.settings)
                  Demo.dirs "" true (Demo.start Demo.files)))
  = Demo.files.
Proof.
  refine (proj1 (proj1 (empty_original_language Fs.walk Demo.encode Demo.decode
                          (Some Demo.settings) Demo.dirs "" true
                          (Demo.start Demo.files) _))).
  reflexivity.
Defined.

Lemma loopFiles_underscore_folder_witness :
  loopFiles Fs.walk (fun types ext => bool_decide (ext ∈ types))
    Sample.underscore_folders "JA" [ "Event_Script_JA"; "Event_Script_EN" ]
    (fun _ _ _ s => Done (count "create" s))
    (Demo.start Demo.files)
  = Done (Demo.start Demo.files).
Proof.
  apply (loopFiles_underscore_folder Fs.walk).
  intros folder types H. apply list_elem_of_singleton in H.
  injection H as -> _. reflexivity.
Defined.

Lemma copy_body_twice_witness :
  exists s2,
    copy_body false 2 [ "_dist"; "romfs" ] [ "Script_EN"; "a.dat" ] [ "a.dat" ]
      (state_of (copy_body false 2 [ "_dist"; "romfs" ] [ "Script_EN"; "a.dat" ]
                   [ "a.dat" ] (Demo.start Demo.files)))
    = Done s2 /\
    fs s2
    = fs (state_of (copy_body false 2 [ "_dist"; "romfs" ]
                      [ "Script_EN"; "a.dat" ] [ "a.dat" ]
                      (Demo.start Demo.files))) /\
    ctr s2
    = <[ "keep" :=
           S (default 0
                (ctr (state_of (copy_body false 2 [ "_dist"; "romfs" ]
                                  [ "Script_EN"; "a.dat" ] [ "a.dat" ]
                                  (Demo.start Demo.files))) !! "keep")) ]>
        (ctr (state_of (copy_body false 2 [ "_dist"; "romfs" ]
                          [ "Script_EN"; "a.dat" ] [ "a.dat" ]
                          (Demo.start Demo.files)))).
Proof.
  refine (copy_body_twice false 2 [ "_dist"; "romfs" ] [ "Script_EN"; "a.dat" ]
            [ "a.dat" ] (Demo.start Demo.files) _ _ _).
  - discriminate.
  - apply done_state_of. vm_compute. reflexivity.
Defined.

Lemma create_then_apply_witness :
  exists s1,
    create_body Sample.encode false [ "Script_EN"; "a.dat" ] "Script_JA"
      (Demo.start Demo.files) = Done s1 /\
    fs s1 = <[ patch_of [ "Script_EN"; "a.dat" ] := Sample.encode 0 "original" "edited" ]>
              Demo.files /\
    exists s2,
      apply_body Sample.decode false (patch_of [ "Script_EN"; "a.dat" ]) "Script_JA"
        (set_fs (delete [ "Script_EN"; "a.dat" ] (fs s1)) s1) = Done s2 /\
      fs s2 = fs s1.
Proof.
  refine (create_then_apply Sample.encode Sample.decode false false "Script_EN"
            "a.dat" [] "Script_JA" "original" "edited" (Demo.start Demo.files)
            _ _ _ _ _ _ _ _ _).
  - intros x Hx. rewrite !elem_of_cons, elem_of_nil in Hx.
    destruct Hx as [-> | [-> | []]]; split; reflexivity.
  - reflexivity.
  - discriminate.
  - reflexivity.
  - vm_compute. reflexivity.
  - vm_compute. reflexivity.
  - intros H. vm_compute in H. discriminate.
  - vm_compute. reflexivity.
  - vm_compute. reflexivity.
Defined.

Lemma hashZip_order_witness :
  Zip.hashZip [ ("b.txt", "B"); ("a.txt", "A") ]
  = Zip.hashZip [ ("a.txt", "A"); ("b.txt", "B") ].
Proof.
  apply hashZip_order.
  - apply perm_swap.
  - apply NoDup_cons. split; [|apply NoDup_singleton].
    rewrite list_elem_of_singleton. discriminate.
Defined.

(** ** Priority of the languages in [distributeOtherFiles] *)



(** A pass of the copy loop leaves a path alone that is the destination
    of none of its files. *)
Lemma copy_loop_frame (force_override : bool) (verbose : nat) (dest_folder : path)
    (files : list (path * path)) (s s' : state) (q : path) :
  for_each
    (fun '(source_file, simplename) =>
       copy_body force_override verbose dest_folder source_file simplename)
    files s = Done s' ->
  (forall n, n ∈ List.map snd files -> (dest_folder ++ n)%list <> q) ->
  fs s' !! q = fs s !! q.
Proof.
  revert s. induction files as [|[file n] r IH]; simpl; intros s H Hq.
  - injection H as <-. reflexivity.
  - destruct (copy_body _ _ _ _ _ s) as [s1|e s1] eqn:Hx; simpl in H; [|discriminate].
    apply copy_body_step in Hx as [_ Hf].
    rewrite (IH s1 H) by (intros m Hm; apply Hq; right; exact Hm).
    apply Hf. intros ->. exact (Hq n (list_elem_of_here _ _) eq_refl).
Qed.






(** The folder without language comes last: it supplies [b.dat], which
    no language has, and not [a.dat], which the second language has. *)
Example collectFiles_fallback :
  let r :=
    distributeOtherFiles Fs.walk (Some Demo.settings) [ "EN"; "DE" ] [ None ]
      "JA" [ "_dist" ] false 2 (Demo.start Sample.with_fallback) in
  (forall file,
     (file, [ "a.dat" ])
       ∈ collect_candidates Fs.walk Sample.with_fallback [ "EN"; "DE" ] "Script"
           [ ".dat" ] None ->
     file = [ "Script_DE"; "a.dat" ]) /\
  (forall file,
     (file, [ "b.dat" ])
       ∈ collect_candidates Fs.walk Sample.with_fallback [ "EN"; "DE" ] "Script"
           [ ".dat" ] None ->
     file = [ "Script"; "b.dat" ]) /\
  raised r = None /\
  fs (state_of r) !! [ "_dist"; "romfs"; "script"; "a.dat" ] = Some "deutsch" /\
  fs (state_of r) !! [ "_dist"; "romfs"; "script"; "b.dat" ] = Some "generic b".
Proof.
  cbv zeta.
  assert (E : exists l,
    collect_candidates Fs.walk Sample.with_fallback [ "EN"; "DE" ] "Script"
      [ ".dat" ] None = l /\
    forall file n, (file, n) ∈ l ->
      (file, n) = ([ "Script_DE"; "a.dat" ], [ "a.dat" ]) \/
      (file, n) = ([ "Script"; "b.dat" ], [ "b.dat" ])).
  { eexists. split; [vm_compute; reflexivity|].
    intros file n H. rewrite !elem_of_cons, elem_of_nil in H. tauto. }
  destruct E as (l & -> & Hl).
  split; [|split].
  - intros file H. destruct (Hl _ _ H) as [E|E]; injection E; congruence.
  - intros file H. destruct (Hl _ _ H) as [E|E]; injection E; congruence.
  - repeat apply conj; vm_compute; reflexivity.
Qed.

Lemma walk_top_down_spec : walk_spec Sample.walk_top_down.
Proof.
  intros top f q. unfold Sample.walk_top_down.
  rewrite <- (Fs_walk_spec top f q), list_elem_of_In, <- in_rev, <- list_elem_of_In.
  reflexivity.
Qed.

(** Why the amended C5 speaks of the digest the file has when the loop
    reaches it. With the destination inside the folder of the language
    and a walk that lists the files of a directory before those of its
    subdirectories, the copy of [y.dat] replaces the collected file
    [x/y.dat] before that file is copied. *)
Example distribute_onto_collected_file :
  let walk := Sample.walk_top_down in
  let f := Sample.inward_files in
  let r :=
    distribute_tier walk [ "EN" ] [ None ] "JA" [ "Script_EN" ] false 2
      (Params.parseParams Sample.inward_settings) "Script" [ ".dat" ] None
      (Demo.start f) in
  collectFiles walk f [ "EN" ] "JA" "Script" [ ".dat" ] None
  = inr [ ([ "Script_EN"; "y.dat" ], [ "y.dat" ]);
          ([ "Script_EN"; "x"; "y.dat" ], [ "x"; "y.dat" ]) ] /\
  raised r = None /\
  f !! [ "Script_EN"; "x"; "y.dat" ] = Some "inner" /\
  fs (state_of r) !! [ "Script_EN"; "x"; "x"; "y.dat" ] = Some "outer".
Proof. cbv zeta. repeat apply conj; vm_compute; reflexivity. Qed.
